(** * Bug Bounty Program Finder (app.py): a shallow embedding

    The Streamlit page of [app.py] is modelled as state-passing code over a
    [World] that holds the session state, the wall clock and an ordered log
    of everything the page did to the outside: remote calls of the OpenAI
    client, sleeps and messages shown to the user.  The remote service is an
    arbitrary oracle ([Remote]); every theorem quantifies over it. *)

From Stdlib Require Import String Ascii List ZArith NArith Bool Lia DecimalString.
Import ListNotations.
Local Open Scope string_scope.
Local Open Scope Z_scope.

(** ** Python strings

    A Python [str] is represented by its UTF-8 bytes. *)
Module PyStr.

(** Whitespace in the sense of [str.isspace], by encoded length.
    One byte: U+0009..U+000D, U+001C..U+001F, U+0020. *)
Definition ws1 (a : ascii) : bool :=
  let n := N_of_ascii a in
  ((9 <=? n) && (n <=? 13) || (28 <=? n) && (n <=? 32))%N.

(** Two bytes: U+0085 (C2 85), U+00A0 (C2 A0). *)
Definition ws2 (a b : ascii) : bool :=
  let m := N_of_ascii b in
  ((N_of_ascii a =? 194) && ((m =? 133) || (m =? 160)))%N.

(** Three bytes: U+1680 (E1 9A 80), U+2000..U+200A (E2 80 80..8A),
    U+2028, U+2029 (E2 80 A8, A9), U+202F (E2 80 AF), U+205F (E2 81 9F),
    U+3000 (E3 80 80). *)
Definition ws3 (a b c : ascii) : bool :=
  let x := N_of_ascii a in
  let y := N_of_ascii b in
  let z := N_of_ascii c in
  ((x =? 225) && (y =? 154) && (z =? 128)
   || (x =? 226) && (y =? 128)
        && ((128 <=? z) && (z <=? 138) || (z =? 168) || (z =? 169) || (z =? 175))
   || (x =? 226) && (y =? 129) && (z =? 159)
   || (x =? 227) && (y =? 128) && (z =? 128))%N.

(** [str.lstrip()] *)
Fixpoint lstrip (s : string) : string :=
  match s with
  | EmptyString => EmptyString
  | String a r1 =>
      if ws1 a then lstrip r1 else
      match r1 with
      | EmptyString => s
      | String b r2 =>
          if ws2 a b then lstrip r2 else
          match r2 with
          | EmptyString => s
          | String c r3 => if ws3 a b c then lstrip r3 else s
          end
      end
  end.

(** The same scan on the reversed byte sequence: the bytes of a character
    come last byte first. *)
Fixpoint lstrip_rev (s : string) : string :=
  match s with
  | EmptyString => EmptyString
  | String a r1 =>
      if ws1 a then lstrip_rev r1 else
      match r1 with
      | EmptyString => s
      | String b r2 =>
          if ws2 b a then lstrip_rev r2 else
          match r2 with
          | EmptyString => s
          | String c r3 => if ws3 c b a then lstrip_rev r3 else s
          end
      end
  end.

Definition rev (s : string) : string :=
  string_of_list_ascii (List.rev (list_ascii_of_string s)).

(** [str.rstrip()] *)
Definition rstrip (s : string) : string := rev (lstrip_rev (rev s)).

(** [str.strip()] *)
Definition strip (s : string) : string := rstrip (lstrip s).

(** Strings made of whitespace characters only (the empty one included). *)
Fixpoint blank (s : string) : bool :=
  match s with
  | EmptyString => true
  | String a r1 =>
      if ws1 a then blank r1 else
      match r1 with
      | EmptyString => false
      | String b r2 =>
          if ws2 a b then blank r2 else
          match r2 with
          | EmptyString => false
          | String c r3 => if ws3 a b c then blank r3 else false
          end
      end
  end.

(** Python truth value of a [str]: [not s] holds for the empty string only. *)
Definition truthy (s : string) : bool :=
  match s with EmptyString => false | String _ _ => true end.

(** [pat in s] *)
Fixpoint contains (pat s : string) : bool :=
  prefix pat s ||
  match s with
  | EmptyString => false
  | String _ r => contains pat r
  end.

(** The concatenation of a list of strings. *)
Definition join (l : list string) : string := fold_right append "" l.

End PyStr.


(** ** Exceptions and the state-and-exception monad *)

Inductive exn_class : Type :=
| APIError         (* raised by the OpenAI client for a failed request *)
| AttributeError
| TypeError
| ValueError
| StreamlitDuplicateElementKey  (* raised by a widget whose key is in use *)
| RerunException.  (* Streamlit's script-control exception: a BaseException,
                      so [except Exception] does not catch it *)

Record exn : Type := PyExc { exn_cls : exn_class; exn_msg : string }.

(** [isinstance(e, Exception)] *)
Definition is_Exception (e : exn) : bool :=
  match exn_cls e with
  | RerunException => false
  | _ => true
  end.

Inductive res (A : Type) : Type :=
| Val (a : A)
| Raised (e : exn)
| OutOfFuel.
Arguments Val {A} a.
Arguments Raised {A} e.
Arguments OutOfFuel {A}.

Definition M (S A : Type) : Type := S -> res A * S.

Definition ret {S A} (a : A) : M S A := fun s => (Val a, s).

Definition bind {S A B} (m : M S A) (k : A -> M S B) : M S B :=
  fun s =>
    match m s with
    | (Val a, s') => k a s'
    | (Raised e, s') => (Raised e, s')
    | (OutOfFuel, s') => (OutOfFuel, s')
    end.

Definition raise {S A} (c : exn_class) (msg : string) : M S A :=
  fun s => (Raised (PyExc c msg), s).

(** [try: m  except Exception as e: handler e] *)
Definition try_except {S A} (m : M S A) (handler : exn -> M S A) : M S A :=
  fun s =>
    match m s with
    | (Raised e, s') => if is_Exception e then handler e s' else (Raised e, s')
    | r => r
    end.

(** A computation that raises nothing but [Exception]s and does not run
    out of fuel. *)
Definition tame {S A} (m : M S A) : Prop :=
  forall s, match fst (m s) with
            | Val _ => True
            | Raised e => is_Exception e = true
            | OutOfFuel => False
            end.

Declare Scope py_scope.
Delimit Scope py_scope with py.
Notation "x <- c1 ;; c2" := (bind c1 (fun x => c2))
  (at level 61, c1 at next level, right associativity) : py_scope.
Notation "c1 ;; c2" := (bind c1 (fun _ => c2))
  (at level 61, right associativity) : py_scope.
Local Open Scope py_scope.

(** [for x in l: body x] *)
Fixpoint for_each {S A} (l : list A) (body : A -> M S unit) : M S unit :=
  match l with
  | [] => ret tt
  | x :: rest => body x ;; for_each rest body
  end.

(** ** Dynamically typed values: the completion object

    The result of [client.responses.create] is read by attribute name and
    by iteration only, so it is modelled as a tree of plain Python values.
    [PObj attrs] is an object that has the attributes [attrs] and no other,
    is true, and is not iterable. *)
#[warnings="-register-all"]
Inductive PyVal : Type :=
| PNone
| PBool (b : bool)
| PInt (z : Z)
| PStr (s : string)
| PList (items : list PyVal)
| PObj (attrs : list (string * PyVal)).

Module Py.

Fixpoint assoc (name : string) (attrs : list (string * PyVal)) : option PyVal :=
  match attrs with
  | [] => None
  | (k, v) :: rest => if (k =? name)%string then Some v else assoc name rest
  end.

(** [getattr(o, name, default)] *)
Definition getattr (o : PyVal) (name : string) (default : PyVal) : PyVal :=
  match o with
  | PObj attrs =>
      match assoc name attrs with
      | Some v => v
      | None => default
      end
  | _ => default
  end.

(** [o.name] *)
Definition attr {S} (o : PyVal) (name : string) : M S PyVal :=
  match o with
  | PObj attrs =>
      match assoc name attrs with
      | Some v => ret v
      | None => raise AttributeError ("object has no attribute '" ++ name ++ "'")
      end
  | _ => raise AttributeError ("object has no attribute '" ++ name ++ "'")
  end.

(** [bool(v)] *)
Definition truthy (v : PyVal) : bool :=
  match v with
  | PNone => false
  | PBool b => b
  | PInt z => negb (z =? 0)
  | PStr s => PyStr.truthy s
  | PList items => match items with [] => false | _ :: _ => true end
  | PObj _ => true
  end.

(** [a or b] *)
Definition or (a b : PyVal) : PyVal := if truthy a then a else b.

(** [v == s] for a string literal [s] *)
Definition eq_str (v : PyVal) (s : string) : bool :=
  match v with
  | PStr t => (t =? s)%string
  | _ => false
  end.

(** A UTF-8 continuation byte, 10xxxxxx. *)
Definition is_cont (a : ascii) : bool :=
  let n := N_of_ascii a in ((128 <=? n) && (n <? 192))%N.

(** The characters of a string, each as a one-character string. *)
Fixpoint chars (s : string) : list string :=
  match s with
  | EmptyString => []
  | String a r =>
      let rest := chars r in
      match r with
      | EmptyString => [String a EmptyString]
      | String b _ =>
          if is_cont b then
            match rest with
            | c :: cs => String a c :: cs
            | [] => [String a EmptyString]
            end
          else String a EmptyString :: rest
      end
  end.

(** [iter(v)], fully unrolled: what [for x in v] runs over. *)
Definition iter {S} (v : PyVal) : M S (list PyVal) :=
  match v with
  | PList items => ret items
  | PStr s => ret (map PStr (chars s))
  | _ => raise TypeError "object is not iterable"
  end.

End Py.


(** ** The remote service and the world *)

(** Objects returned by the OpenAI client.  A field read in [app.py] with
    [getattr(o, name, default)] or compared with a default is an [option]:
    [None] when the attribute is missing. *)
Record Created : Type := { id : string }.
Record VectorStore : Type := { vs_id : option string; vs_name : option string }.
Record FileRef : Type :=
  { ref_file_id : option string; ref_id : option string; ref_status : option string }.
Record FileObject : Type := { fo_filename : option string; fo_name : option string }.

(** The requests [app.py] sends through [client]. *)
Inductive Call : Type :=
| responses_create (model input : string) (vector_store_ids : list (option string))
| vector_stores_create (name : string)
| vector_stores_list
| vector_stores_delete (vector_store_id : string)
| vector_stores_files_list (vector_store_id : option string)
| vector_stores_files_create (vector_store_id : option string) (file_id : string)
| vector_stores_files_delete (vector_store_id : string) (file_id : option string)
| files_create (name content purpose : string)
| files_retrieve (file_id : string)
| files_delete (file_id : string).

Definition answer (c : Call) : Type :=
  match c with
  | responses_create _ _ _ => PyVal
  | vector_stores_create _ => Created
  | vector_stores_list => list VectorStore
  | vector_stores_delete _ => unit
  | vector_stores_files_list _ => list FileRef
  | vector_stores_files_create _ _ => unit
  | vector_stores_files_delete _ _ => unit
  | files_create _ _ _ => Created
  | files_retrieve _ => FileObject
  | files_delete _ => unit
  end.

Inductive Reply (A : Type) : Type :=
| Ok (a : A)
| Fail (msg : string).
Arguments Ok {A} a.
Arguments Fail {A} msg.

(** The service is an oracle: its reply to a request may depend on the time
    and on every request made before.  So is the time things take: a
    request takes [latency] milliseconds, and a [time.sleep] of [d]
    milliseconds that starts at time [t] lasts [d] and [overrun t d] more
    (Python sleeps at least as long as asked, the scheduler decides how
    much longer).  What the script does between two requests or sleeps is
    counted with the one before. *)
Record Remote : Type :=
  { serve : Z -> list Call -> forall c : Call, Reply (answer c);
    latency : Z -> list Call -> Call -> N;
    overrun : Z -> Z -> N }.

(** Streamlit elements that show text ([st.x] and [kb.x] alike). *)
Inductive Element : Type :=
| warning | error | info | success | write | code | caption.

Inductive Event : Type :=
| Called (c : Call)
| Slept (ms : Z)
| Shown (el : Element) (text : string).

(** [clock] is the reading of [time.time()], in whole milliseconds (the
    rounding of the float arithmetic of line 258 is not modelled); [log]
    is in chronological order; [OPENAI_API_KEY], [OPENAI_MODEL] and
    [ACTIVE_VECTOR_STORE_ID] are [st.session_state]; [widget_keys] are the
    keys of the widgets the current run has created so far, latest first. *)
Record World : Type :=
  { clock : Z;
    log : list Event;
    OPENAI_API_KEY : string;
    OPENAI_MODEL : string;
    ACTIVE_VECTOR_STORE_ID : option string;
    widget_keys : list string }.

Definition with_log (w : World) (l : list Event) : World :=
  {| clock := clock w; log := l;
     OPENAI_API_KEY := OPENAI_API_KEY w; OPENAI_MODEL := OPENAI_MODEL w;
     ACTIVE_VECTOR_STORE_ID := ACTIVE_VECTOR_STORE_ID w;
     widget_keys := widget_keys w |}.

Definition with_clock (w : World) (t : Z) : World :=
  {| clock := t; log := log w;
     OPENAI_API_KEY := OPENAI_API_KEY w; OPENAI_MODEL := OPENAI_MODEL w;
     ACTIVE_VECTOR_STORE_ID := ACTIVE_VECTOR_STORE_ID w;
     widget_keys := widget_keys w |}.

Definition with_active (w : World) (a : option string) : World :=
  {| clock := clock w; log := log w;
     OPENAI_API_KEY := OPENAI_API_KEY w; OPENAI_MODEL := OPENAI_MODEL w;
     ACTIVE_VECTOR_STORE_ID := a;
     widget_keys := widget_keys w |}.

Definition with_keys (w : World) (keys : list string) : World :=
  {| clock := clock w; log := log w;
     OPENAI_API_KEY := OPENAI_API_KEY w; OPENAI_MODEL := OPENAI_MODEL w;
     ACTIVE_VECTOR_STORE_ID := ACTIVE_VECTOR_STORE_ID w;
     widget_keys := keys |}.

(** The requests of a log, in order. *)
Fixpoint calls_of (l : list Event) : list Call :=
  match l with
  | [] => []
  | Called c :: rest => c :: calls_of rest
  | _ :: rest => calls_of rest
  end.

Fixpoint sleeps_of (l : list Event) : list Z :=
  match l with
  | [] => []
  | Slept d :: rest => d :: sleeps_of rest
  | _ :: rest => sleeps_of rest
  end.

Definition gpt_default : string := "gpt-4.1-mini".

(** Session state after the defaults of lines 8-13. *)
Definition fresh_session (t : Z) : World :=
  {| clock := t; log := [];
     OPENAI_API_KEY := ""; OPENAI_MODEL := gpt_default;
     ACTIVE_VECTOR_STORE_ID := None; widget_keys := [] |}.

(** Truth value of an optional string ([None] and [""] are false). *)
Definition truthy_opt (o : option string) : bool :=
  match o with
  | Some s => PyStr.truthy s
  | None => false
  end.

(** [a or b] on optional strings. *)
Definition or_opt (a b : option string) : option string :=
  if truthy_opt a then a else b.

Definition default (d : string) (o : option string) : string :=
  match o with
  | Some s => s
  | None => d
  end.

(** The id the delete loop reads from a reference (line 187). *)
Definition ref_fid (ref : FileRef) : option string :=
  or_opt (ref_file_id ref) (ref_id ref).

(** The ids of the references that have one, in order. *)
Fixpoint attached_ids (refs : list FileRef) : list string :=
  match refs with
  | [] => []
  | ref :: rest =>
      if truthy_opt (ref_fid ref) then default "" (ref_fid ref) :: attached_ids rest
      else attached_ids rest
  end.

(** A detach and a file deletion for every id, in order. *)
Definition file_attempts (vs : string) (fids : list string) : list Call :=
  flat_map (fun fid => [vector_stores_files_delete vs (Some fid); files_delete fid]) fids.

(** [str(n)] for a counter. *)
Definition string_of_nat (n : nat) : string :=
  DecimalString.NilZero.string_of_uint (Nat.to_uint n).

(** The error messages of a log, in order. *)
Fixpoint errors_of (l : list Event) : list string :=
  match l with
  | [] => []
  | Shown error text :: rest => text :: errors_of rest
  | _ :: rest => errors_of rest
  end.

(** [o == s] for an optional string [o] and a string [s]. *)
Definition option_eq_str (o : option string) (s : string) : bool :=
  match o with
  | Some t => (t =? s)%string
  | None => false
  end.

(** [client]: line 16 builds it once per run from the session's key, which
    nothing changes during the run; [None] when the key is empty. *)
Definition client (w : World) : bool := PyStr.truthy (OPENAI_API_KEY w).

(** [MODEL_NAME], line 19. *)
Definition MODEL_NAME (w : World) : string := OPENAI_MODEL w.

(** What an action leaves behind when all it does is show one message. *)
Definition only_shows (el : Element) (text : string) (w : World)
                      (out : res unit * World) : Prop :=
  out = (Val tt, with_log w (log w ++ [Shown el text])).

(** The number of whole poll intervals that cover a budget: the budget
    divided by the interval, rounded up. *)
Definition max_turns (timeout_sec poll_interval : Z) : nat :=
  Z.to_nat ((1000 * timeout_sec + poll_interval - 1) / poll_interval).

(** Defaults of [wait_until_file_indexed] (line 256) and the budget passed
    by the upload action (line 306). *)
Definition default_timeout_sec : Z := 60.
Definition default_poll_interval : Z := 1000.
Definition upload_timeout_sec : Z := 90.

(** The message of Streamlit's [StreamlitDuplicateElementKey]. *)
Definition duplicate_key_message (key : string) : string :=
  "There are multiple elements with the same `key='" ++ key
  ++ "'`. To fix this, please make sure that the `key` argument is unique for "
  ++ "each element you create.".

(** The widget keys of lines 169, 174, 213 and 238; [fid] is formatted
    as an f-string does, [None] giving [None]. *)
Definition set_active_key (vs_id : string) : string := "btn_set_active_" ++ vs_id.
Definition delete_store_key (vs_id : string) : string := "btn_delete_store_" ++ vs_id.
Definition show_files_key (vs_id : string) : string := "chk_show_files_" ++ vs_id.
Definition delete_file_key (vs_id : string) (fid : option string) : string :=
  "btn_del_" ++ vs_id ++ "_" ++ default "None" fid.

(** The constant widget keys of the script (lines 111, 116, 125, 139). *)
Definition constant_keys : list string :=
  ["OPENAI_API_KEY"; "OPENAI_MODEL"; "btn_create_vs"; "btn_refresh_stores"].

(** The static texts of lines 28, 110 and 119. *)
Definition intro_text : string :=
  "Enter email, org name, domain/URLs, or any info to see if a bug bounty program (BBP) exists.".
Definition settings_caption : string :=
  "Provide your OpenAI API key and preferred model.".
Definition knowledge_base_caption : string :=
  "Upload files, select/create vector stores, and manage existing files.".

Section App.

Variable remote : Remote.
(** Python's [str] on a value of the completion. *)
Variable py_str : PyVal -> string.

Definition show (el : Element) (text : string) : M World unit :=
  fun w => (Val tt, with_log w (log w ++ [Shown el text])).

(** The world after a sleep of [d] milliseconds: it lasted [d] and the
    overrun. *)
Definition slept (d : Z) (w : World) : World :=
  with_clock (with_log w (log w ++ [Slept d]))
             (clock w + d + Z.of_N (overrun remote (clock w) d)).

(** [time.sleep(d)]: raises [ValueError] for a negative length. *)
Definition sleep (d : Z) : M World unit :=
  fun w =>
    if d <? 0 then (Raised (PyExc ValueError "sleep length must be non-negative"), w)
    else (Val tt, slept d w).

(** The world after request [c] was sent and answered. *)
Definition called (c : Call) (w : World) : World :=
  with_clock (with_log w (log w ++ [Called c]))
             (clock w + Z.of_N (latency remote (clock w) (calls_of (log w)) c)).

(** The service's reply to [c] in world [w]. *)
Definition reply (c : Call) (w : World) : Reply (answer c) :=
  serve remote (clock w) (calls_of (log w)) c.

(** A request through [client]: an [AttributeError] when [client] is [None];
    otherwise the request is logged, takes its latency, and returns the
    service's answer or raises the service's error. *)
Definition request (c : Call) : M World (answer c) :=
  fun w =>
    if client w then
      match reply c w with
      | Ok a => (Val a, called c w)
      | Fail msg => (Raised (PyExc APIError msg), called c w)
      end
    else (Raised (PyExc AttributeError "'NoneType' object has no attribute"), w).

(** [get_active_vector_store_id()] *)
Definition get_active_vector_store_id : M World (option string) :=
  fun w => (Val (ACTIVE_VECTOR_STORE_ID w), w).

Definition set_active (a : option string) : M World unit :=
  fun w => (Val tt, with_active w a).

(** [st.rerun()] *)
Definition st_rerun {A} : M World A := raise RerunException "rerun".

(** A run of the script starts with no widget. *)
Definition new_run : M World unit :=
  fun w => (Val tt, with_keys w []).

(** A widget created with [key=...]: Streamlit raises
    [StreamlitDuplicateElementKey] when the run has already created a
    widget with that key.  Only the keys built from ids of the service
    (lines 169, 174, 213, 238) are followed: the other keys of the script
    are constants which differ from one another and from each of these
    (see [loop_keys_apart]). *)
Definition widget (key : string) : M World unit :=
  fun w =>
    if existsb (String.eqb key) (widget_keys w) then
      (Raised (PyExc StreamlitDuplicateElementKey (duplicate_key_message key)), w)
    else (Val tt, with_keys w (key :: widget_keys w)).

(** *** Response extraction (lines 70-87) *)

Record Citation : Type := { file_id : PyVal; filename : PyVal }.

(** The two local variables of the extraction block. *)
Record Locals : Type := { output_text : string; citations : list Citation }.

Definition locals0 : Locals := {| output_text := ""; citations := [] |}.

(** [output_text += v]: a [TypeError] unless [v] is a [str]. *)
Definition add_text (v : PyVal) : M Locals unit :=
  fun st =>
    match v with
    | PStr s =>
        (Val tt, {| output_text := output_text st ++ s; citations := citations st |})
    | _ => (Raised (PyExc TypeError "can only concatenate str to str"), st)
    end.

(** [citations.append(c)] *)
Definition append_citation (c : Citation) : M Locals unit :=
  fun st =>
    (Val tt, {| output_text := output_text st; citations := citations st ++ [c] |}).

Definition set_output_text (s : string) : M Locals unit :=
  fun st => (Val tt, {| output_text := s; citations := citations st |}).

(** The locals after [st] once the fragments [ts] and the citations [cs]
    have been added. *)
Definition grown (st : Locals) (ts : list string) (cs : list Citation) : Locals :=
  {| output_text := output_text st ++ PyStr.join ts;
     citations := citations st ++ cs |}.

Definition visit_annotation (ann : PyVal) : M Locals unit :=
  if Py.eq_str (Py.getattr ann "type" PNone) "file_citation" then
    append_citation
      {| file_id := Py.getattr ann "file_id" (PStr "");
         filename := Py.getattr ann "filename" (PStr "") |}
  else ret tt.

Definition visit_content (content : PyVal) : M Locals unit :=
  if Py.eq_str (Py.getattr content "type" PNone) "output_text" then
    text <- Py.attr content "text" ;;
    add_text (Py.or text (PStr "")) ;;
    anns <- Py.iter (Py.or (Py.getattr content "annotations" PNone) (PList [])) ;;
    for_each anns visit_annotation
  else ret tt.

Definition visit_item (item : PyVal) : M Locals unit :=
  if Py.eq_str (Py.getattr item "type" PNone) "message" then
    content <- Py.attr item "content" ;;
    blocks <- Py.iter (Py.or content (PList [])) ;;
    for_each blocks visit_content
  else ret tt.

(** The body of the inner [try], lines 73-84. *)
Definition traverse (response : PyVal) : M Locals unit :=
  output <- Py.attr response "output" ;;
  items <- Py.iter (Py.or output (PList [])) ;;
  for_each items visit_item.

(** Lines 70-87: the traversal under its [except Exception]. *)
Definition extract_block (response : PyVal) : M Locals unit :=
  try_except (traverse response)
             (fun _ => set_output_text (py_str response)).

(** The locals after the block, starting from lines 70-71. *)
Definition extract (response : PyVal) : Locals :=
  snd (extract_block response locals0).

(** *** The "Find Program" action (lines 36-102) *)

Definition prompt_for (user_text : string) : string :=
  "You’re assigned a task to determine whether a bug bounty program exists for the given input. "
  ++ "Use the file_search tool on the provided vector store to verify. "
  ++ "Respond strictly in a **single JSON object only**, with no explanations or extra text. "
  ++ "Fields required: 'Found' (Yes/No), 'Source', 'Rewards' (Yes/No), 'Program Url'. "
  ++ "Input: " ++ PyStr.strip user_text.

Definition msg_input_required : string :=
  "Please provide some input (domain, email, org name, etc.).".
Definition msg_no_key_find : string :=
  "OpenAI API key is not set. Please set it in the sidebar under Settings.".
Definition msg_no_store_find : string :=
  "No active vector store set. Create one or set an ID in the 'Manage Knowledge Base' section.".
Definition msg_no_key : string := "Set your OpenAI API key in Settings first.".
Definition msg_no_store_upload : string :=
  "No active vector store set. Create one or set an ID above.".
Definition msg_no_files : string := "Please choose one or more files to upload.".
Definition deletion_message (vs : string) (deleted_files : nat) : string :=
  "Deleted vector store: " ++ vs ++ " (and "
  ++ string_of_nat deleted_files ++ " related files)".
Definition listing_failure (msg : string) : string :=
  "Failed to list vector stores: " ++ msg.
Definition deletion_failure (vs msg : string) : string :=
  "Failed to delete vector store " ++ vs ++ ": " ++ msg.

(** Lines 95-98. *)
Definition show_citation (c : Citation) : M World unit :=
  let fn := if Py.truthy (filename c) then py_str (filename c) else "(unknown file)" in
  let fid := if Py.truthy (file_id c) then py_str (file_id c) else "(no id)" in
  show write ("- " ++ fn ++ " [" ++ fid ++ "]").

(** Lines 45-100: the body of the outer [try]. *)
Definition search (user_text : string) : M World unit :=
  fun w =>
    (active <- get_active_vector_store_id ;;
     response <- request (responses_create (MODEL_NAME w) (prompt_for user_text) [active]) ;;
     let st := extract response in
     if PyStr.truthy (output_text st) then
       show success "Result" ;;
       show code (output_text st) ;;
       match citations st with
       | [] => ret tt
       | _ :: _ => show caption "Citations:" ;; for_each (citations st) show_citation
       end
     else show info "No output returned.") w.

Definition find_program (user_text : string) : M World unit :=
  fun w =>
    if negb (PyStr.truthy (PyStr.strip user_text)) then
      show warning msg_input_required w
    else if negb (client w) then
      show error msg_no_key_find w
    else if negb (truthy_opt (ACTIVE_VECTOR_STORE_ID w)) then
      show error msg_no_store_find w
    else
      try_except (search user_text)
                 (fun e => show error ("An error occurred: " ++ exn_msg e)) w.

(** *** "Create New Vector Store" (lines 125-134) *)

Definition create_vector_store (vs_name : string) : M World unit :=
  try_except
    (fun w =>
       if negb (PyStr.truthy (OPENAI_API_KEY w)) then show error msg_no_key w
       else
         (created_vs <- request (vector_stores_create vs_name) ;;
          set_active (Some (id created_vs)) ;;
          show success ("Created new vector store: " ++ id created_vs)) w)
    (fun e => show error ("Failed to create vector store: " ++ exn_msg e)).

(** *** [list_vector_stores] (lines 142-156) *)

Definition not_found_marker : string := "Vector store not found".

Definition list_vector_stores : M World (list VectorStore) :=
  try_except
    (fun w =>
       if negb (PyStr.truthy (OPENAI_API_KEY w)) || negb (client w) then
         (show info "Set your OpenAI API key in Settings to load stores." ;; ret []) w
       else request vector_stores_list w)
    (fun e =>
       (if PyStr.contains not_found_marker (exn_msg e) then
          show info "Refreshing stores..." ;; st_rerun
        else show error (listing_failure (exn_msg e))) ;;
       ret []).

(** *** "Delete Store" (lines 174-210) *)

(** Lines 186-200: the loop over the file references; [deleted_files] is
    the counter. *)
Fixpoint delete_refs (vs : string) (refs : list FileRef) (deleted_files : nat)
  : M World nat :=
  match refs with
  | [] => ret deleted_files
  | ref :: rest =>
      match or_opt (ref_file_id ref) (ref_id ref) with
      | Some fid =>
          if PyStr.truthy fid then
            try_except (request (vector_stores_files_delete vs (Some fid)))
                       (fun _ => ret tt) ;;
            n <- try_except
                   (request (files_delete fid) ;; ret (S deleted_files))
                   (fun e =>
                      show warning ("Failed to delete file " ++ fid ++ ": " ++ exn_msg e) ;;
                      ret deleted_files) ;;
            delete_refs vs rest n
          else delete_refs vs rest deleted_files
      | None => delete_refs vs rest deleted_files
      end
  end.

(** Lines 180-184. *)
Definition enumerate_files (vs : string) : M World (list FileRef) :=
  try_except (request (vector_stores_files_list (Some vs))) (fun _ => ret []).

(** Lines 203-208. *)
Definition delete_collection (vs : string) (deleted_files : nat) : M World unit :=
  request (vector_stores_delete vs) ;;
  active <- get_active_vector_store_id ;;
  (if option_eq_str active vs then set_active None else ret tt) ;;
  show success (deletion_message vs deleted_files) ;;
  st_rerun.

(** Lines 180-200: steps 1 to 3, with the number of files deleted. *)
Definition detach_and_delete_files (vs : string) : M World nat :=
  refs <- enumerate_files vs ;;
  delete_refs vs refs 0.

Definition delete_store (vs : string) : M World unit :=
  try_except
    (fun w =>
       if negb (client w) then show error msg_no_key w
       else
         (deleted_files <- detach_and_delete_files vs ;;
          delete_collection vs deleted_files) w)
    (fun e => show error (deletion_failure vs (exn_msg e))).

(** The world after the store was deleted: lines 203-207. *)
Definition store_deleted (vs : string) (n : nat) (w1 : World) : World :=
  let w2 := called (vector_stores_delete vs) w1 in
  let w3 := if option_eq_str (ACTIVE_VECTOR_STORE_ID w2) vs
            then with_active w2 None else w2 in
  with_log w3 (log w3 ++ [Shown success (deletion_message vs n)]).

(** The references the enumeration of line 181 yields in world [w]: those
    of the listing, none when the listing fails. *)
Definition enumerated (vs : string) (w : World) : list FileRef :=
  match reply (vector_stores_files_list (Some vs)) w with
  | Ok refs => refs
  | Fail _ => []
  end.

(** *** "Show files" (lines 213-251) *)

(** Lines 225-244: one row of the file list; [delete_clicked] is the state
    of the row's "Delete" button. *)
Definition file_row (vs : string) (delete_clicked : option string -> bool)
                    (ref : FileRef) : M World unit :=
  let fid := or_opt (ref_file_id ref) (ref_id ref) in
  filename <-
    (if truthy_opt fid then
       try_except
         (fobj <- request (files_retrieve (default "" fid)) ;;
          ret (or_opt (fo_filename fobj) (fo_name fobj)))
         (fun _ => ret None)
     else ret None) ;;
  show write (default "(unknown)" (or_opt filename (Some "(unknown)"))) ;;
  widget (delete_file_key vs fid) ;;
  if delete_clicked fid then
    let shown := default "None" (or_opt filename fid) in
    try_except
      (request (vector_stores_files_delete vs fid) ;;
       show success ("Deleted: " ++ shown) ;;
       st_rerun)
      (fun e => show error ("Failed to delete " ++ shown ++ ": " ++ exn_msg e))
  else ret tt.

Definition show_files (vs : string) (delete_clicked : option string -> bool)
  : M World unit :=
  try_except
    (fun w =>
       if negb (client w) then
         show info "Set your OpenAI API key in Settings to load files." w
       else
         (refs <- request (vector_stores_files_list (Some vs)) ;;
          match refs with
          | [] => show write "No files."
          | _ :: _ => for_each refs (file_row vs delete_clicked)
          end) w)
    (fun e =>
       if PyStr.contains not_found_marker (exn_msg e) then
         show info "Store was deleted. Refreshing..." ;; st_rerun
       else show error ("Failed to list files for store: " ++ exn_msg e)).

(** *** The indexing poll (lines 256-272) *)

Definition is_in (s : string) (l : list string) : bool :=
  existsb (String.eqb s) l.

(** Lines 262-268: the [for] over the listing; [Some r] when it returns [r]. *)
Fixpoint scan (file_id : string) (data : list FileRef) : option string :=
  match data with
  | [] => None
  | f :: rest =>
      if (default "" (ref_id f) =? file_id)%string then
        let status := default "" (ref_status f) in
        if is_in status ["completed"; "finished"] then Some "completed"
        else if is_in status ["failed"; "error"] then Some status
        else scan file_id rest
      else scan file_id rest
  end.

(** The request of one poll (line 260). *)
Definition poll_call (w : World) : Call :=
  vector_stores_files_list (ACTIVE_VECTOR_STORE_ID w).

(** The entry of the listing that matches [file_id]. *)
Definition polled_entry (file_id : string) (data : list FileRef) : option FileRef :=
  find (fun f => (default "" (ref_id f) =? file_id)%string) data.

(** The status the poll reads from an entry. *)
Definition status_of (f : FileRef) : string := default "" (ref_status f).

Definition terminal (status : string) : bool :=
  is_in status ["completed"; "finished"] || is_in status ["failed"; "error"].

(** Lines 259-271: one turn of the [while]; [Some r] when it returns [r]. *)
Definition attempt (file_id : string) (poll_interval : Z) : M World (option string) :=
  try_except
    (active <- get_active_vector_store_id ;;
     data <- request (vector_stores_files_list active) ;;
     match scan file_id data with
     | Some status => ret (Some status)
     | None => sleep poll_interval ;; ret None
     end)
    (fun _ => sleep poll_interval ;; ret None).

(** The [while] of line 258; [timeout_sec] is in seconds, [poll_interval]
    and the clock in milliseconds.  [fuel] bounds the number of turns: it
    is what lets the loop be a [Fixpoint], and the number of turns of the
    model is not a statement about the script, whose guard compares
    floats. *)
Fixpoint wait_loop (fuel : nat) (file_id : string)
                   (start timeout_sec poll_interval : Z) : M World string :=
  fun w =>
    if clock w - start <? 1000 * timeout_sec then
      match fuel with
      | O => (OutOfFuel, w)
      | S fuel' =>
          (r <- attempt file_id poll_interval ;;
           match r with
           | Some status => ret status
           | None => wait_loop fuel' file_id start timeout_sec poll_interval
           end) w
      end
    else (Val "timeout", w).

Definition wait_until_file_indexed (fuel : nat) (file_id : string)
    (timeout_sec poll_interval : Z) : M World string :=
  fun w => wait_loop fuel file_id (clock w) timeout_sec poll_interval w.

(** *** "Upload" (lines 282-312) *)

Record UploadedFile : Type := { uf_name : string; uf_value : string }.

Definition UploadResult : Type := (string * string * string)%type.

(** Lines 292-309. *)
Fixpoint upload_files (fuel : nat) (files : list UploadedFile)
                      (results : list UploadResult) : M World (list UploadResult) :=
  match files with
  | [] => ret results
  | uf :: rest =>
      results' <-
        try_except
          (created <- request (files_create (uf_name uf) (uf_value uf) "assistants") ;;
           active <- get_active_vector_store_id ;;
           request (vector_stores_files_create active (id created)) ;;
           status <- wait_until_file_indexed fuel (id created)
                       upload_timeout_sec default_poll_interval ;;
           ret (results ++ [(uf_name uf, id created, status)])%list)
          (fun e =>
             show error ("Failed to upload " ++ uf_name uf ++ ": " ++ exn_msg e) ;;
             ret results) ;;
      upload_files fuel rest results'
  end.

Definition show_result (r : UploadResult) : M World unit :=
  let '(name, fid, status) := r in
  show write ("- " ++ name ++ " [" ++ fid ++ "] status: " ++ status).

Definition upload (fuel : nat) (uploaded_files : list UploadedFile) : M World unit :=
  fun w =>
    match uploaded_files with
    | [] => show warning msg_no_files w
    | _ :: _ =>
        if negb (truthy_opt (ACTIVE_VECTOR_STORE_ID w)) then
          show error msg_no_store_upload w
        else if negb (client w) then show error msg_no_key w
        else
          (results <- upload_files fuel uploaded_files [] ;;
           show success "Upload finished:" ;;
           for_each results show_result) w
    end.

(** *** The page and its reruns *)

(** What the user did before a run: the widget states the script reads. *)
Record Inputs : Type :=
  { user_text : string;
    find_clicked : bool;
    new_vs_name : string;
    create_clicked : bool;
    refresh_clicked : bool;
    set_active_clicked : string -> bool;
    delete_store_clicked : string -> bool;
    show_files_checked : string -> bool;
    delete_file_clicked : string -> option string -> bool;
    uploaded_files : list UploadedFile;
    upload_clicked : bool }.

(** Lines 112-115. *)
Definition settings_status : M World unit :=
  fun w =>
    if PyStr.truthy (OPENAI_API_KEY w) then show success "API key set" w
    else show warning "Set your API key to enable OpenAI features." w.

(** Lines 161-251: the body of the loop over the stores. *)
Definition store_panel (i : Inputs) (active_id : option string) (vs : VectorStore)
  : M World unit :=
  let sid := default "" (vs_id vs) in
  (if option_eq_str active_id sid then show success "Active"
   else
     widget (set_active_key sid) ;;
     if set_active_clicked i sid then
       set_active (Some sid) ;;
       show success ("Active vector store set: " ++ sid)
     else ret tt) ;;
  widget (delete_store_key sid) ;;
  (if delete_store_clicked i sid then delete_store sid else ret tt) ;;
  widget (show_files_key sid) ;;
  (if show_files_checked i sid then show_files sid (delete_file_clicked i sid)
   else ret tt).

(** One run of the script, top to bottom. *)
Definition page (fuel : nat) (i : Inputs) : M World unit :=
  new_run ;;
  show write intro_text ;;
  (if find_clicked i then find_program (user_text i) else ret tt) ;;
  show caption settings_caption ;;
  settings_status ;;
  show caption knowledge_base_caption ;;
  (if create_clicked i then create_vector_store (new_vs_name i) else ret tt) ;;
  (if refresh_clicked i then st_rerun else ret tt) ;;
  active_id <- get_active_vector_store_id ;;
  stores <- list_vector_stores ;;
  for_each stores (store_panel i active_id) ;;
  (if upload_clicked i then upload fuel (uploaded_files i) else ret tt).

(** A rerun keeps the values of the inputs and releases every button. *)
Definition after_rerun (i : Inputs) : Inputs :=
  {| user_text := user_text i;
     find_clicked := false;
     new_vs_name := new_vs_name i;
     create_clicked := false;
     refresh_clicked := false;
     set_active_clicked := fun _ => false;
     delete_store_clicked := fun _ => false;
     show_files_checked := show_files_checked i;
     delete_file_clicked := fun _ _ => false;
     uploaded_files := uploaded_files i;
     upload_clicked := false |}.

(** The runs that follow one user action: the script is run again for as
    long as it ends in [st.rerun()].  The value is the number of reruns;
    [runs] bounds it. *)
Fixpoint session (runs fuel : nat) (i : Inputs) : M World nat :=
  fun w =>
    match page fuel i w with
    | (Val _, w') => (Val 0%nat, w')
    | (Raised e, w') =>
        match exn_cls e with
        | RerunException =>
            match runs with
            | O => (OutOfFuel, w')
            | S runs' =>
                (n <- session runs' fuel (after_rerun i) ;; ret (S n)) w'
            end
        | _ => (Raised e, w')
        end
    | (OutOfFuel, w') => (OutOfFuel, w')
    end.

(** The world after a listing of the stores that failed with the
    not-found marker: the request, then the "Refreshing" notice. *)
Definition refreshing (w : World) : World :=
  with_log (called vector_stores_list w)
           (log (called vector_stores_list w) ++ [Shown info "Refreshing stores..."]).

(** The world after a listing of the stores that failed otherwise. *)
Definition listing_failed (msg : string) (w : World) : World :=
  with_log (called vector_stores_list w)
           (log (called vector_stores_list w) ++ [Shown error (listing_failure msg)]).

End App.

(** Inputs with which a run reaches the listing of the stores untouched:
    no button above it was pressed, and no "Show files" box is ticked. *)
Definition quiet (i : Inputs) : Prop :=
  find_clicked i = false /\ create_clicked i = false /\ refresh_clicked i = false
  /\ forall sid, show_files_checked i sid = false.

(** The top of a run in which "Find Program" is not pressed: lines 28-119
    show the intro text, the state of the key and the two captions. *)
Definition page_top : M World unit :=
  new_run ;;
  show write intro_text ;;
  show caption settings_caption ;;
  settings_status ;;
  show caption knowledge_base_caption.

(** The world once the top of the page is shown. *)
Definition settings_shown (w : World) : World := snd (page_top w).

(** ** Well-formed completions

    The shape the Responses API documents: output items, of which messages
    carry content blocks, of which text blocks carry annotations. *)
Module Completion.

Inductive Annotation : Type :=
| FileCitation (file_id filename : string)
| UrlCitation (url title : string)
| FilePath (file_id : string).

Inductive Content : Type :=
| OutputText (text : string) (annotations : list Annotation)
| Refusal (refusal : string).

Inductive Item : Type :=
| Message (content : list Content)
| FileSearchCall (queries : list string)
| Reasoning.

Definition annotation_to_py (a : Annotation) : PyVal :=
  match a with
  | FileCitation f n =>
      PObj [("type", PStr "file_citation"); ("file_id", PStr f); ("filename", PStr n)]
  | UrlCitation u t =>
      PObj [("type", PStr "url_citation"); ("url", PStr u); ("title", PStr t)]
  | FilePath f => PObj [("type", PStr "file_path"); ("file_id", PStr f)]
  end.

Definition content_to_py (c : Content) : PyVal :=
  match c with
  | OutputText t anns =>
      PObj [("type", PStr "output_text"); ("text", PStr t);
            ("annotations", PList (map annotation_to_py anns))]
  | Refusal r => PObj [("type", PStr "refusal"); ("refusal", PStr r)]
  end.

Definition item_to_py (it : Item) : PyVal :=
  match it with
  | Message cs =>
      PObj [("type", PStr "message"); ("role", PStr "assistant");
            ("content", PList (map content_to_py cs))]
  | FileSearchCall qs =>
      PObj [("type", PStr "file_search_call"); ("queries", PList (map PStr qs))]
  | Reasoning => PObj [("type", PStr "reasoning"); ("summary", PList [])]
  end.

Definition to_py (output : list Item) : PyVal :=
  PObj [("object", PStr "response"); ("output", PList (map item_to_py output))].

(** What the extractor is to return, in the specification's words: the
    text fragments of the text blocks of the messages, concatenated in
    order, and a record for every file citation. *)
Definition annotation_citations (a : Annotation) : list Citation :=
  match a with
  | FileCitation f n => [{| file_id := PStr f; filename := PStr n |}]
  | _ => []
  end.

Definition content_texts (c : Content) : list string :=
  match c with
  | OutputText t _ => [t]
  | Refusal _ => []
  end.

Definition content_citations (c : Content) : list Citation :=
  match c with
  | OutputText _ anns => flat_map annotation_citations anns
  | Refusal _ => []
  end.

Definition item_texts (it : Item) : list string :=
  match it with
  | Message cs => flat_map content_texts cs
  | _ => []
  end.

Definition item_citations (it : Item) : list Citation :=
  match it with
  | Message cs => flat_map content_citations cs
  | _ => []
  end.

Definition spec_text (output : list Item) : string :=
  PyStr.join (flat_map item_texts output).

Definition spec_citations (output : list Item) : list Citation :=
  flat_map item_citations output.

End Completion.

(** ** Concrete services, for running the model *)
Module Demo.

Definition canned (completion : PyVal) (stores : list VectorStore)
                  (files : list FileRef) (c : Call) : answer c :=
  match c return answer c with
  | responses_create _ _ _ => completion
  | vector_stores_create _ => {| id := "vs_new" |}
  | vector_stores_list => stores
  | vector_stores_delete _ => tt
  | vector_stores_files_list _ => files
  | vector_stores_files_create _ _ => tt
  | vector_stores_files_delete _ _ => tt
  | files_create _ _ _ => {| id := "file_new" |}
  | files_retrieve _ => {| fo_filename := Some "a.pdf"; fo_name := None |}
  | files_delete _ => tt
  end.

(** A service with fixed answers; [failure past c] is the error, if any,
    with which it rejects request [c] after the requests [past]; every
    request takes [ms] milliseconds. *)
Definition scripted (completion : PyVal) (stores : list VectorStore)
    (files : list FileRef) (failure : list Call -> Call -> option string)
    (ms : N) : Remote :=
  {| serve := fun _ past c =>
       match failure past c with
       | Some msg => Fail msg
       | None => Ok (canned completion stores files c)
       end;
     latency := fun _ _ _ => ms;
     overrun := fun _ _ => 0%N |}.

Definition never_fails : list Call -> Call -> option string := fun _ _ => None.

Definition str (v : PyVal) : string :=
  match v with
  | PStr s => s
  | PNone => "None"
  | _ => "<object>"
  end.

Definition session_with (key : string) (active : option string) : World :=
  {| clock := 0; log := [];
     OPENAI_API_KEY := key; OPENAI_MODEL := gpt_default;
     ACTIVE_VECTOR_STORE_ID := active; widget_keys := [] |}.

Definition ref (i st : string) : FileRef :=
  {| ref_file_id := None; ref_id := Some i; ref_status := Some st |}.

Definition is_listing (c : Call) : bool :=
  match c with
  | vector_stores_list => true
  | _ => false
  end.

(** The first listing of the stores still finds a deleted store missing. *)
Definition settling : list Call -> Call -> option string :=
  fun past c =>
    if is_listing c && negb (existsb is_listing past)
    then Some "Error code: 404 - Vector store not found"
    else None.

(** The deletion of file [f1] is refused. *)
Definition f1_locked : list Call -> Call -> option string :=
  fun _ c =>
    match c with
    | files_delete "f1" => Some "file is locked"
    | _ => None
    end.

(** A service that answers every request, with no stores and no files. *)
Definition empty_service : Remote := scripted PNone [] [] never_fails 0.

(** A store with two files, the first of which cannot be deleted. *)
Definition two_files : Remote :=
  scripted PNone [] [ref "f1" "completed"; ref "f2" "in_progress"] f1_locked 0.

(** A store whose file [f1] is indexed; a request takes 200 ms. *)
Definition indexed : Remote :=
  scripted PNone [] [ref "f1" "completed"] never_fails 200.

(** A store whose file [f1] failed to index. *)
Definition failing : Remote :=
  scripted PNone [] [ref "f1" "failed"] never_fails 0.

(** A store whose file [f1] stays in progress; a request takes 700 ms. *)
Definition indexing : Remote :=
  scripted PNone [] [ref "f1" "in_progress"] never_fails 700.

Definition just_deleted : Remote :=
  scripted PNone [{| vs_id := Some "vs_2"; vs_name := Some "kb" |}] [] settling 0.

(** A message that cites a file, followed by a message without content. *)
Definition broken_completion : PyVal :=
  PObj [("output",
         PList [Completion.item_to_py
                  (Completion.Message
                     [Completion.OutputText "X" [Completion.FileCitation "f1" "a.pdf"]]);
                PObj [("type", PStr "message")]])].

Definition signed_in : World := session_with "sk-test" (Some "vs_1").
Definition signed_out : World := session_with "" None.

Definition no_inputs : Inputs :=
  {| user_text := ""; find_clicked := false;
     new_vs_name := "knowledge_base"; create_clicked := false;
     refresh_clicked := false;
     set_active_clicked := fun _ => false;
     delete_store_clicked := fun _ => false;
     show_files_checked := fun _ => false;
     delete_file_clicked := fun _ _ => false;
     uploaded_files := []; upload_clicked := false |}.

End Demo.

(** ** More services, inputs and completions to run the model on *)
Module Cases.

(** The failure with which a service rejects the requests [p] selects. *)
Definition refuses (p : Call -> bool) (msg : string)
  : list Call -> Call -> option string :=
  fun _ c => if p c then Some msg else None.

(** A service that cannot be reached: every request fails. *)
Definition unreachable : Remote :=
  Demo.scripted PNone [] [] (refuses (fun _ => true) "Connection error.") 0.

(** A service that no longer finds the stores, whenever it is asked. *)
Definition vanished : Remote :=
  Demo.scripted PNone [] []
    (refuses Demo.is_listing "Error code: 404 - Vector store not found") 0.

Definition is_file_listing (c : Call) : bool :=
  match c with
  | vector_stores_files_list _ => true
  | _ => false
  end.

(** A service that no longer finds the store whose files are asked for. *)
Definition store_gone : Remote :=
  Demo.scripted PNone [] []
    (refuses is_file_listing "Error code: 404 - Vector store not found") 0.

Definition is_lookup (c : Call) : bool :=
  match c with
  | files_retrieve _ => true
  | _ => false
  end.

(** A store with two files, neither of which can be looked up. *)
Definition nameless : Remote :=
  Demo.scripted PNone [] [Demo.ref "f1" "completed"; Demo.ref "f2" "completed"]
    (refuses is_lookup "No such File object") 0.

(** A completion of one message that cites a file. *)
Definition cited : list Completion.Item :=
  [Completion.Message
     [Completion.OutputText "X" [Completion.FileCitation "f1" "a.pdf"]]].

Definition answering : Remote :=
  Demo.scripted (Completion.to_py cited) [] [] Demo.never_fails 0.

(** An output that holds a tool call before its message. *)
Definition with_tool_call : list PyVal :=
  [PObj [("type", PStr "file_search_call")];
   Completion.item_to_py
     (Completion.Message [Completion.OutputText "X" []])].

(** The listings of the stores among some requests. *)
Definition listings (past : list Call) : nat :=
  length (filter Demo.is_listing past).

(** The first two listings of the stores still find a deleted store
    missing. *)
Definition settling_twice : list Call -> Call -> option string :=
  fun past c =>
    if Demo.is_listing c && (listings past <? 2)%nat
    then Some "Error code: 404 - Vector store not found"
    else None.

Definition still_settling : Remote :=
  Demo.scripted PNone [] [] settling_twice 0.

(** A service that lists the store [vs_1] twice. *)
Definition twins : Remote :=
  Demo.scripted PNone
    [{| vs_id := Some "vs_1"; vs_name := Some "kb" |};
     {| vs_id := Some "vs_1"; vs_name := Some "kb" |}] [] Demo.never_fails 0.

(** A store that holds the file [f1] twice. *)
Definition doubled : Remote :=
  Demo.scripted PNone [] [Demo.ref "f1" "completed"; Demo.ref "f1" "completed"]
    Demo.never_fails 0.

(** What looking a file up gives on a service that knows no file. *)
Definition no_file : string -> Reply FileObject :=
  fun _ => Fail "No such File object".

Definition a_txt : UploadedFile := {| uf_name := "a.txt"; uf_value := "hello" |}.

(** Every action button pressed at once, on one chosen file. *)
Definition all_pressed : Inputs :=
  {| user_text := "example.com"; find_clicked := true;
     new_vs_name := "knowledge_base"; create_clicked := true;
     refresh_clicked := false;
     set_active_clicked := fun _ => true;
     delete_store_clicked := fun _ => true;
     show_files_checked := fun _ => true;
     delete_file_clicked := fun _ _ => true;
     uploaded_files := [a_txt]; upload_clicked := true |}.

End Cases.

(** ** Frames: what a computation leaves alone *)

(** [w'] continues [w]: the key and the model are the same, the clock has
    not gone back, the log was only extended, and every request added to
    it is in the class [P]. *)
Definition extends (P : Call -> Prop) (w w' : World) : Prop :=
  OPENAI_API_KEY w' = OPENAI_API_KEY w
  /\ OPENAI_MODEL w' = OPENAI_MODEL w
  /\ clock w <= clock w'
  /\ exists evs, log w' = (log w ++ evs)%list /\ Forall P (calls_of evs).

Definition within (P : Call -> Prop) {A} (m : M World A) : Prop :=
  forall w, extends P w (snd (m w)).

Definition keeps_active {A} (m : M World A) : Prop :=
  forall w, ACTIVE_VECTOR_STORE_ID (snd (m w)) = ACTIVE_VECTOR_STORE_ID w.

(** Classes of requests. *)
Definition any_request (c : Call) : Prop := True.

Definition completion_request (c : Call) : Prop :=
  match c with
  | responses_create _ _ _ => True
  | _ => False
  end.

Definition poll_request (c : Call) : Prop :=
  match c with
  | vector_stores_files_list _ => True
  | _ => False
  end.

(** What an upload may send: a file creation, an attachment, a poll. *)
Definition upload_request (c : Call) : Prop :=
  match c with
  | files_create _ _ _ => True
  | vector_stores_files_create _ _ => True
  | vector_stores_files_list _ => True
  | _ => False
  end.

(** What the file list of store [vs] may send: the listing of [vs], a
    lookup of a file, a detachment from [vs]. *)
Definition browse_request (vs : string) (c : Call) : Prop :=
  match c with
  | vector_stores_files_list (Some v) => v = vs
  | files_retrieve _ => True
  | vector_stores_files_delete v _ => v = vs
  | _ => False
  end.

(** The file creations among some requests, in order. *)
Fixpoint creations_of (l : list Call) : list Call :=
  match l with
  | [] => []
  | files_create n c p :: rest => files_create n c p :: creations_of rest
  | _ :: rest => creations_of rest
  end.

(** The warnings and the plain lines of a log, in order. *)
Fixpoint warnings_of (l : list Event) : list string :=
  match l with
  | [] => []
  | Shown warning text :: rest => text :: warnings_of rest
  | _ :: rest => warnings_of rest
  end.

Fixpoint writes_of (l : list Event) : list string :=
  match l with
  | [] => []
  | Shown write text :: rest => text :: writes_of rest
  | _ :: rest => writes_of rest
  end.

(** A service on which the file [file_id] never shows a terminal status:
    every listing of files fails or holds no terminal entry for it. *)
Definition never_terminal (remote : Remote) (file_id : string) : Prop :=
  forall t past a,
    match serve remote t past (vector_stores_files_list a) with
    | Ok data => scan file_id data = None
    | Fail _ => True
    end.

(** A service whose listing of the stores always fails with [msg]. *)
Definition stores_unlistable (remote : Remote) (msg : string) : Prop :=
  forall t past, serve remote t past vector_stores_list = Fail msg.

(** The request of a file creation for an uploaded file (line 297). *)
Definition creation_of (uf : UploadedFile) : Call :=
  files_create (uf_name uf) (uf_value uf) "assistants".

(** The output items a traversal looks into: those of type [message]. *)
Definition is_message (item : PyVal) : bool :=
  Py.eq_str (Py.getattr item "type" PNone) "message".

(** The request of a query (lines 60-67). *)
Definition query_call (user_text : string) (w : World) : Call :=
  responses_create (MODEL_NAME w) (prompt_for user_text) [ACTIVE_VECTOR_STORE_ID w].

(** The line shown for a citation (lines 96-98). *)
Definition citation_line (py_str : PyVal -> string) (c : Citation) : string :=
  "- "
  ++ (if Py.truthy (filename c) then py_str (filename c) else "(unknown file)")
  ++ " ["
  ++ (if Py.truthy (file_id c) then py_str (file_id c) else "(no id)")
  ++ "]".

(** What the result panel shows for a text and its citations (lines 89-100). *)
Definition result_panel (py_str : PyVal -> string) (text : string)
                        (cs : list Citation) : list Event :=
  match text with
  | EmptyString => [Shown info "No output returned."]
  | String _ _ =>
      Shown success "Result" :: Shown code text
      :: match cs with
         | [] => []
         | _ :: _ =>
             Shown caption "Citations:"
             :: map (fun c => Shown write (citation_line py_str c)) cs
         end
  end.

(** A computation that stays off the network when there is no client: it
    sends no request and creates no client. *)
Definition offline {A} (m : M World A) : Prop :=
  forall w, client w = false ->
    client (snd (m w)) = false
    /\ calls_of (log (snd (m w))) = calls_of (log w).

(** What reading the file list of store [vs] may send: the listing of
    [vs] and lookups of files. *)
Definition read_request (vs : string) (c : Call) : Prop :=
  match c with
  | vector_stores_files_list (Some v) => v = vs
  | files_retrieve _ => True
  | _ => False
  end.

(** Inputs that press none of the buttons that set the active store:
    "Create New Vector Store", "Set Active", "Delete Store". *)
Definition leaves_active (i : Inputs) : Prop :=
  create_clicked i = false
  /\ (forall sid, set_active_clicked i sid = false)
  /\ (forall sid, delete_store_clicked i sid = false).

(** Messages of the store actions (lines 132, 134, 171). *)
Definition creation_message (vs : string) : string := "Created new vector store: " ++ vs.
Definition creation_failure (msg : string) : string :=
  "Failed to create vector store: " ++ msg.
Definition upload_failure (name msg : string) : string :=
  "Failed to upload " ++ name ++ ": " ++ msg.

(** The exception [st.rerun()] raises. *)
Definition rerun_request : exn := PyExc RerunException "rerun".

(** A computation that does not run out of fuel and raises nothing but
    [Exception]s and [st.rerun()]. *)
Definition orderly {A} (m : M World A) : Prop :=
  forall w,
    match fst (m w) with
    | Val _ => True
    | Raised e => is_Exception e = true \/ e = rerun_request
    | OutOfFuel => False
    end.

(** A computation that lets no exception out but [st.rerun()]. *)
Definition contained {A} (m : M World A) : Prop :=
  forall w,
    match fst (m w) with
    | Val _ => True
    | Raised e => e = rerun_request
    | OutOfFuel => False
    end.

(** What an upload to the store [a] may send: the creation of a file for
    assistants, an attachment to [a], a listing of the files of [a]. *)
Definition upload_to (a : option string) (c : Call) : Prop :=
  match c with
  | files_create _ _ purpose => purpose = "assistants"
  | vector_stores_files_create v _ => v = a
  | vector_stores_files_list v => v = a
  | _ => False
  end.

(** A computation that, started with the active store [a], sends only
    requests in [P] and ends with the active store [a]. *)
Definition steady (a : option string) (P : Call -> Prop) {A} (m : M World A) : Prop :=
  forall w, ACTIVE_VECTOR_STORE_ID w = a ->
    extends P w (snd (m w)) /\ ACTIVE_VECTOR_STORE_ID (snd (m w)) = a.

(** ** Widget keys *)


(** The keys of the widgets of a store's panel (lines 169, 174, 213). *)
Definition panel_keys (sid : string) : list string :=
  [set_active_key sid; delete_store_key sid; show_files_key sid].

(** The key of a row of a file list (line 238). *)
Definition row_key (k : string) : Prop :=
  exists vs fid, k = delete_file_key vs fid.





(** The key of the row of a reference in the file list of store [vs]. *)
Definition row_key_of (vs : string) (ref : FileRef) : string :=
  delete_file_key vs (ref_fid ref).

(** What the row of a reference shows when looking a file up gives
    [lookup]: the [filename] of the file, else its [name], else
    "(unknown)"; "(unknown)" too when the reference has no id or the
    lookup fails. *)
Definition row_text (lookup : string -> Reply FileObject) (ref : FileRef) : string :=
  match ref_fid ref with
  | Some fid =>
      if PyStr.truthy fid then
        match lookup fid with
        | Ok fobj =>
            if truthy_opt (fo_filename fobj) then default "" (fo_filename fobj)
            else if truthy_opt (fo_name fobj) then default "" (fo_name fobj)
            else "(unknown)"
        | Fail _ => "(unknown)"
        end
      else "(unknown)"
  | None => "(unknown)"
  end.

(** The lines of a file list. *)
Definition file_lines (lookup : string -> Reply FileObject) (refs : list FileRef)
  : list string :=
  match refs with
  | [] => ["No files."]
  | _ :: _ => map (row_text lookup) refs
  end.

(** * Properties *)

(** ** The monad *)

Lemma bind_val {S A B} (m : M S A) (k : A -> M S B) (s s' : S) (a : A) :
  m s = (Val a, s') -> bind m k s = k a s'.
Proof. unfold bind. intros ->. reflexivity. Qed.

Lemma bind_raised {S A B} (m : M S A) (k : A -> M S B) (s s' : S) (e : exn) :
  m s = (Raised e, s') -> bind m k s = (Raised e, s').
Proof. unfold bind. intros ->. reflexivity. Qed.

Lemma try_val {S A} (m : M S A) (h : exn -> M S A) (s s' : S) (a : A) :
  m s = (Val a, s') -> try_except m h s = (Val a, s').
Proof. unfold try_except. intros ->. reflexivity. Qed.

Lemma try_caught {S A} (m : M S A) (h : exn -> M S A) (s s' : S) (e : exn) :
  m s = (Raised e, s') -> is_Exception e = true -> try_except m h s = h e s'.
Proof. unfold try_except. intros -> ->. reflexivity. Qed.

(** ** Strings *)

Lemma lstrip_blank_upto (n : nat) :
  forall s, (String.length s <= n)%nat -> PyStr.blank s = true -> PyStr.lstrip s = "".
Proof.
  induction n as [|n IH]; intros s Hlen Hb.
  - destruct s; [reflexivity | simpl in Hlen; lia].
  - destruct s as [|a r1]; [reflexivity|].
    simpl in Hlen. cbn [PyStr.blank] in Hb. cbn [PyStr.lstrip].
    destruct (PyStr.ws1 a).
    + apply IH; [lia | exact Hb].
    + destruct r1 as [|b r2]; [discriminate|].
      simpl in Hlen. destruct (PyStr.ws2 a b).
      * apply IH; [lia | exact Hb].
      * destruct r2 as [|c r3]; [discriminate|].
        simpl in Hlen. destruct (PyStr.ws3 a b c); [|discriminate].
        apply IH; [lia | exact Hb].
Qed.

Lemma strip_blank (s : string) : PyStr.blank s = true -> PyStr.strip s = "".
Proof.
  intros Hb. unfold PyStr.strip.
  rewrite (lstrip_blank_upto (String.length s) s (le_n _) Hb). reflexivity.
Qed.

Lemma truthy_nonempty (s : string) : s <> "" -> PyStr.truthy s = true.
Proof. destruct s; [congruence | reflexivity]. Qed.


(** ** Logs *)

Lemma calls_of_app (l1 l2 : list Event) :
  calls_of (l1 ++ l2) = (calls_of l1 ++ calls_of l2)%list.
Proof.
  induction l1 as [|e l1 IH]; [reflexivity|].
  destruct e; simpl; rewrite IH; reflexivity.
Qed.

Lemma sleeps_of_app (l1 l2 : list Event) :
  sleeps_of (l1 ++ l2) = (sleeps_of l1 ++ sleeps_of l2)%list.
Proof.
  induction l1 as [|e l1 IH]; [reflexivity|].
  destruct e; simpl; rewrite IH; reflexivity.
Qed.

Lemma errors_of_app (l1 l2 : list Event) :
  errors_of (l1 ++ l2) = (errors_of l1 ++ errors_of l2)%list.
Proof.
  induction l1 as [|e l1 IH]; [reflexivity|].
  destruct e as [c|d|[] text]; simpl; rewrite IH; reflexivity.
Qed.

(** Normalises the requests and the errors of a log that was extended. *)
Ltac log_simpl :=
  simpl; rewrite ?calls_of_app, ?errors_of_app; simpl;
  rewrite ?app_nil_r, <- ?app_assoc; simpl.

Lemma calls_of_shown (l : list Event) (el : Element) (text : string) :
  calls_of (l ++ [Shown el text]) = calls_of l.
Proof. rewrite calls_of_app. simpl. apply app_nil_r. Qed.

Section Guards.

Variable remote : Remote.
Variable py_str : PyVal -> string.

Lemma only_shows_no_call el text w out :
  only_shows el text w out -> calls_of (log (snd out)) = calls_of (log w).
Proof. intros ->. simpl. apply calls_of_shown. Qed.

(** C10.  On an input made of whitespace only (or empty) the query action
    shows the input-required warning and does nothing else, so it sends no
    request; this holds whatever the session holds, thus also without a
    credential and without an active vector store: the input check comes
    first. *)
Theorem find_program_blank_input (user_text : string) (w : World) :
  PyStr.blank user_text = true ->
  only_shows warning msg_input_required w (find_program remote py_str user_text w)
  /\ calls_of (log (snd (find_program remote py_str user_text w))) = calls_of (log w).
Proof.
  intros Hb.
  assert (H : only_shows warning msg_input_required w (find_program remote py_str user_text w)).
  { unfold only_shows, find_program.
    rewrite (strip_blank _ Hb). reflexivity. }
  split; [exact H | exact (only_shows_no_call _ _ _ _ H)].
Qed.

(** Without a credential the query action never sends a request. *)
Lemma find_program_no_client (user_text : string) (w : World) :
  client w = false ->
  calls_of (log (snd (find_program remote py_str user_text w))) = calls_of (log w).
Proof.
  intros Hc. unfold find_program. rewrite Hc.
  destruct (PyStr.truthy (PyStr.strip user_text)); simpl; apply calls_of_shown.
Qed.

Lemma no_key_no_client (w : World) : OPENAI_API_KEY w = "" -> client w = false.
Proof. unfold client. intros ->. reflexivity. Qed.

(** C5, as amended.  With no active vector store (none, or an empty id) the
    query action never calls the completion service; and when the input is
    not blank and a credential is set, what it shows is the
    no-active-vector-store error. *)
Theorem find_program_no_active_store (user_text : string) (w : World) :
  truthy_opt (ACTIVE_VECTOR_STORE_ID w) = false ->
  calls_of (log (snd (find_program remote py_str user_text w))) = calls_of (log w)
  /\ (PyStr.strip user_text <> "" -> client w = true ->
      only_shows error msg_no_store_find w (find_program remote py_str user_text w)).
Proof.
  intros Ha. split.
  - unfold find_program. rewrite Ha.
    destruct (PyStr.truthy (PyStr.strip user_text)); simpl;
      [destruct (client w); simpl|]; apply calls_of_shown.
  - intros Hs Hc. unfold only_shows, find_program.
    rewrite (truthy_nonempty _ Hs), Hc, Ha. reflexivity.
Qed.

(** C4, as amended.  Without a credential none of the three actions sends a
    request.  Creating a vector store shows the auth error; the query shows
    it when the input is not blank; the upload shows it when files were
    chosen and an active vector store is set.  When an earlier check of the
    action fails, that check's message is shown instead. *)
Theorem no_credential_no_request (w : World) :
  OPENAI_API_KEY w = "" ->
  (forall user_text,
      calls_of (log (snd (find_program remote py_str user_text w))) = calls_of (log w)
      /\ (PyStr.strip user_text <> "" ->
          only_shows error msg_no_key_find w (find_program remote py_str user_text w))
      /\ (PyStr.strip user_text = "" ->
          only_shows warning msg_input_required w (find_program remote py_str user_text w)))
  /\ (forall name, only_shows error msg_no_key w (create_vector_store remote name w))
  /\ (forall fuel files,
      calls_of (log (snd (upload remote fuel files w))) = calls_of (log w)
      /\ (files <> [] -> truthy_opt (ACTIVE_VECTOR_STORE_ID w) = true ->
          only_shows error msg_no_key w (upload remote fuel files w))
      /\ (files <> [] -> truthy_opt (ACTIVE_VECTOR_STORE_ID w) = false ->
          only_shows error msg_no_store_upload w (upload remote fuel files w))
      /\ (files = [] -> only_shows warning msg_no_files w (upload remote fuel files w))).
Proof.
  intros Hk. pose proof (no_key_no_client w Hk) as Hc.
  split; [|split].
  - intros user_text. split; [apply find_program_no_client; exact Hc|].
    unfold only_shows, find_program.
    split; intros Hs.
    + rewrite (truthy_nonempty _ Hs), Hc. reflexivity.
    + rewrite Hs. reflexivity.
  - intros name.
    unfold only_shows, create_vector_store, try_except.
    rewrite Hk. reflexivity.
  - intros fuel files.
    unfold only_shows, upload.
    destruct files as [|uf rest].
    + repeat split; try congruence. simpl. apply calls_of_shown.
    + rewrite Hc.
      destruct (truthy_opt (ACTIVE_VECTOR_STORE_ID w)); simpl;
        repeat split; try congruence; apply calls_of_shown.
Qed.

End Guards.

(** ** Response extraction *)

Lemma append_empty_r (s : string) : (s ++ "")%string = s.
Proof. induction s as [|a s IH]; simpl; [|rewrite IH]; reflexivity. Qed.

Lemma append_assoc (s t u : string) : ((s ++ t) ++ u)%string = (s ++ t ++ u)%string.
Proof. induction s as [|a s IH]; simpl; [|rewrite IH]; reflexivity. Qed.

Lemma join_app (l1 l2 : list string) :
  PyStr.join (l1 ++ l2) = (PyStr.join l1 ++ PyStr.join l2)%string.
Proof.
  induction l1 as [|x l1 IH]; simpl; [reflexivity|].
  rewrite IH, append_assoc. reflexivity.
Qed.

Lemma grown_nil (st : Locals) : grown st [] [] = st.
Proof.
  destruct st as [t c]. unfold grown. simpl.
  rewrite append_empty_r, app_nil_r. reflexivity.
Qed.

Lemma grown_grown st ts1 cs1 ts2 cs2 :
  grown (grown st ts1 cs1) ts2 cs2 = grown st (ts1 ++ ts2) (cs1 ++ cs2).
Proof.
  unfold grown. simpl. rewrite join_app, append_assoc, app_assoc. reflexivity.
Qed.

Lemma annotations_visited (anns : list Completion.Annotation) (st : Locals) :
  for_each (map Completion.annotation_to_py anns) visit_annotation st
  = (Val tt, grown st [] (flat_map Completion.annotation_citations anns)).
Proof.
  revert st. induction anns as [|a anns IH]; intros st.
  - simpl. rewrite grown_nil. reflexivity.
  - cbn [map for_each flat_map]. unfold bind at 1.
    destruct a as [f n|u t|f]; cbn.
    + rewrite IH. f_equal. unfold grown. cbn. rewrite <- app_assoc. reflexivity.
    + apply IH.
    + apply IH.
Qed.

Lemma iter_list_or_empty {S} (items : list PyVal) (s : S) :
  Py.iter (Py.or (PList items) (PList [])) s = (Val items, s).
Proof. unfold Py.or. destruct items; reflexivity. Qed.

Lemma add_text_or_empty (t : string) (st : Locals) :
  add_text (Py.or (PStr t) (PStr "")) st = (Val tt, grown st [t] []).
Proof.
  unfold Py.or, grown. destruct t; cbn;
    rewrite ?append_empty_r, ?app_nil_r; reflexivity.
Qed.

Lemma content_visited (c : Completion.Content) (st : Locals) :
  visit_content (Completion.content_to_py c) st
  = (Val tt, grown st (Completion.content_texts c) (Completion.content_citations c)).
Proof.
  destruct c as [t anns|r].
  - unfold visit_content. cbn.
    rewrite (bind_val _ _ _ _ _ (add_text_or_empty t st)).
    rewrite (bind_val _ _ _ _ _ (iter_list_or_empty _ _)).
    rewrite annotations_visited, grown_grown. reflexivity.
  - cbn. rewrite grown_nil. reflexivity.
Qed.

Lemma contents_visited (cs : list Completion.Content) (st : Locals) :
  for_each (map Completion.content_to_py cs) visit_content st
  = (Val tt, grown st (flat_map Completion.content_texts cs)
                      (flat_map Completion.content_citations cs)).
Proof.
  revert st. induction cs as [|c cs IH]; intros st.
  - simpl. rewrite grown_nil. reflexivity.
  - cbn [map for_each flat_map]. unfold bind at 1.
    rewrite content_visited, IH, grown_grown. reflexivity.
Qed.

Lemma item_visited (it : Completion.Item) (st : Locals) :
  visit_item (Completion.item_to_py it) st
  = (Val tt, grown st (Completion.item_texts it) (Completion.item_citations it)).
Proof.
  destruct it as [cs|qs|].
  - unfold visit_item. cbn.
    rewrite (bind_val _ _ _ _ _ (iter_list_or_empty _ _)).
    apply contents_visited.
  - cbn. rewrite grown_nil. reflexivity.
  - cbn. rewrite grown_nil. reflexivity.
Qed.

Lemma items_visited (output : list Completion.Item) (st : Locals) :
  for_each (map Completion.item_to_py output) visit_item st
  = (Val tt, grown st (flat_map Completion.item_texts output)
                      (flat_map Completion.item_citations output)).
Proof.
  revert st. induction output as [|it output IH]; intros st.
  - simpl. rewrite grown_nil. reflexivity.
  - cbn [map for_each flat_map]. unfold bind at 1.
    rewrite item_visited, IH, grown_grown. reflexivity.
Qed.

Lemma traverse_well_formed (output : list Completion.Item) :
  traverse (Completion.to_py output) locals0
  = (Val tt, {| output_text := Completion.spec_text output;
                citations := Completion.spec_citations output |}).
Proof.
  unfold traverse, Completion.to_py. cbn.
  rewrite (bind_val _ _ _ _ _ (iter_list_or_empty _ _)).
  rewrite items_visited. reflexivity.
Qed.

Lemma tame_ret {S A} (a : A) : tame (@ret S A a).
Proof. intros s. exact I. Qed.

Lemma tame_bind {S A B} (m : M S A) (k : A -> M S B) :
  tame m -> (forall a, tame (k a)) -> tame (bind m k).
Proof.
  intros Hm Hk s. specialize (Hm s). unfold bind.
  destruct (m s) as [[a| e |] s']; simpl in *; [apply Hk | exact Hm | exact Hm].
Qed.

Lemma tame_for_each {S A} (l : list A) (body : A -> M S unit) :
  (forall x, tame (body x)) -> tame (for_each l body).
Proof.
  intros Hb. induction l as [|x l IH]; simpl.
  - apply tame_ret.
  - apply tame_bind; [apply Hb | intros _; exact IH].
Qed.

Lemma tame_attr {S} (o : PyVal) (name : string) : tame (@Py.attr S o name).
Proof.
  intros s. destruct o; simpl; try reflexivity.
  destruct (Py.assoc name attrs); simpl; [exact I | reflexivity].
Qed.

Lemma tame_iter {S} (v : PyVal) : tame (@Py.iter S v).
Proof. intros s. destruct v; simpl; try reflexivity; exact I. Qed.

Lemma tame_add_text (v : PyVal) : tame (add_text v).
Proof. intros s. destruct v; simpl; try reflexivity; exact I. Qed.

Lemma tame_visit_annotation (ann : PyVal) : tame (visit_annotation ann).
Proof.
  unfold visit_annotation.
  destruct (Py.eq_str _ _); intros s; exact I.
Qed.

Lemma tame_visit_content (content : PyVal) : tame (visit_content content).
Proof.
  unfold visit_content. destruct (Py.eq_str _ _); [|apply tame_ret].
  apply tame_bind; [apply tame_attr | intros text].
  apply tame_bind; [apply tame_add_text | intros _].
  apply tame_bind; [apply tame_iter | intros anns].
  apply tame_for_each, tame_visit_annotation.
Qed.

Lemma tame_visit_item (item : PyVal) : tame (visit_item item).
Proof.
  unfold visit_item. destruct (Py.eq_str _ _); [|apply tame_ret].
  apply tame_bind; [apply tame_attr | intros content].
  apply tame_bind; [apply tame_iter | intros blocks].
  apply tame_for_each, tame_visit_content.
Qed.

Lemma tame_traverse (response : PyVal) : tame (traverse response).
Proof.
  unfold traverse.
  apply tame_bind; [apply tame_attr | intros output].
  apply tame_bind; [apply tame_iter | intros items].
  apply tame_for_each, tame_visit_item.
Qed.

(** The extraction block always runs to its end. *)
Lemma extract_block_returns (py_str : PyVal -> string) (response : PyVal) (st : Locals) :
  exists st', extract_block py_str response st = (Val tt, st').
Proof.
  pose proof (tame_traverse response st) as Ht.
  unfold extract_block, try_except.
  destruct (traverse response st) as [[[]| e |] st1]; simpl in Ht.
  - eexists; reflexivity.
  - rewrite Ht. eexists; reflexivity.
  - contradiction.
Qed.

(** C6.  On a well-formed completion the extractor returns the texts of the
    text blocks of the messages, concatenated in order, and one record for
    every file citation, in order; a completion with the single text block
    [X] carrying the single citation of file [f1], named [a_pdf], gives the
    text [X] and that one citation. *)
Theorem extract_well_formed (py_str : PyVal -> string) (output : list Completion.Item) :
  extract py_str (Completion.to_py output)
  = {| output_text := Completion.spec_text output;
       citations := Completion.spec_citations output |}
  /\ forall X f1 a_pdf,
      extract py_str
        (Completion.to_py
           [Completion.Message
              [Completion.OutputText X [Completion.FileCitation f1 a_pdf]]])
      = {| output_text := X;
           citations := [{| file_id := PStr f1; filename := PStr a_pdf |}] |}.
Proof.
  assert (H : forall o, extract py_str (Completion.to_py o)
                        = {| output_text := Completion.spec_text o;
                             citations := Completion.spec_citations o |}).
  { intros o. unfold extract, extract_block.
    rewrite (try_val _ _ _ _ _ (traverse_well_formed o)). reflexivity. }
  split; [apply H|].
  intros X f1 a_pdf. rewrite H. unfold Completion.spec_text. cbn.
  rewrite append_empty_r. reflexivity.
Qed.

(** The block after a failed traversal: the text is replaced, the citation
    list is left as the traversal left it. *)
Lemma extract_block_fallback (py_str : PyVal -> string) (response : PyVal)
    (e : exn) (st : Locals) :
  traverse response locals0 = (Raised e, st) ->
  extract_block py_str response locals0
  = (Val tt, {| output_text := py_str response; citations := citations st |}).
Proof.
  intros Ht.
  pose proof (tame_traverse response locals0) as He. rewrite Ht in He. simpl in He.
  unfold extract_block. rewrite (try_caught _ _ _ _ _ Ht He). reflexivity.
Qed.

(** C2, as amended.  When the traversal raises, the block still ends
    normally, with the stringified completion as the text; the citation
    list is empty when the traversal had collected no citation before it
    failed. *)
Theorem extract_fallback (py_str : PyVal -> string) (response : PyVal)
    (e : exn) (st : Locals) :
  traverse response locals0 = (Raised e, st) ->
  extract_block py_str response locals0 = (Val tt, extract py_str response)
  /\ output_text (extract py_str response) = py_str response
  /\ (citations st = [] -> citations (extract py_str response) = []).
Proof.
  intros Ht. unfold extract.
  rewrite (extract_block_fallback py_str response e st Ht). simpl. auto.
Qed.

(** ** The indexing poll *)

Section Polling.

Variable remote : Remote.

Lemma request_ok (c : Call) (w : World) (a : answer c) :
  client w = true -> reply remote c w = Ok a ->
  request remote c w = (Val a, called remote c w).
Proof. unfold request. intros -> ->. reflexivity. Qed.

Lemma request_fail (c : Call) (w : World) (msg : string) :
  client w = true -> reply remote c w = Fail msg ->
  request remote c w = (Raised (PyExc APIError msg), called remote c w).
Proof. unfold request. intros -> ->. reflexivity. Qed.

Lemma request_no_client (c : Call) (w : World) :
  client w = false ->
  exists msg, request remote c w = (Raised (PyExc AttributeError msg), w).
Proof. unfold request. intros ->. eexists; reflexivity. Qed.

Lemma is_in_failed (s : string) :
  is_in s ["failed"; "error"] = true -> is_in s ["completed"; "finished"] = false.
Proof.
  unfold is_in. simpl. rewrite !orb_false_r. intros H.
  apply orb_true_iff in H. destruct H as [H|H]; apply String.eqb_eq in H; subst;
    reflexivity.
Qed.

Lemma scan_polled_ok (file_id : string) (data : list FileRef) (f : FileRef) :
  polled_entry file_id data = Some f ->
  is_in (status_of f) ["completed"; "finished"] = true ->
  scan file_id data = Some "completed".
Proof.
  unfold polled_entry, status_of.
  induction data as [|g data IH]; cbn [scan find]; [discriminate|].
  destruct (default "" (ref_id g) =? file_id)%string.
  - intros [= ->] H. cbv zeta. rewrite H. reflexivity.
  - exact IH.
Qed.

Lemma scan_polled_failed (file_id : string) (data : list FileRef) (f : FileRef) :
  polled_entry file_id data = Some f ->
  is_in (status_of f) ["failed"; "error"] = true ->
  scan file_id data = Some (status_of f).
Proof.
  unfold polled_entry, status_of.
  induction data as [|g data IH]; cbn [scan find]; [discriminate|].
  destruct (default "" (ref_id g) =? file_id)%string.
  - intros [= ->] H. cbv zeta. rewrite (is_in_failed _ H), H. reflexivity.
  - exact IH.
Qed.

Lemma scan_none (file_id : string) (data : list FileRef) :
  (forall f, In f data -> default "" (ref_id f) = file_id ->
             terminal (status_of f) = false) ->
  scan file_id data = None.
Proof.
  unfold terminal, status_of.
  induction data as [|g data IH]; cbn [scan]; [reflexivity|]. intros H.
  destruct (default "" (ref_id g) =? file_id)%string eqn:E.
  - apply String.eqb_eq in E. cbv zeta.
    destruct (orb_false_elim _ _ (H g (or_introl eq_refl) E)) as [-> ->].
    apply IH. intros f Hf. apply H. right; exact Hf.
  - apply IH. intros f Hf. apply H. right; exact Hf.
Qed.

Lemma sleep_ok (d : Z) (w : World) :
  0 <= d -> sleep remote d w = (Val tt, slept remote d w).
Proof. unfold sleep. intros H. destruct (Z.ltb_spec d 0); [lia | reflexivity]. Qed.

Lemma attempt_returns (file_id : string) (poll_interval : Z) (w : World)
    (data : list FileRef) (status : string) :
  client w = true -> reply remote (poll_call w) w = Ok data ->
  scan file_id data = Some status ->
  attempt remote file_id poll_interval w = (Val (Some status), called remote (poll_call w) w).
Proof.
  intros Hc Hr Hs. unfold attempt. apply try_val.
  unfold bind, get_active_vector_store_id. fold (poll_call w).
  rewrite (request_ok _ _ _ Hc Hr), Hs. reflexivity.
Qed.

Lemma attempt_sleeps (file_id : string) (poll_interval : Z) (w : World)
    (data : list FileRef) :
  client w = true -> reply remote (poll_call w) w = Ok data ->
  scan file_id data = None -> 0 <= poll_interval ->
  attempt remote file_id poll_interval w
  = (Val None, slept remote poll_interval (called remote (poll_call w) w)).
Proof.
  intros Hc Hr Hs Hp. unfold attempt. apply try_val.
  unfold bind, get_active_vector_store_id. fold (poll_call w).
  rewrite (request_ok _ _ _ Hc Hr), Hs, (sleep_ok _ _ Hp). reflexivity.
Qed.

Lemma attempt_swallows (file_id : string) (poll_interval : Z) (w : World)
    (msg : string) :
  client w = true -> reply remote (poll_call w) w = Fail msg -> 0 <= poll_interval ->
  attempt remote file_id poll_interval w
  = (Val None, slept remote poll_interval (called remote (poll_call w) w)).
Proof.
  intros Hc Hr Hp. unfold attempt.
  rewrite (try_caught _ _ _ (called remote (poll_call w) w) (PyExc APIError msg));
    [|unfold bind, get_active_vector_store_id; fold (poll_call w);
      rewrite (request_fail _ _ _ Hc Hr); reflexivity
     |reflexivity].
  unfold bind. rewrite (sleep_ok _ _ Hp). reflexivity.
Qed.

Lemma attempt_no_client (file_id : string) (poll_interval : Z) (w : World) :
  client w = false -> 0 <= poll_interval ->
  attempt remote file_id poll_interval w = (Val None, slept remote poll_interval w).
Proof.
  intros Hc Hp. unfold attempt.
  destruct (request_no_client (poll_call w) w Hc) as [msg Hr].
  rewrite (try_caught _ _ _ w (PyExc AttributeError msg));
    [|unfold bind, get_active_vector_store_id; fold (poll_call w);
      rewrite Hr; reflexivity
     |reflexivity].
  unfold bind. rewrite (sleep_ok _ _ Hp). reflexivity.
Qed.

Lemma wait_loop_step (fuel : nat) (file_id : string)
    (start timeout_sec poll_interval : Z) (w : World) :
  clock w - start < 1000 * timeout_sec ->
  wait_loop remote (S fuel) file_id start timeout_sec poll_interval w
  = (r <- attempt remote file_id poll_interval ;;
     match r with
     | Some status => ret status
     | None => wait_loop remote fuel file_id start timeout_sec poll_interval
     end) w.
Proof.
  intros H. cbn [wait_loop].
  destruct (Z.ltb_spec (clock w - start) (1000 * timeout_sec)); [reflexivity | lia].
Qed.

(** C1.  One turn of the poll, [start] being the time at which
    [wait_until_file_indexed] was entered.  Once the budget is spent the
    function returns [timeout].  Within the budget it lists the files of
    the active store: when the entry that matches the file id has status
    [completed] or [finished] it returns [completed]; when that status is
    [failed] or [error] it returns the status itself; when no matching
    entry has a terminal status, or the listing fails, it sleeps one poll
    interval and goes round again. *)
Theorem wait_until_file_indexed_turn (fuel : nat) (file_id : string)
    (start timeout_sec poll_interval : Z) (w : World) :
  (1000 * timeout_sec <= clock w - start ->
   wait_loop remote fuel file_id start timeout_sec poll_interval w
   = (Val "timeout", w))
  /\ (clock w - start < 1000 * timeout_sec -> client w = true ->
      (forall data, reply remote (poll_call w) w = Ok data ->
         (forall f, polled_entry file_id data = Some f ->
                    is_in (status_of f) ["completed"; "finished"] = true ->
                    wait_loop remote (S fuel) file_id start timeout_sec poll_interval w
                    = (Val "completed", called remote (poll_call w) w))
         /\ (forall f, polled_entry file_id data = Some f ->
                       is_in (status_of f) ["failed"; "error"] = true ->
                       wait_loop remote (S fuel) file_id start timeout_sec poll_interval w
                       = (Val (status_of f), called remote (poll_call w) w))
         /\ ((forall f, In f data -> default "" (ref_id f) = file_id ->
                        terminal (status_of f) = false) ->
             0 <= poll_interval ->
             wait_loop remote (S fuel) file_id start timeout_sec poll_interval w
             = wait_loop remote fuel file_id start timeout_sec poll_interval
                 (slept remote poll_interval (called remote (poll_call w) w))))
      /\ (forall msg, reply remote (poll_call w) w = Fail msg ->
            0 <= poll_interval ->
            wait_loop remote (S fuel) file_id start timeout_sec poll_interval w
            = wait_loop remote fuel file_id start timeout_sec poll_interval
                (slept remote poll_interval (called remote (poll_call w) w))))
  /\ wait_until_file_indexed remote fuel file_id timeout_sec poll_interval w
     = wait_loop remote fuel file_id (clock w) timeout_sec poll_interval w.
Proof.
  split; [|split; [|reflexivity]].
  - intros H. destruct fuel; cbn [wait_loop];
      destruct (Z.ltb_spec (clock w - start) (1000 * timeout_sec)); try lia; reflexivity.
  - intros Hb Hc. split.
    + intros data Hr. repeat split.
      * intros f Hf Hs.
        rewrite (wait_loop_step _ _ _ _ _ _ Hb),
          (bind_val _ _ _ _ _
             (attempt_returns file_id poll_interval w data _ Hc Hr
                (scan_polled_ok _ _ f Hf Hs))).
        reflexivity.
      * intros f Hf Hs.
        rewrite (wait_loop_step _ _ _ _ _ _ Hb),
          (bind_val _ _ _ _ _
             (attempt_returns file_id poll_interval w data _ Hc Hr
                (scan_polled_failed _ _ f Hf Hs))).
        reflexivity.
      * intros Hn Hp.
        rewrite (wait_loop_step _ _ _ _ _ _ Hb),
          (bind_val _ _ _ _ _
             (attempt_sleeps file_id poll_interval w data Hc Hr
                (scan_none _ _ Hn) Hp)).
        reflexivity.
    + intros msg Hr Hp.
      rewrite (wait_loop_step _ _ _ _ _ _ Hb),
        (bind_val _ _ _ _ _ (attempt_swallows file_id poll_interval w msg Hc Hr Hp)).
      reflexivity.
Qed.

Lemma wait_loop_timeout (fuel : nat) (file_id : string)
    (start timeout_sec poll_interval : Z) (w : World) :
  1000 * timeout_sec <= clock w - start ->
  wait_loop remote fuel file_id start timeout_sec poll_interval w = (Val "timeout", w).
Proof.
  intros H. destruct fuel; cbn [wait_loop];
    destruct (Z.ltb_spec (clock w - start) (1000 * timeout_sec)); try lia; reflexivity.
Qed.

Lemma clock_called (c : Call) (w : World) : clock w <= clock (called remote c w).
Proof. simpl. pose proof (N2Z.is_nonneg (latency remote (clock w) (calls_of (log w)) c)). lia. Qed.

(** What one turn of the poll does, whatever the service answers. *)
Lemma attempt_turn (file_id : string) (poll_interval : Z) (w : World) :
  0 <= poll_interval ->
  exists r evs w',
    attempt remote file_id poll_interval w = (Val r, w')
    /\ log w' = (log w ++ evs)%list
    /\ ACTIVE_VECTOR_STORE_ID w' = ACTIVE_VECTOR_STORE_ID w
    /\ Forall (fun e => e = Called (poll_call w) \/ e = Slept poll_interval) evs
    /\ (length (calls_of evs) <= 1)%nat
    /\ (length (sleeps_of evs) <= 1)%nat
    /\ (r = None -> clock w + poll_interval <= clock w').
Proof.
  intros Hp. destruct (client w) eqn:Hc.
  - destruct (reply remote (poll_call w) w) as [data|msg] eqn:Hr.
    + destruct (scan file_id data) as [status|] eqn:Hs.
      * exists (Some status), [Called (poll_call w)], (called remote (poll_call w) w).
        rewrite (attempt_returns _ _ _ _ _ Hc Hr Hs).
        repeat split; simpl; auto. discriminate.
      * exists None, [Called (poll_call w); Slept poll_interval],
          (slept remote poll_interval (called remote (poll_call w) w)).
        rewrite (attempt_sleeps _ _ _ _ Hc Hr Hs Hp).
        repeat split; simpl; auto.
        -- rewrite <- app_assoc. reflexivity.
        -- intros _. pose proof (clock_called (poll_call w) w). simpl in *. lia.
    + exists None, [Called (poll_call w); Slept poll_interval],
        (slept remote poll_interval (called remote (poll_call w) w)).
      rewrite (attempt_swallows _ _ _ _ Hc Hr Hp).
      repeat split; simpl; auto.
      * rewrite <- app_assoc. reflexivity.
      * intros _. pose proof (clock_called (poll_call w) w). simpl in *. lia.
  - exists None, [Slept poll_interval], (slept remote poll_interval w).
    rewrite (attempt_no_client _ _ _ Hc Hp).
    repeat split; simpl; auto. intros _; lia.
Qed.

Lemma wait_loop_bounded (file_id : string) (start timeout_sec poll_interval : Z) :
  0 < poll_interval ->
  forall (n fuel : nat) (w : World),
    (n <= fuel)%nat ->
    1000 * timeout_sec - (clock w - start) <= poll_interval * Z.of_nat n ->
    exists status evs w',
      wait_loop remote fuel file_id start timeout_sec poll_interval w = (Val status, w')
      /\ log w' = (log w ++ evs)%list
      /\ Forall (fun e => e = Called (poll_call w) \/ e = Slept poll_interval) evs
      /\ (length (calls_of evs) <= n)%nat
      /\ (length (sleeps_of evs) <= n)%nat.
Proof.
  intros Hp. induction n as [|n IH]; intros fuel w Hn Hrem.
  - exists "timeout", [], w.
    rewrite wait_loop_timeout by lia. rewrite app_nil_r. repeat split; auto.
  - destruct (Z.lt_ge_cases (clock w - start) (1000 * timeout_sec)) as [Hb|Hb].
    + destruct fuel as [|fuel]; [lia|].
      rewrite (wait_loop_step _ _ _ _ _ _ Hb).
      destruct (attempt_turn file_id poll_interval w (Z.lt_le_incl _ _ Hp))
        as (r & evs & w1 & Ha & Hl & Hact & Hev & Hcl & Hsl & Hck).
      rewrite (bind_val _ _ _ _ _ Ha).
      destruct r as [status|].
      * exists status, evs, w1. repeat split; auto; lia.
      * specialize (Hck eq_refl).
        destruct (IH fuel w1) as (status & evs' & w' & Hw & Hl' & Hev' & Hcl' & Hsl');
          [lia | lia |].
        exists status, (evs ++ evs')%list, w'. rewrite Hw. repeat split.
        -- rewrite Hl', Hl, app_assoc. reflexivity.
        -- apply Forall_app. split; [exact Hev|].
           unfold poll_call in *. rewrite Hact in Hev'. exact Hev'.
        -- rewrite calls_of_app, length_app. lia.
        -- rewrite sleeps_of_app, length_app. lia.
    + exists "timeout", [], w.
      rewrite wait_loop_timeout by lia. rewrite app_nil_r.
      repeat split; auto; simpl; lia.
Qed.

Lemma max_turns_covers (timeout_sec poll_interval : Z) :
  0 < poll_interval ->
  1000 * timeout_sec <= poll_interval * Z.of_nat (max_turns timeout_sec poll_interval).
Proof.
  intros Hp. unfold max_turns.
  pose proof (Z.div_mod (1000 * timeout_sec + poll_interval - 1) poll_interval) as Hd.
  pose proof (Z.mod_pos_bound (1000 * timeout_sec + poll_interval - 1) poll_interval Hp) as Hm.
  set (q := (1000 * timeout_sec + poll_interval - 1) / poll_interval) in *.
  destruct (Z.le_gt_cases 0 q) as [Hq|Hq].
  - rewrite Z2Nat.id by exact Hq. lia.
  - assert (H0 : Z.of_nat (Z.to_nat q) = 0) by lia. rewrite H0. nia.
Qed.



End Polling.

(** ** Deleting a vector store *)

Section Deleting.

Variable remote : Remote.

Lemma request_cases (c : Call) (w : World) :
  client w = true ->
  (exists a, reply remote c w = Ok a /\ request remote c w = (Val a, called remote c w))
  \/ (exists msg, reply remote c w = Fail msg
                  /\ request remote c w = (Raised (PyExc APIError msg), called remote c w)).
Proof.
  intros Hc. unfold request. rewrite Hc.
  destruct (reply remote c w) as [a|msg]; [left|right]; eexists; split; reflexivity.
Qed.

(** A detach under [try ... except Exception: pass]. *)
Lemma detach_best_effort (vs fid : string) (w : World) :
  client w = true ->
  try_except (request remote (vector_stores_files_delete vs (Some fid))) (fun _ => ret tt) w
  = (Val tt, called remote (vector_stores_files_delete vs (Some fid)) w).
Proof.
  intros Hc. unfold try_except.
  destruct (request_cases (vector_stores_files_delete vs (Some fid)) w Hc)
    as [(a & _ & ->)|(msg & _ & ->)]; [destruct a|]; reflexivity.
Qed.

(** Lines 196-200: the file deletion and its counter. *)
Lemma delete_file_counted (fid : string) (n : nat) (w : World) :
  client w = true ->
  exists n' w',
    try_except
      (request remote (files_delete fid) ;; ret (S n))
      (fun e => show warning ("Failed to delete file " ++ fid ++ ": " ++ exn_msg e) ;;
                ret n) w
    = (Val n', w')
    /\ calls_of (log w') = (calls_of (log w) ++ [files_delete fid])%list
    /\ errors_of (log w') = errors_of (log w)
    /\ client w' = true
    /\ ACTIVE_VECTOR_STORE_ID w' = ACTIVE_VECTOR_STORE_ID w.
Proof.
  intros Hc. unfold try_except, bind.
  destruct (request_cases (files_delete fid) w Hc) as [(a & _ & ->)|(msg & _ & ->)].
  - exists (S n), (called remote (files_delete fid) w).
    repeat split; auto; log_simpl; reflexivity.
  - simpl. eexists n, _. split; [reflexivity|].
    repeat split; auto; log_simpl; reflexivity.
Qed.

Lemma delete_refs_attempts (vs : string) (refs : list FileRef) :
  forall (n : nat) (w : World),
    client w = true ->
    exists n' w',
      delete_refs remote vs refs n w = (Val n', w')
      /\ calls_of (log w')
         = (calls_of (log w) ++ file_attempts vs (attached_ids refs))%list
      /\ errors_of (log w') = errors_of (log w)
      /\ client w' = true
      /\ ACTIVE_VECTOR_STORE_ID w' = ACTIVE_VECTOR_STORE_ID w.
Proof.
  induction refs as [|ref refs IH]; intros n w Hc.
  - exists n, w. simpl. rewrite app_nil_r. auto.
  - cbn [delete_refs attached_ids]. fold (ref_fid ref).
    destruct (ref_fid ref) as [fid|] eqn:Hfid; cbn [truthy_opt default];
      [destruct (PyStr.truthy fid)|]; try (apply IH; exact Hc).
    rewrite (bind_val _ _ _ _ _ (detach_best_effort vs fid w Hc)).
    destruct (delete_file_counted fid n
                (called remote (vector_stores_files_delete vs (Some fid)) w) Hc)
      as (n1 & w1 & H1 & Hcalls1 & Herr1 & Hc1 & Ha1).
    rewrite (bind_val _ _ _ _ _ H1).
    destruct (IH n1 w1 Hc1) as (n' & w' & H' & Hcalls' & Herr' & Hc' & Ha').
    exists n', w'. rewrite H'. repeat split; auto.
    + rewrite Hcalls', Hcalls1. log_simpl. reflexivity.
    + rewrite Herr', Herr1. log_simpl. reflexivity.
    + rewrite Ha', Ha1. reflexivity.
Qed.

Lemma enumerate_files_returns (vs : string) (w : World) :
  client w = true ->
  enumerate_files remote vs w
  = (Val (enumerated remote vs w), called remote (vector_stores_files_list (Some vs)) w).
Proof.
  intros Hc. unfold enumerate_files, enumerated, try_except.
  destruct (request_cases (vector_stores_files_list (Some vs)) w Hc)
    as [(a & -> & ->)|(msg & -> & ->)]; reflexivity.
Qed.

(** Steps 1 to 3 never fail, and the requests they send do not depend on
    how the service answers the detach and delete requests. *)
Lemma detach_and_delete_files_attempts (vs : string) (w : World) :
  client w = true ->
  exists n w1,
    detach_and_delete_files remote vs w = (Val n, w1)
    /\ calls_of (log w1)
       = (calls_of (log w)
          ++ vector_stores_files_list (Some vs)
             :: file_attempts vs (attached_ids (enumerated remote vs w)))%list
    /\ errors_of (log w1) = errors_of (log w)
    /\ client w1 = true
    /\ ACTIVE_VECTOR_STORE_ID w1 = ACTIVE_VECTOR_STORE_ID w.
Proof.
  intros Hc. unfold detach_and_delete_files.
  rewrite (bind_val _ _ _ _ _ (enumerate_files_returns vs w Hc)).
  destruct (delete_refs_attempts vs (enumerated remote vs w) 0
              (called remote (vector_stores_files_list (Some vs)) w) Hc)
    as (n & w1 & H & Hcalls & Herr & Hc1 & Ha).
  exists n, w1. repeat split; auto.
  - rewrite Hcalls. log_simpl. reflexivity.
  - rewrite Herr. log_simpl. reflexivity.
Qed.

Lemma delete_store_outcome (vs : string) (w w1 : World) (n : nat) :
  client w = true -> client w1 = true ->
  detach_and_delete_files remote vs w = (Val n, w1) ->
  (forall u, reply remote (vector_stores_delete vs) w1 = Ok u ->
     delete_store remote vs w
     = (Raised (PyExc RerunException "rerun"), store_deleted remote vs n w1))
  /\ (forall msg, reply remote (vector_stores_delete vs) w1 = Fail msg ->
        delete_store remote vs w
        = (Val tt,
           with_log (called remote (vector_stores_delete vs) w1)
             (log (called remote (vector_stores_delete vs) w1)
              ++ [Shown error (deletion_failure vs msg)]))).
Proof.
  intros Hc Hc1 Hd. split.
  - intros u Hr. unfold delete_store, try_except. rewrite Hc. cbn [negb].
    rewrite (bind_val _ _ _ _ _ Hd). unfold delete_collection.
    rewrite (bind_val _ _ _ _ _ (request_ok remote _ _ _ Hc1 Hr)).
    unfold store_deleted, bind, get_active_vector_store_id.
    destruct (option_eq_str _ vs); reflexivity.
  - intros msg Hr. unfold delete_store, try_except. rewrite Hc. cbn [negb].
    rewrite (bind_val _ _ _ _ _ Hd). unfold delete_collection.
    rewrite (bind_raised _ _ _ _ _ (request_fail remote _ _ _ Hc1 Hr)).
    reflexivity.
Qed.

(** C3.  Deleting a store first lists its files, then sends a detach and a
    file deletion for every listed file that has an id (all of them when
    each has one), in order and whatever the service answers to any of
    them, then sends the deletion of the store.  Steps 1 to 3 show no
    error.  The action ends in the failure message exactly when that last
    request fails; when it succeeds the action shows the success message
    and asks for a rerun. *)
Theorem delete_store_best_effort (vs : string) (w : World) :
  client w = true ->
  exists n w1,
    detach_and_delete_files remote vs w = (Val n, w1)
    /\ calls_of (log w1)
       = (calls_of (log w)
          ++ vector_stores_files_list (Some vs)
             :: file_attempts vs (attached_ids (enumerated remote vs w)))%list
    /\ (Forall (fun ref => truthy_opt (ref_fid ref) = true) (enumerated remote vs w) ->
        attached_ids (enumerated remote vs w)
        = map (fun ref => default "" (ref_fid ref)) (enumerated remote vs w))
    /\ calls_of (log (snd (delete_store remote vs w)))
       = (calls_of (log w1) ++ [vector_stores_delete vs])%list
    /\ (forall u, reply remote (vector_stores_delete vs) w1 = Ok u ->
          fst (delete_store remote vs w) = Raised (PyExc RerunException "rerun")
          /\ log (snd (delete_store remote vs w))
             = (log w1 ++ [Called (vector_stores_delete vs);
                           Shown success (deletion_message vs n)])%list
          /\ errors_of (log (snd (delete_store remote vs w))) = errors_of (log w))
    /\ (forall msg, reply remote (vector_stores_delete vs) w1 = Fail msg ->
          fst (delete_store remote vs w) = Val tt
          /\ log (snd (delete_store remote vs w))
             = (log w1 ++ [Called (vector_stores_delete vs);
                           Shown error (deletion_failure vs msg)])%list
          /\ errors_of (log (snd (delete_store remote vs w)))
             = (errors_of (log w) ++ [deletion_failure vs msg])%list).
Proof.
  intros Hc.
  destruct (detach_and_delete_files_attempts vs w Hc)
    as (n & w1 & Hd & Hcalls & Herr & Hc1 & Ha).
  destruct (delete_store_outcome vs w w1 n Hc Hc1 Hd) as [Hok Hfail].
  assert (Hlast : calls_of (log (snd (delete_store remote vs w)))
                  = (calls_of (log w1) ++ [vector_stores_delete vs])%list).
  { destruct (reply remote (vector_stores_delete vs) w1) as [u|msg] eqn:Hr.
    - rewrite (Hok u eq_refl). unfold store_deleted.
      destruct (option_eq_str _ vs); log_simpl; reflexivity.
    - rewrite (Hfail msg eq_refl). log_simpl. reflexivity. }
  exists n, w1. repeat split; auto.
  - clear. induction (enumerated remote vs w) as [|ref refs IH]; [reflexivity|].
    intros H. inversion H as [|? ? H1 H2]; subst. cbn [attached_ids map].
    rewrite H1, (IH H2). reflexivity.
  - rewrite (Hok u H). reflexivity.
  - rewrite (Hok u H). unfold store_deleted.
    destruct (option_eq_str _ vs); simpl; rewrite <- app_assoc; reflexivity.
  - rewrite (Hok u H). unfold store_deleted.
    destruct (option_eq_str _ vs); log_simpl; exact Herr.
  - rewrite (Hfail msg H). reflexivity.
  - rewrite (Hfail msg H). simpl. rewrite <- app_assoc. reflexivity.
  - rewrite (Hfail msg H). log_simpl. rewrite Herr. reflexivity.
Qed.

(** C9.  When the deletion of the store succeeds and the store was the
    active one, the session's active id is [None] afterwards; the active id
    is left as it was when the store was another one. *)
Theorem delete_store_clears_active (vs : string) (w : World) (u : unit) :
  client w = true ->
  reply remote (vector_stores_delete vs) (snd (detach_and_delete_files remote vs w))
  = Ok u ->
  (ACTIVE_VECTOR_STORE_ID w = Some vs ->
   ACTIVE_VECTOR_STORE_ID (snd (delete_store remote vs w)) = None)
  /\ (ACTIVE_VECTOR_STORE_ID w <> Some vs ->
      ACTIVE_VECTOR_STORE_ID (snd (delete_store remote vs w))
      = ACTIVE_VECTOR_STORE_ID w).
Proof.
  intros Hc Hr.
  destruct (detach_and_delete_files_attempts vs w Hc)
    as (n & w1 & Hd & _ & _ & Hc1 & Ha).
  rewrite Hd in Hr. simpl in Hr.
  destruct (delete_store_outcome vs w w1 n Hc Hc1 Hd) as [Hok _].
  rewrite (Hok u Hr). unfold store_deleted. simpl. rewrite Ha. split.
  - intros ->. simpl. rewrite String.eqb_refl. reflexivity.
  - intros Hne. destruct (ACTIVE_VECTOR_STORE_ID w) as [a|] eqn:E; simpl.
    + destruct (String.eqb_spec a vs); [congruence|]. simpl. congruence.
    + congruence.
Qed.

End Deleting.

(** ** Listing the stores *)

Section Listing.

Variable remote : Remote.
Variable py_str : PyVal -> string.

Lemma client_key (w : World) : client w = true -> PyStr.truthy (OPENAI_API_KEY w) = true.
Proof. unfold client. auto. Qed.

Lemma list_vector_stores_ok (w : World) (stores : list VectorStore) :
  client w = true -> reply remote vector_stores_list w = Ok stores ->
  list_vector_stores remote w = (Val stores, called remote vector_stores_list w).
Proof.
  intros Hc Hr. unfold list_vector_stores. apply try_val.
  rewrite (client_key w Hc), Hc. cbn [negb orb].
  apply (request_ok remote vector_stores_list w stores Hc Hr).
Qed.

Lemma list_vector_stores_not_found (w : World) (msg : string) :
  client w = true -> reply remote vector_stores_list w = Fail msg ->
  PyStr.contains not_found_marker msg = true ->
  list_vector_stores remote w
  = (Raised (PyExc RerunException "rerun"), refreshing remote w).
Proof.
  intros Hc Hr Hm. unfold list_vector_stores.
  rewrite (try_caught _ _ _ (called remote vector_stores_list w) (PyExc APIError msg));
    [|rewrite (client_key w Hc), Hc; cbn [negb orb];
      apply (request_fail remote vector_stores_list w msg Hc Hr)
     |reflexivity].
  cbn [exn_msg]. rewrite Hm. reflexivity.
Qed.

Lemma list_vector_stores_other (w : World) (msg : string) :
  client w = true -> reply remote vector_stores_list w = Fail msg ->
  PyStr.contains not_found_marker msg = false ->
  list_vector_stores remote w = (Val [], listing_failed remote msg w).
Proof.
  intros Hc Hr Hm. unfold list_vector_stores.
  rewrite (try_caught _ _ _ (called remote vector_stores_list w) (PyExc APIError msg));
    [|rewrite (client_key w Hc), Hc; cbn [negb orb];
      apply (request_fail remote vector_stores_list w msg Hc Hr)
     |reflexivity].
  cbn [exn_msg]. rewrite Hm. reflexivity.
Qed.

Lemma client_settings_shown (w : World) : client (settings_shown w) = client w.
Proof.
  unfold client, settings_shown, page_top, bind, new_run, settings_status, show. simpl.
  destruct (PyStr.truthy (OPENAI_API_KEY w)) eqn:E; simpl; rewrite ?E; reflexivity.
Qed.

Lemma settings_status_shown (w : World) : page_top w = (Val tt, settings_shown w).
Proof.
  unfold settings_shown, page_top, bind, new_run, settings_status, show. simpl.
  destruct (PyStr.truthy (OPENAI_API_KEY w)); reflexivity.
Qed.

Lemma settings_shown_log (w : World) :
  calls_of (log (settings_shown w)) = calls_of (log w)
  /\ errors_of (log (settings_shown w)) = errors_of (log w).
Proof.
  unfold settings_shown, page_top, bind, new_run, settings_status, show. simpl.
  destruct (PyStr.truthy (OPENAI_API_KEY w)); simpl; split; log_simpl; reflexivity.
Qed.

(** A run with quiet inputs, up to the listing of the stores. *)
Lemma page_quiet (fuel : nat) (i : Inputs) (w : World) :
  quiet i ->
  page remote py_str fuel i w
  = (stores <- list_vector_stores remote ;;
     for_each stores (store_panel remote i (ACTIVE_VECTOR_STORE_ID (settings_shown w))) ;;
     (if upload_clicked i then upload remote fuel (uploaded_files i) else ret tt))
      (settings_shown w).
Proof.
  intros (Hf & Hcr & Hre & _). unfold page. rewrite Hf, Hcr, Hre.
  unfold settings_shown, page_top.
  cbv [bind new_run ret get_active_vector_store_id settings_status show].
  cbn [OPENAI_API_KEY with_keys with_log].
  destruct (PyStr.truthy (OPENAI_API_KEY w)); reflexivity.
Qed.

Lemma quiet_after_rerun (i : Inputs) : quiet i -> quiet (after_rerun i).
Proof. intros (_ & _ & _ & Hs). repeat split; auto. Qed.

Lemma session_settled (runs fuel : nat) (i : Inputs) (w w' : World) :
  page remote py_str fuel i w = (Val tt, w') ->
  session remote py_str runs fuel i w = (Val 0%nat, w').
Proof. intros H. destruct runs; cbn [session]; rewrite H; reflexivity. Qed.

(** C7.  A listing of the stores that fails with the not-found marker in
    its message shows no error: the run sends that one request, shows the
    "Refreshing" notice and ends in one [st.rerun()], and the session goes
    on with the rerun, which counts as one refresh more than the reruns
    that follow it.  The rerun lists the stores again: there is exactly
    one refresh when the rerun ends normally, and one more for every later
    run whose listing fails in the same way.  A listing that fails with
    any other message shows the error and yields no stores. *)
Theorem list_vector_stores_transient (w : World) (msg : string) :
  client w = true ->
  reply remote vector_stores_list w = Fail msg ->
  (PyStr.contains not_found_marker msg = true ->
   list_vector_stores remote w
   = (Raised (PyExc RerunException "rerun"), refreshing remote w)
   /\ calls_of (log (refreshing remote w))
      = (calls_of (log w) ++ [vector_stores_list])%list
   /\ errors_of (log (refreshing remote w)) = errors_of (log w)
   /\ forall (runs fuel : nat) (i : Inputs) (w0 : World),
       quiet i -> settings_shown w0 = w ->
       page remote py_str fuel i w0
       = (Raised (PyExc RerunException "rerun"), refreshing remote w)
       /\ session remote py_str (S runs) fuel i w0
          = (n <- session remote py_str runs fuel (after_rerun i) ;; ret (S n))
              (refreshing remote w)
       /\ (forall w',
             page remote py_str fuel (after_rerun i) (refreshing remote w) = (Val tt, w') ->
             session remote py_str (S runs) fuel i w0 = (Val 1%nat, w')))
  /\ (PyStr.contains not_found_marker msg = false ->
      list_vector_stores remote w = (Val [], listing_failed remote msg w)
      /\ errors_of (log (listing_failed remote msg w))
         = (errors_of (log w) ++ [listing_failure msg])%list).
Proof.
  intros Hc Hr. split.
  - intros Hm.
    pose proof (list_vector_stores_not_found w msg Hc Hr Hm) as Hl.
    split; [exact Hl|].
    split; [unfold refreshing; log_simpl; reflexivity|].
    split; [unfold refreshing; log_simpl; reflexivity|].
    intros runs fuel i w0 Hq Hw0.
    assert (Hpage0 : page remote py_str fuel i w0
                     = (Raised (PyExc RerunException "rerun"), refreshing remote w)).
    { rewrite (page_quiet fuel i w0 Hq), Hw0. apply (bind_raised _ _ _ _ _ Hl). }
    split; [exact Hpage0|]. split.
    + cbn [session]. rewrite Hpage0. reflexivity.
    + intros w' Hpage. cbn [session]. rewrite Hpage0. cbn [exn_cls].
      rewrite (bind_val _ _ _ _ _ (session_settled runs fuel _ _ _ Hpage)).
      reflexivity.
  - intros Hm. split.
    + apply (list_vector_stores_other w msg Hc Hr Hm).
    + unfold listing_failed. log_simpl. reflexivity.
Qed.

End Listing.

(** * The model at work *)

Import Demo.

Example strip_trims_both_ends : PyStr.strip "  example.com
" = "example.com".
Proof. reflexivity. Qed.

Example strip_unicode_blank :
  PyStr.strip (String (ascii_of_nat 226) (String (ascii_of_nat 128)
                 (String (ascii_of_nat 131) " 	"))) = "".
Proof. reflexivity. Qed.

Example marker_found :
  PyStr.contains not_found_marker "Error code: 404 - Vector store not found: vs_1" = true.
Proof. reflexivity. Qed.

Example chars_of_text : Py.chars "a’b" = ["a"; "’"; "b"].
Proof. reflexivity. Qed.

Example delete_store_two_files :
  delete_store two_files "vs_1" signed_in
  = (Raised (PyExc RerunException "rerun"),
     {| clock := 0;
        log := [Called (vector_stores_files_list (Some "vs_1"));
                Called (vector_stores_files_delete "vs_1" (Some "f1"));
                Called (files_delete "f1");
                Shown warning "Failed to delete file f1: file is locked";
                Called (vector_stores_files_delete "vs_1" (Some "f2"));
                Called (files_delete "f2");
                Called (vector_stores_delete "vs_1");
                Shown success "Deleted vector store: vs_1 (and 1 related files)"];
        OPENAI_API_KEY := "sk-test"; OPENAI_MODEL := "gpt-4.1-mini";
        ACTIVE_VECTOR_STORE_ID := None; widget_keys := [] |}).
Proof. reflexivity. Qed.

Example poll_sees_completed :
  wait_until_file_indexed indexed 5 "f1" 60 1000 signed_in
  = (Val "completed",
     {| clock := 200;
        log := [Called (vector_stores_files_list (Some "vs_1"))];
        OPENAI_API_KEY := "sk-test"; OPENAI_MODEL := "gpt-4.1-mini";
        ACTIVE_VECTOR_STORE_ID := Some "vs_1"; widget_keys := [] |}).
Proof. reflexivity. Qed.

Example poll_times_out :
  fst (wait_until_file_indexed indexing 90 "f1" 90 1000 signed_in) = Val "timeout"
  /\ length (calls_of (log (snd (wait_until_file_indexed indexing 90 "f1" 90 1000 signed_in))))
     = 53%nat.
Proof. split; vm_compute; reflexivity. Qed.

Example poll_needs_fuel :
  fst (wait_until_file_indexed indexing 10 "f1" 90 1000 signed_in) = OutOfFuel.
Proof. vm_compute. reflexivity. Qed.

Example session_after_deletion :
  session just_deleted str 3 0 no_inputs signed_in
  = (Val 1%nat,
     {| clock := 0;
        log := [Shown write intro_text; Shown caption settings_caption;
                Shown success "API key set"; Shown caption knowledge_base_caption;
                Called vector_stores_list; Shown info "Refreshing stores...";
                Shown write intro_text; Shown caption settings_caption;
                Shown success "API key set"; Shown caption knowledge_base_caption;
                Called vector_stores_list];
        OPENAI_API_KEY := "sk-test"; OPENAI_MODEL := "gpt-4.1-mini";
        ACTIVE_VECTOR_STORE_ID := Some "vs_1";
        widget_keys := ["chk_show_files_vs_2"; "btn_delete_store_vs_2";
                        "btn_set_active_vs_2"] |}).
Proof. reflexivity. Qed.

(** ** Witnesses and counterexamples *)

Lemma find_program_blank_input_witness :
  PyStr.blank " 	" = true
  /\ only_shows warning msg_input_required signed_out
       (find_program empty_service str " 	" signed_out)
  /\ calls_of (log (snd (find_program empty_service str " 	" signed_out)))
     = calls_of (log signed_out).
Proof.
  split; [reflexivity|].
  apply (find_program_blank_input empty_service str " 	" signed_out). reflexivity.
Defined.

(** C5 as stated fails: a non-empty input, no active vector store, and no
    credential either; the action shows the auth error instead. *)
Lemma find_program_no_active_store_counterexample :
  ~ (forall (user_text : string) (w : World),
        user_text <> "" ->
        truthy_opt (ACTIVE_VECTOR_STORE_ID w) = false ->
        only_shows error msg_no_store_find w (find_program empty_service str user_text w)).
Proof.
  intros H.
  specialize (H "example.com" signed_out ltac:(discriminate) eq_refl).
  unfold only_shows in H. vm_compute in H. discriminate H.
Qed.

Lemma find_program_no_active_store_witness :
  truthy_opt (ACTIVE_VECTOR_STORE_ID (session_with "sk-test" None)) = false
  /\ PyStr.strip "example.com" <> ""
  /\ client (session_with "sk-test" None) = true
  /\ calls_of (log (snd (find_program empty_service str "example.com"
                          (session_with "sk-test" None))))
     = calls_of (log (session_with "sk-test" None))
  /\ only_shows error msg_no_store_find (session_with "sk-test" None)
       (find_program empty_service str "example.com" (session_with "sk-test" None)).
Proof.
  split; [reflexivity|]. split; [simpl; discriminate|]. split; [reflexivity|].
  destruct (find_program_no_active_store empty_service str "example.com"
              (session_with "sk-test" None) eq_refl) as [Hcalls Hshown].
  split; [exact Hcalls|].
  apply Hshown; [simpl; discriminate | reflexivity].
Defined.

(** C4 as stated fails: without a credential, and without an active vector
    store, the upload of a chosen file shows the no-active-store error, not
    the auth error. *)
Lemma no_credential_counterexample :
  ~ (forall w : World,
        OPENAI_API_KEY w = "" ->
        (forall user_text,
            only_shows error msg_no_key_find w
              (find_program empty_service str user_text w))
        /\ (forall name,
              only_shows error msg_no_key w (create_vector_store empty_service name w))
        /\ (forall fuel files,
              only_shows error msg_no_key w (upload empty_service fuel files w))).
Proof.
  intros H.
  destruct (H signed_out eq_refl) as (_ & _ & Hu).
  specialize (Hu 0%nat [{| uf_name := "a.txt"; uf_value := "hello" |}]).
  unfold only_shows in Hu. vm_compute in Hu. discriminate Hu.
Qed.

Lemma no_credential_no_request_witness :
  OPENAI_API_KEY (session_with "" (Some "vs_1")) = ""
  /\ only_shows error msg_no_key_find (session_with "" (Some "vs_1"))
       (find_program empty_service str "example.com" (session_with "" (Some "vs_1")))
  /\ only_shows error msg_no_key (session_with "" (Some "vs_1"))
       (create_vector_store empty_service "knowledge_base" (session_with "" (Some "vs_1")))
  /\ only_shows error msg_no_key (session_with "" (Some "vs_1"))
       (upload empty_service 90 [{| uf_name := "a.txt"; uf_value := "hello" |}]
          (session_with "" (Some "vs_1"))).
Proof.
  split; [reflexivity|].
  destruct (no_credential_no_request empty_service str (session_with "" (Some "vs_1"))
              eq_refl) as (Hfind & Hcreate & Hupload).
  split; [|split].
  - apply (proj1 (proj2 (Hfind "example.com"))). simpl. discriminate.
  - apply Hcreate.
  - apply (proj1 (proj2 (Hupload 90%nat [{| uf_name := "a.txt"; uf_value := "hello" |}])));
      [discriminate | reflexivity].
Defined.

(** C2 as stated fails: the traversal raises on the second message, after
    it collected the citation of the first; the citation stays. *)
Lemma extract_fallback_counterexample :
  ~ (forall (response : PyVal) (e : exn) (st : Locals),
        traverse response locals0 = (Raised e, st) ->
        extract str response
        = {| output_text := str response; citations := [] |}).
Proof.
  intros H.
  specialize (H broken_completion
                (PyExc AttributeError "object has no attribute 'content'")
                {| output_text := "X";
                   citations := [{| file_id := PStr "f1"; filename := PStr "a.pdf" |}] |}
                eq_refl).
  vm_compute in H. discriminate H.
Qed.

Lemma extract_fallback_witness :
  traverse PNone locals0
  = (Raised (PyExc AttributeError "object has no attribute 'output'"), locals0)
  /\ extract_block str PNone locals0 = (Val tt, extract str PNone)
  /\ output_text (extract str PNone) = str PNone
  /\ (citations locals0 = [] -> citations (extract str PNone) = []).
Proof.
  split; [reflexivity|].
  apply (extract_fallback str PNone
           (PyExc AttributeError "object has no attribute 'output'") locals0).
  reflexivity.
Defined.

Lemma wait_until_file_indexed_turn_witness :
  (clock signed_in - 0 < 1000 * 60
   /\ client signed_in = true
   /\ reply indexed (poll_call signed_in) signed_in = Ok [ref "f1" "completed"]
   /\ polled_entry "f1" [ref "f1" "completed"] = Some (ref "f1" "completed")
   /\ is_in (status_of (ref "f1" "completed")) ["completed"; "finished"] = true
   /\ wait_loop indexed 1 "f1" 0 60 1000 signed_in
      = (Val "completed", called indexed (poll_call signed_in) signed_in))
  /\ (reply failing (poll_call signed_in) signed_in = Ok [ref "f1" "failed"]
      /\ wait_loop failing 1 "f1" 0 60 1000 signed_in
         = (Val "failed", called failing (poll_call signed_in) signed_in))
  /\ (reply indexing (poll_call signed_in) signed_in = Ok [ref "f1" "in_progress"]
      /\ 0 <= 1000
      /\ wait_loop indexing 1 "f1" 0 60 1000 signed_in
         = wait_loop indexing 0 "f1" 0 60 1000
             (slept indexing 1000 (called indexing (poll_call signed_in) signed_in)))
  /\ (1000 * 0 <= clock signed_in - 0
      /\ wait_loop indexing 1 "f1" 0 0 1000 signed_in = (Val "timeout", signed_in)).
Proof.
  split; [|split; [|split]].
  - split; [simpl; lia|]. do 4 (split; [reflexivity|]).
    destruct (wait_until_file_indexed_turn indexed 0 "f1" 0 60 1000 signed_in)
      as (_ & Hturn & _).
    destruct (Hturn ltac:(simpl; lia) eq_refl) as [Hlisted _].
    destruct (Hlisted [ref "f1" "completed"] eq_refl) as [Hok _].
    exact (Hok (ref "f1" "completed") eq_refl eq_refl).
  - split; [reflexivity|].
    destruct (wait_until_file_indexed_turn failing 0 "f1" 0 60 1000 signed_in)
      as (_ & Hturn & _).
    destruct (Hturn ltac:(simpl; lia) eq_refl) as [Hlisted _].
    destruct (Hlisted [ref "f1" "failed"] eq_refl) as (_ & Hfailed & _).
    exact (Hfailed (ref "f1" "failed") eq_refl eq_refl).
  - split; [reflexivity|]. split; [lia|].
    destruct (wait_until_file_indexed_turn indexing 0 "f1" 0 60 1000 signed_in)
      as (_ & Hturn & _).
    destruct (Hturn ltac:(simpl; lia) eq_refl) as [Hlisted _].
    destruct (Hlisted [ref "f1" "in_progress"] eq_refl) as (_ & _ & Hretry).
    apply Hretry; [|lia].
    intros f [<-|[]] _. reflexivity.
  - split; [simpl; lia|].
    apply (proj1 (wait_until_file_indexed_turn indexing 1 "f1" 0 0 1000 signed_in)).
    simpl. lia.
Defined.



Lemma delete_store_best_effort_witness :
  client signed_in = true
  /\ exists n w1,
      detach_and_delete_files two_files "vs_1" signed_in = (Val n, w1)
      /\ calls_of (log w1)
         = [vector_stores_files_list (Some "vs_1");
            vector_stores_files_delete "vs_1" (Some "f1"); files_delete "f1";
            vector_stores_files_delete "vs_1" (Some "f2"); files_delete "f2"]
      /\ calls_of (log (snd (delete_store two_files "vs_1" signed_in)))
         = (calls_of (log w1) ++ [vector_stores_delete "vs_1"])%list.
Proof.
  split; [reflexivity|].
  destruct (delete_store_best_effort two_files "vs_1" signed_in eq_refl)
    as (n & w1 & Hd & Hcalls & _ & Hlast & _).
  exists n, w1. split; [exact Hd|]. split; [exact Hcalls | exact Hlast].
Defined.

Lemma delete_store_clears_active_witness :
  client signed_in = true
  /\ reply two_files (vector_stores_delete "vs_1")
       (snd (detach_and_delete_files two_files "vs_1" signed_in)) = Ok tt
  /\ ACTIVE_VECTOR_STORE_ID signed_in = Some "vs_1"
  /\ ACTIVE_VECTOR_STORE_ID (snd (delete_store two_files "vs_1" signed_in)) = None.
Proof.
  do 3 (split; [reflexivity|]).
  apply (proj1 (delete_store_clears_active two_files "vs_1" signed_in tt
                  eq_refl eq_refl)).
  reflexivity.
Defined.

(** C7 as stated fails: on a service whose first two listings fail with
    the not-found message the session makes two refreshes, not one. *)
Lemma list_vector_stores_transient_counterexample :
  ~ (forall (remote : Remote) (runs fuel : nat) (i : Inputs) (w : World) (msg : string),
        quiet i -> client w = true ->
        reply remote vector_stores_list (settings_shown w) = Fail msg ->
        PyStr.contains not_found_marker msg = true ->
        fst (session remote str (S runs) fuel i w) = Val 1%nat).
Proof.
  intros H.
  assert (Hq : quiet no_inputs) by (repeat split; reflexivity).
  specialize (H Cases.still_settling 3%nat 0%nat no_inputs signed_in
                "Error code: 404 - Vector store not found" Hq eq_refl eq_refl eq_refl).
  vm_compute in H. discriminate H.
Qed.

Lemma list_vector_stores_transient_witness :
  client (settings_shown signed_in) = true
  /\ reply just_deleted vector_stores_list (settings_shown signed_in)
     = Fail "Error code: 404 - Vector store not found"
  /\ PyStr.contains not_found_marker "Error code: 404 - Vector store not found" = true
  /\ quiet no_inputs
  /\ list_vector_stores just_deleted (settings_shown signed_in)
     = (Raised (PyExc RerunException "rerun"),
        refreshing just_deleted (settings_shown signed_in))
  /\ session just_deleted str 3 0 no_inputs signed_in
     = (n <- session just_deleted str 2 0 (after_rerun no_inputs) ;; ret (S n))
         (refreshing just_deleted (settings_shown signed_in)).
Proof.
  do 3 (split; [reflexivity|]). split; [repeat split; reflexivity|].
  destruct (proj1 (list_vector_stores_transient just_deleted str
                     (settings_shown signed_in)
                     "Error code: 404 - Vector store not found"
                     eq_refl eq_refl)
                  eq_refl) as (Hl & _ & _ & Hs).
  split; [exact Hl|].
  apply (proj1 (proj2 (Hs 2%nat 0%nat no_inputs signed_in
                         ltac:(repeat split; reflexivity) eq_refl))).
Defined.

(** * Further properties *)

(** ** Frames *)

Lemma extends_refl (P : Call -> Prop) (w : World) : extends P w w.
Proof.
  repeat split; try lia. exists []. rewrite app_nil_r. split; [reflexivity | constructor].
Qed.

Lemma extends_trans (P : Call -> Prop) (w1 w2 w3 : World) :
  extends P w1 w2 -> extends P w2 w3 -> extends P w1 w3.
Proof.
  intros (Hk1 & Hm1 & Hc1 & evs1 & Hl1 & Hp1) (Hk2 & Hm2 & Hc2 & evs2 & Hl2 & Hp2).
  repeat split; try congruence; try lia.
  exists (evs1 ++ evs2)%list. split.
  - rewrite Hl2, Hl1, app_assoc. reflexivity.
  - rewrite calls_of_app. apply Forall_app. split; assumption.
Qed.

Lemma extends_weaken (P Q : Call -> Prop) (w w' : World) :
  (forall c, P c -> Q c) -> extends P w w' -> extends Q w w'.
Proof.
  intros H (Hk & Hm & Hc & evs & Hl & Hp). repeat split; auto.
  exists evs. split; [exact Hl|]. eapply Forall_impl; [|exact Hp]. exact H.
Qed.

Lemma within_weaken (P Q : Call -> Prop) {A} (m : M World A) :
  (forall c, P c -> Q c) -> within P m -> within Q m.
Proof. intros H Hm w. apply (extends_weaken P Q); auto. Qed.

Lemma within_ret (P : Call -> Prop) {A} (a : A) : within P (@ret World A a).
Proof. intros w. apply extends_refl. Qed.

Lemma within_raise (P : Call -> Prop) {A} (c : exn_class) (msg : string) :
  within P (@raise World A c msg).
Proof. intros w. apply extends_refl. Qed.

Lemma within_bind (P : Call -> Prop) {A B} (m : M World A) (k : A -> M World B) :
  within P m -> (forall a, within P (k a)) -> within P (bind m k).
Proof.
  intros Hm Hk w. specialize (Hm w). unfold bind.
  destruct (m w) as [[a|e|] w1]; simpl in *; auto.
  apply (extends_trans P w w1); [exact Hm | apply Hk].
Qed.

Lemma within_try (P : Call -> Prop) {A} (m : M World A) (h : exn -> M World A) :
  within P m -> (forall e, within P (h e)) -> within P (try_except m h).
Proof.
  intros Hm Hh w. specialize (Hm w). unfold try_except.
  destruct (m w) as [[a|e|] w1]; simpl in *; auto.
  destruct (is_Exception e); simpl; auto.
  apply (extends_trans P w w1); [exact Hm | apply Hh].
Qed.

Lemma within_for_each (P : Call -> Prop) {A} (l : list A) (body : A -> M World unit) :
  (forall x, within P (body x)) -> within P (for_each l body).
Proof.
  intros Hb. induction l as [|x l IH]; simpl.
  - apply within_ret.
  - apply within_bind; [apply Hb | intros _; exact IH].
Qed.

Lemma within_show (P : Call -> Prop) (el : Element) (text : string) :
  within P (show el text).
Proof.
  intros w. repeat split; simpl; try lia.
  exists [Shown el text]. split; [reflexivity | constructor].
Qed.

Lemma within_sleep (remote : Remote) (P : Call -> Prop) (d : Z) :
  within P (sleep remote d).
Proof.
  intros w. unfold sleep. destruct (Z.ltb_spec d 0); simpl.
  - apply extends_refl.
  - repeat split; simpl.
    + pose proof (N2Z.is_nonneg (overrun remote (clock w) d)). lia.
    + exists [Slept d]. split; [reflexivity | constructor].
Qed.

Lemma within_get_active (P : Call -> Prop) : within P get_active_vector_store_id.
Proof. intros w. apply extends_refl. Qed.

Lemma within_set_active (P : Call -> Prop) (a : option string) : within P (set_active a).
Proof.
  intros w. repeat split; simpl; try lia.
  exists []. rewrite app_nil_r. split; [reflexivity | constructor].
Qed.

Lemma within_request (remote : Remote) (P : Call -> Prop) (c : Call) :
  P c -> within P (request remote c).
Proof.
  intros Hc w. unfold request. destruct (client w); [|apply extends_refl].
  assert (H : extends P w (called remote c w)).
  { repeat split; simpl.
    - pose proof (N2Z.is_nonneg (latency remote (clock w) (calls_of (log w)) c)). lia.
    - exists [Called c]. split; [reflexivity|]. simpl. constructor; [exact Hc | constructor]. }
  destruct (reply remote c w); exact H.
Qed.

Lemma keeps_active_ret {A} (a : A) : keeps_active (@ret World A a).
Proof. intros w. reflexivity. Qed.

Lemma keeps_active_raise {A} (c : exn_class) (msg : string) :
  keeps_active (@raise World A c msg).
Proof. intros w. reflexivity. Qed.

Lemma keeps_active_bind {A B} (m : M World A) (k : A -> M World B) :
  keeps_active m -> (forall a, keeps_active (k a)) -> keeps_active (bind m k).
Proof.
  intros Hm Hk w. specialize (Hm w). unfold bind.
  destruct (m w) as [[a|e|] w1]; simpl in *; auto.
  rewrite (Hk a w1). exact Hm.
Qed.

Lemma keeps_active_try {A} (m : M World A) (h : exn -> M World A) :
  keeps_active m -> (forall e, keeps_active (h e)) -> keeps_active (try_except m h).
Proof.
  intros Hm Hh w. specialize (Hm w). unfold try_except.
  destruct (m w) as [[a|e|] w1]; simpl in *; auto.
  destruct (is_Exception e); simpl; auto.
  rewrite (Hh e w1). exact Hm.
Qed.

Lemma keeps_active_for_each {A} (l : list A) (body : A -> M World unit) :
  (forall x, keeps_active (body x)) -> keeps_active (for_each l body).
Proof.
  intros Hb. induction l as [|x l IH]; simpl.
  - apply keeps_active_ret.
  - apply keeps_active_bind; [apply Hb | intros _; exact IH].
Qed.

Lemma keeps_active_show (el : Element) (text : string) : keeps_active (show el text).
Proof. intros w. reflexivity. Qed.

Lemma keeps_active_sleep (remote : Remote) (d : Z) : keeps_active (sleep remote d).
Proof. intros w. unfold sleep. destruct (d <? 0); reflexivity. Qed.

Lemma keeps_active_get : keeps_active get_active_vector_store_id.
Proof. intros w. reflexivity. Qed.

Lemma within_widget (P : Call -> Prop) (key : string) : within P (widget key).
Proof.
  intros w. unfold widget. destruct (existsb _ _); simpl; [apply extends_refl|].
  repeat split; simpl; try lia.
  exists []. rewrite app_nil_r. split; [reflexivity | constructor].
Qed.

Lemma within_new_run (P : Call -> Prop) : within P new_run.
Proof.
  intros w. repeat split; simpl; try lia.
  exists []. rewrite app_nil_r. split; [reflexivity | constructor].
Qed.

Lemma keeps_active_widget (key : string) : keeps_active (widget key).
Proof. intros w. unfold widget. destruct (existsb _ _); reflexivity. Qed.

Lemma keeps_active_new_run : keeps_active new_run.
Proof. intros w. reflexivity. Qed.

Lemma keeps_active_request (remote : Remote) (c : Call) :
  keeps_active (request remote c).
Proof.
  intros w. unfold request. destruct (client w); [|reflexivity].
  destruct (reply remote c w); reflexivity.
Qed.

(** Builds a frame proof along the structure of a computation. *)
Ltac frame :=
  unfold st_rerun;
  repeat first
    [ apply within_ret | apply within_raise | apply within_show | apply within_sleep
    | apply within_get_active | apply within_set_active
    | apply keeps_active_ret | apply keeps_active_raise | apply keeps_active_show
    | apply keeps_active_sleep | apply keeps_active_get | apply keeps_active_request
    | apply within_widget | apply within_new_run
    | apply keeps_active_widget | apply keeps_active_new_run
    | apply within_bind; [|intros ?] | apply within_try; [|intros ?]
    | apply keeps_active_bind; [|intros ?] | apply keeps_active_try; [|intros ?]
    | apply within_for_each; intros ? | apply keeps_active_for_each; intros ?
    | apply within_request; simpl; auto ].

(** ** More on the indexing poll *)

Section PollResults.

Variable remote : Remote.

Lemma scan_values (file_id : string) (data : list FileRef) (s : string) :
  scan file_id data = Some s -> s = "completed" \/ s = "failed" \/ s = "error".
Proof.
  induction data as [|f data IH]; cbn [scan]; [discriminate|].
  destruct (default "" (ref_id f) =? file_id)%string; [|exact IH]. cbv zeta.
  destruct (is_in (default "" (ref_status f)) ["completed"; "finished"]).
  - intros [= <-]. auto.
  - destruct (is_in (default "" (ref_status f)) ["failed"; "error"]) eqn:E; [|exact IH].
    intros [= <-]. unfold is_in in E. simpl in E. rewrite orb_false_r in E.
    apply orb_true_iff in E. destruct E as [E|E]; apply String.eqb_eq in E; auto.
Qed.

(** A turn that returns read its result from the listing it requested. *)
Lemma attempt_some (file_id : string) (poll_interval : Z) (w w1 : World) (s : string) :
  attempt remote file_id poll_interval w = (Val (Some s), w1) ->
  exists data,
    client w = true /\ reply remote (poll_call w) w = Ok data
    /\ scan file_id data = Some s /\ w1 = called remote (poll_call w) w.
Proof.
  unfold attempt, try_except, bind, get_active_vector_store_id, request.
  fold (poll_call w).
  destruct (client w); [|unfold sleep, ret; destruct (poll_interval <? 0); discriminate].
  destruct (reply remote (poll_call w) w) as [data|msg] eqn:Hr.
  - destruct (scan file_id data) as [s'|] eqn:Hs.
    + unfold ret. intros [= <- <-]. exists data. auto.
    + unfold sleep, ret. destruct (poll_interval <? 0); simpl;
        try destruct (poll_interval <? 0); discriminate.
  - simpl. unfold sleep, ret. destruct (poll_interval <? 0); discriminate.
Qed.

Lemma within_attempt (file_id : string) (poll_interval : Z) :
  within poll_request (attempt remote file_id poll_interval).
Proof.
  unfold attempt. frame. destruct (scan file_id a0); frame.
Qed.

Lemma keeps_active_attempt (file_id : string) (poll_interval : Z) :
  keeps_active (attempt remote file_id poll_interval).
Proof.
  unfold attempt. frame. destruct (scan file_id a0); frame.
Qed.

Lemma within_wait_loop (fuel : nat) (file_id : string) (start timeout_sec poll_interval : Z) :
  within poll_request (wait_loop remote fuel file_id start timeout_sec poll_interval).
Proof.
  induction fuel as [|fuel IH]; intros w; cbn [wait_loop];
    destruct (clock w - start <? 1000 * timeout_sec); try apply extends_refl.
  revert w. apply within_bind; [apply within_attempt|].
  intros [status|]; [apply within_ret | exact IH].
Qed.

Lemma keeps_active_wait_loop (fuel : nat) (file_id : string)
    (start timeout_sec poll_interval : Z) :
  keeps_active (wait_loop remote fuel file_id start timeout_sec poll_interval).
Proof.
  induction fuel as [|fuel IH]; intros w; cbn [wait_loop];
    destruct (clock w - start <? 1000 * timeout_sec); try reflexivity.
  revert w. apply keeps_active_bind; [apply keeps_active_attempt|].
  intros [status|]; [apply keeps_active_ret | exact IH].
Qed.

(** Where a result of the loop comes from. *)
Lemma wait_loop_result (file_id : string) (start timeout_sec poll_interval : Z) :
  forall (fuel : nat) (w w' : World) (s : string),
    wait_loop remote fuel file_id start timeout_sec poll_interval w = (Val s, w') ->
    (s = "timeout" /\ 1000 * timeout_sec <= clock w' - start)
    \/ ((s = "completed" \/ s = "failed" \/ s = "error")
        /\ exists w0 data,
            clock w0 - start < 1000 * timeout_sec
            /\ reply remote (poll_call w0) w0 = Ok data
            /\ scan file_id data = Some s
            /\ w' = called remote (poll_call w0) w0).
Proof.
  induction fuel as [|fuel IH]; intros w w' s; cbn [wait_loop];
    destruct (Z.ltb_spec (clock w - start) (1000 * timeout_sec)) as [Hb|Hb];
    try discriminate; try (intros [= <- <-]; left; split; [reflexivity | lia]).
  unfold bind.
  destruct (attempt remote file_id poll_interval w) as [[[status|]|e|] w1] eqn:Ha;
    try discriminate.
  - unfold ret. intros [= <- <-].
    destruct (attempt_some _ _ _ _ _ Ha) as (data & _ & Hr & Hs & ->).
    right. split; [exact (scan_values _ _ _ Hs)|]. exists w, data. auto.
  - apply IH.
Qed.

(** X1.  The poll returns nothing but [completed], [failed], [error] or
    [timeout]; a result other than [timeout] was read off a listing that
    was requested within the budget. *)
Theorem wait_until_file_indexed_results (fuel : nat) (file_id : string)
    (timeout_sec poll_interval : Z) (w w' : World) (s : string) :
  wait_until_file_indexed remote fuel file_id timeout_sec poll_interval w = (Val s, w') ->
  (s = "completed" \/ s = "failed" \/ s = "error" \/ s = "timeout")
  /\ (s <> "timeout" ->
      exists w0 data,
        clock w0 - clock w < 1000 * timeout_sec
        /\ reply remote (poll_call w0) w0 = Ok data
        /\ scan file_id data = Some s
        /\ w' = called remote (poll_call w0) w0).
Proof.
  unfold wait_until_file_indexed. intros H.
  destruct (wait_loop_result _ _ _ _ _ _ _ _ H) as [[-> _]|[Hs Hfrom]].
  - split; [auto | congruence].
  - split; [tauto | intros _; exact Hfrom].
Qed.

(** X2.  [timeout] is reported only once the whole budget has elapsed, and then
    no request went out that was not a listing of files. *)
Theorem timeout_only_after_budget (fuel : nat) (file_id : string)
    (timeout_sec poll_interval : Z) (w w' : World) :
  wait_until_file_indexed remote fuel file_id timeout_sec poll_interval w
  = (Val "timeout", w') ->
  1000 * timeout_sec <= clock w' - clock w
  /\ extends poll_request w w'
  /\ ACTIVE_VECTOR_STORE_ID w' = ACTIVE_VECTOR_STORE_ID w.
Proof.
  unfold wait_until_file_indexed. intros H. split; [|split].
  - destruct (wait_loop_result _ _ _ _ _ _ _ _ H) as [[_ Hc]|[Hs _]]; [exact Hc|].
    destruct Hs as [Hs|[Hs|Hs]]; discriminate Hs.
  - pose proof (within_wait_loop fuel file_id (clock w) timeout_sec poll_interval w) as Hw.
    rewrite H in Hw. exact Hw.
  - pose proof (keeps_active_wait_loop fuel file_id (clock w) timeout_sec poll_interval w)
      as Hw.
    rewrite H in Hw. exact Hw.
Qed.

(** X4.  When the service never shows a terminal status for the file (its
    listings fail, or hold no terminal entry for it), the poll ends in
    [timeout]: failures of the listing are swallowed, not reported. *)
Theorem never_terminal_times_out (fuel : nat) (file_id : string)
    (timeout_sec poll_interval : Z) (w : World) :
  never_terminal remote file_id ->
  0 < poll_interval ->
  (max_turns timeout_sec poll_interval <= fuel)%nat ->
  fst (wait_until_file_indexed remote fuel file_id timeout_sec poll_interval w)
  = Val "timeout".
Proof.
  intros Hn Hp Hf. unfold wait_until_file_indexed.
  destruct (wait_loop_bounded remote file_id (clock w) timeout_sec poll_interval Hp
              (max_turns timeout_sec poll_interval) fuel w Hf)
    as (status & evs & w' & Hw & _).
  { pose proof (max_turns_covers timeout_sec poll_interval Hp). lia. }
  rewrite Hw. simpl.
  destruct (wait_loop_result _ _ _ _ _ _ _ _ Hw) as [[-> _]|[_ (w0 & data & _ & Hr & Hs & _)]];
    [reflexivity|].
  specialize (Hn (clock w0) (calls_of (log w0)) (ACTIVE_VECTOR_STORE_ID w0)).
  unfold reply, poll_call in Hr. rewrite Hr in Hn. congruence.
Qed.

End PollResults.

(** ** The query *)

Section Query.

Variable remote : Remote.
Variable py_str : PyVal -> string.

Lemma citations_shown (cs : list Citation) (w : World) :
  for_each cs (show_citation py_str) w
  = (Val tt,
     with_log w (log w ++ map (fun c => Shown write (citation_line py_str c)) cs)).
Proof.
  revert w. induction cs as [|c cs IH]; intros w.
  - simpl. rewrite app_nil_r. destruct w; reflexivity.
  - cbn [for_each map]. unfold bind. cbn [show_citation show].
    fold (citation_line py_str c). rewrite IH. simpl.
    rewrite <- app_assoc. reflexivity.
Qed.

(** The result panel, as one computation (lines 89-100). *)
Lemma panel_shown (st : Locals) (w : World) :
  (if PyStr.truthy (output_text st) then
     show success "Result" ;;
     show code (output_text st) ;;
     match citations st with
     | [] => ret tt
     | _ :: _ => show caption "Citations:" ;; for_each (citations st) (show_citation py_str)
     end
   else show info "No output returned.") w
  = (Val tt, with_log w (log w ++ result_panel py_str (output_text st) (citations st))).
Proof.
  destruct st as [text cs]. cbn [output_text citations].
  destruct text as [|a text]; [reflexivity|]. cbn [PyStr.truthy result_panel].
  destruct cs as [|c cs].
  - unfold bind. cbn [show ret]. simpl. rewrite <- !app_assoc. reflexivity.
  - unfold bind. cbn [show]. rewrite citations_shown. simpl.
    rewrite <- !app_assoc. reflexivity.
Qed.

Lemma panel_sends_nothing (text : string) (cs : list Citation) :
  calls_of (result_panel py_str text cs) = [].
Proof.
  destruct text; [reflexivity|]. destruct cs as [|c cs]; [reflexivity|].
  cbn [result_panel calls_of]. induction (c :: cs) as [|x l IH]; [reflexivity | exact IH].
Qed.

Lemma search_answered (user_text : string) (w : World) (response : PyVal) :
  client w = true ->
  reply remote (query_call user_text w) w = Ok response ->
  search remote py_str user_text w
  = (Val tt,
     with_log (called remote (query_call user_text w) w)
       (log (called remote (query_call user_text w) w)
        ++ result_panel py_str (output_text (extract py_str response))
             (citations (extract py_str response)))).
Proof.
  intros Hc Hr. unfold search, bind at 1, get_active_vector_store_id.
  fold (query_call user_text w).
  rewrite (bind_val _ _ _ _ _ (request_ok remote _ _ _ Hc Hr)).
  apply panel_shown.
Qed.

Lemma find_program_searches (user_text : string) (w : World) :
  PyStr.strip user_text <> "" -> client w = true ->
  truthy_opt (ACTIVE_VECTOR_STORE_ID w) = true ->
  find_program remote py_str user_text w
  = try_except (search remote py_str user_text)
               (fun e => show error ("An error occurred: " ++ exn_msg e)) w.
Proof.
  intros Hs Hc Ha. unfold find_program.
  rewrite (truthy_nonempty _ Hs), Hc, Ha. reflexivity.
Qed.

Lemma extract_to_py (output : list Completion.Item) :
  extract py_str (Completion.to_py output)
  = {| output_text := Completion.spec_text output;
       citations := Completion.spec_citations output |}.
Proof.
  unfold extract, extract_block.
  rewrite (try_val _ _ _ _ _ (traverse_well_formed output)). reflexivity.
Qed.

(** X5.  A query that passes the three checks and is answered with a well-formed
    completion sends that one request and shows the result panel: the
    "Result" caption and the text, then, if the completion cites files,
    the "Citations:" caption and one line per citation in order; when the
    completion holds no text it shows "No output returned." and none of
    its citations. *)
Theorem find_program_shows_result (user_text : string) (w : World)
    (output : list Completion.Item) :
  PyStr.strip user_text <> "" -> client w = true ->
  truthy_opt (ACTIVE_VECTOR_STORE_ID w) = true ->
  reply remote (query_call user_text w) w = Ok (Completion.to_py output) ->
  find_program remote py_str user_text w
  = (Val tt,
     with_log (called remote (query_call user_text w) w)
       (log w ++ Called (query_call user_text w)
              :: result_panel py_str (Completion.spec_text output)
                   (Completion.spec_citations output)))
  /\ (Completion.spec_text output = "" ->
      result_panel py_str (Completion.spec_text output) (Completion.spec_citations output)
      = [Shown info "No output returned."]).
Proof.
  intros Hs Hc Ha Hr. split.
  - rewrite (find_program_searches _ _ Hs Hc Ha).
    rewrite (try_val _ _ _ _ _ (search_answered _ _ _ Hc Hr)).
    rewrite extract_to_py. unfold called. simpl. rewrite <- app_assoc. reflexivity.
  - intros ->. reflexivity.
Qed.

(** X6.  A query whose request fails shows the failure with the service's
    message, ends normally, and shows nothing else. *)
Theorem find_program_reports_failure (user_text : string) (w : World) (msg : string) :
  PyStr.strip user_text <> "" -> client w = true ->
  truthy_opt (ACTIVE_VECTOR_STORE_ID w) = true ->
  reply remote (query_call user_text w) w = Fail msg ->
  find_program remote py_str user_text w
  = (Val tt,
     with_log (called remote (query_call user_text w) w)
       (log w ++ [Called (query_call user_text w);
                  Shown error ("An error occurred: " ++ msg)])).
Proof.
  intros Hs Hc Ha Hr. rewrite (find_program_searches _ _ Hs Hc Ha).
  rewrite (try_caught _ _ _ (called remote (query_call user_text w) w)
             (PyExc APIError msg)); [| |reflexivity].
  - unfold show, called. simpl. rewrite <- app_assoc. reflexivity.
  - unfold search, bind at 1, get_active_vector_store_id.
    fold (query_call user_text w).
    apply bind_raised. apply (request_fail remote _ _ _ Hc Hr).
Qed.

(** X7.  Whatever the input, the session and the service, the query action
    ends normally, leaves the session state untouched, and sends at most
    one request: the completion request for the stripped input, with the
    session's model and active store. *)
Theorem find_program_contained (user_text : string) (w : World) :
  fst (find_program remote py_str user_text w) = Val tt
  /\ (calls_of (log (snd (find_program remote py_str user_text w))) = calls_of (log w)
      \/ calls_of (log (snd (find_program remote py_str user_text w)))
         = (calls_of (log w) ++ [query_call user_text w])%list)
  /\ OPENAI_API_KEY (snd (find_program remote py_str user_text w)) = OPENAI_API_KEY w
  /\ OPENAI_MODEL (snd (find_program remote py_str user_text w)) = OPENAI_MODEL w
  /\ ACTIVE_VECTOR_STORE_ID (snd (find_program remote py_str user_text w))
     = ACTIVE_VECTOR_STORE_ID w.
Proof.
  unfold find_program.
  destruct (PyStr.truthy (PyStr.strip user_text)) eqn:Hs; cbn [negb];
    [|simpl; rewrite calls_of_shown; auto 6].
  destruct (client w) eqn:Hc; cbn [negb]; [|simpl; rewrite calls_of_shown; auto 6].
  destruct (truthy_opt (ACTIVE_VECTOR_STORE_ID w)) eqn:Ha; cbn [negb];
    [|simpl; rewrite calls_of_shown; auto 6].
  destruct (reply remote (query_call user_text w) w) as [response|msg] eqn:Hr.
  - rewrite (try_val _ _ _ _ _ (search_answered _ _ _ Hc Hr)). simpl.
    rewrite !calls_of_app. simpl.
    rewrite panel_sends_nothing, app_nil_r. auto 6.
  - rewrite (try_caught _ _ _ (called remote (query_call user_text w) w)
               (PyExc APIError msg)); [| |reflexivity].
    + simpl. rewrite !calls_of_app. simpl. rewrite app_nil_r. auto 6.
    + unfold search, bind at 1, get_active_vector_store_id.
      fold (query_call user_text w).
      apply bind_raised. apply (request_fail remote _ _ _ Hc Hr).
Qed.

End Query.

(** ** What the actions may send and change *)

Lemma offline_ret {A} (a : A) : offline (@ret World A a).
Proof. intros w Hc. auto. Qed.

Lemma offline_raise {A} (c : exn_class) (msg : string) : offline (@raise World A c msg).
Proof. intros w Hc. auto. Qed.

Lemma offline_bind {A B} (m : M World A) (k : A -> M World B) :
  offline m -> (forall a, offline (k a)) -> offline (bind m k).
Proof.
  intros Hm Hk w Hc. destruct (Hm w Hc) as [Hc1 Hl1]. unfold bind.
  destruct (m w) as [[a|e|] w1]; simpl in *; auto.
  destruct (Hk a w1 Hc1) as [Hc2 Hl2]. split; congruence.
Qed.

Lemma offline_try {A} (m : M World A) (h : exn -> M World A) :
  offline m -> (forall e, offline (h e)) -> offline (try_except m h).
Proof.
  intros Hm Hh w Hc. destruct (Hm w Hc) as [Hc1 Hl1]. unfold try_except.
  destruct (m w) as [[a|e|] w1]; simpl in *; auto.
  destruct (is_Exception e); simpl; auto.
  destruct (Hh e w1 Hc1) as [Hc2 Hl2]. split; congruence.
Qed.

Lemma offline_for_each {A} (l : list A) (body : A -> M World unit) :
  (forall x, offline (body x)) -> offline (for_each l body).
Proof.
  intros Hb. induction l as [|x l IH]; simpl.
  - apply offline_ret.
  - apply offline_bind; [apply Hb | intros _; exact IH].
Qed.

Lemma offline_show (el : Element) (text : string) : offline (show el text).
Proof. intros w Hc. split; [exact Hc | simpl; apply calls_of_shown]. Qed.

Lemma offline_sleep (remote : Remote) (d : Z) : offline (sleep remote d).
Proof.
  intros w Hc. unfold sleep. destruct (d <? 0); simpl; [auto|].
  split; [exact Hc | log_simpl; reflexivity].
Qed.

Lemma offline_get : offline get_active_vector_store_id.
Proof. intros w Hc. auto. Qed.

Lemma offline_set_active (a : option string) : offline (set_active a).
Proof. intros w Hc. auto. Qed.

Lemma offline_widget (key : string) : offline (widget key).
Proof. intros w Hc. unfold widget. destruct (existsb _ _); auto. Qed.

Lemma offline_new_run : offline new_run.
Proof. intros w Hc. auto. Qed.

Lemma offline_request (remote : Remote) (c : Call) : offline (request remote c).
Proof. intros w Hc. unfold request. rewrite Hc. auto. Qed.

(** Builds an [offline] proof along the structure of a computation. *)
Ltac off :=
  unfold st_rerun;
  repeat first
    [ apply offline_ret | apply offline_raise | apply offline_show | apply offline_sleep
    | apply offline_get | apply offline_set_active | apply offline_request
    | apply offline_widget | apply offline_new_run
    | match goal with
      | |- context [request ?r ?c] => exact (offline_request r c)
      end
    | apply offline_bind; [|intros ?] | apply offline_try; [|intros ?] ].

Section Contained.

Variable remote : Remote.
Variable py_str : PyVal -> string.

(** *** Without a client *)

Lemma offline_search (user_text : string) : offline (search remote py_str user_text).
Proof.
  intros w. unfold search. generalize (MODEL_NAME w) as model. intros model.
  revert w. off.
  destruct (PyStr.truthy _); off. destruct (citations _); off.
  apply offline_for_each. intros cit. unfold show_citation. off.
Qed.

Lemma offline_find_program (user_text : string) :
  offline (find_program remote py_str user_text).
Proof.
  intros w. unfold find_program.
  destruct (negb _); [apply offline_show|].
  destruct (negb _); [apply offline_show|].
  destruct (negb _); [apply offline_show|].
  revert w. off. apply offline_search.
Qed.

Lemma offline_settings_status : offline settings_status.
Proof. intros w. unfold settings_status. destruct (PyStr.truthy _); apply offline_show. Qed.

Lemma offline_create (name : string) : offline (create_vector_store remote name).
Proof.
  unfold create_vector_store. apply offline_try; [|intros e; off].
  intros w. destruct (negb _); [apply offline_show|]. revert w. off.
Qed.

Lemma offline_list : offline (list_vector_stores remote).
Proof.
  unfold list_vector_stores. apply offline_try.
  - intros w. destruct (_ || _); revert w; off.
  - intros e. off. destruct (PyStr.contains _ _); off.
Qed.

Lemma offline_delete_refs (vs : string) (refs : list FileRef) :
  forall n, offline (delete_refs remote vs refs n).
Proof.
  induction refs as [|ref refs IH]; intros n; cbn [delete_refs]; [off|].
  destruct (or_opt _ _) as [fid|]; [destruct (PyStr.truthy fid)|]; try apply IH.
  off. apply IH.
Qed.

Lemma offline_delete_store (vs : string) : offline (delete_store remote vs).
Proof.
  unfold delete_store. apply offline_try; [|intros e; off].
  intros w. destruct (negb _); [apply offline_show|]. revert w.
  unfold detach_and_delete_files, enumerate_files, delete_collection. off.
  - apply offline_delete_refs.
  - destruct (option_eq_str _ _); off.
Qed.

Lemma offline_file_row (vs : string) (clicked : option string -> bool) (ref : FileRef) :
  offline (file_row remote vs clicked ref).
Proof.
  unfold file_row. off.
  - destruct (truthy_opt _); off.
  - destruct (clicked _); off.
Qed.

Lemma offline_show_files (vs : string) (clicked : option string -> bool) :
  offline (show_files remote vs clicked).
Proof.
  unfold show_files. apply offline_try.
  - intros w. destruct (negb _); [apply offline_show|]. revert w. off.
    destruct a; [off|]. apply offline_for_each. intros ref. apply offline_file_row.
  - intros e. destruct (PyStr.contains _ _); off.
Qed.

Lemma offline_attempt (file_id : string) (poll_interval : Z) :
  offline (attempt remote file_id poll_interval).
Proof. unfold attempt. off. destruct (scan _ _); off. Qed.

Lemma offline_wait_loop (fuel : nat) (file_id : string)
    (start timeout_sec poll_interval : Z) :
  offline (wait_loop remote fuel file_id start timeout_sec poll_interval).
Proof.
  induction fuel as [|fuel IH]; intros w; cbn [wait_loop];
    destruct (clock w - start <? 1000 * timeout_sec); try (intros Hc; auto; fail).
  revert w. apply offline_bind; [apply offline_attempt|].
  intros [status|]; [apply offline_ret | exact IH].
Qed.

Lemma offline_upload_files (fuel : nat) (files : list UploadedFile) :
  forall results, offline (upload_files remote fuel files results).
Proof.
  induction files as [|uf files IH]; intros results; cbn [upload_files]; [off|].
  off; [|apply IH].
  intros w. unfold wait_until_file_indexed. apply offline_wait_loop.
Qed.

Lemma offline_upload (fuel : nat) (files : list UploadedFile) :
  offline (upload remote fuel files).
Proof.
  intros w. unfold upload. destruct files as [|uf files]; [apply offline_show|].
  destruct (negb _); [apply offline_show|].
  destruct (negb _); [apply offline_show|].
  revert w. apply offline_bind; [apply offline_upload_files | intros results].
  apply offline_bind; [apply offline_show | intros _].
  apply offline_for_each. intros [[name fid] status]. unfold show_result. off.
Qed.

Lemma offline_store_panel (i : Inputs) (active_id : option string) (vs : VectorStore) :
  offline (store_panel remote i active_id vs).
Proof.
  unfold store_panel. off.
  - destruct (option_eq_str _ _); [off|]. off. destruct (set_active_clicked _ _); off.
  - destruct (delete_store_clicked _ _); [apply offline_delete_store | off].
  - destruct (show_files_checked _ _); [apply offline_show_files | off].
Qed.

Lemma offline_page (fuel : nat) (i : Inputs) : offline (page remote py_str fuel i).
Proof.
  unfold page.
  apply offline_bind; [apply offline_new_run | intros _].
  apply offline_bind; [apply offline_show | intros _].
  apply offline_bind;
    [destruct (find_clicked i); [apply offline_find_program | apply offline_ret]
    |intros _].
  apply offline_bind; [apply offline_show | intros _].
  apply offline_bind; [apply offline_settings_status | intros _].
  apply offline_bind; [apply offline_show | intros _].
  apply offline_bind;
    [destruct (create_clicked i); [apply offline_create | apply offline_ret] | intros _].
  apply offline_bind;
    [destruct (refresh_clicked i); [apply offline_raise | apply offline_ret] | intros _].
  apply offline_bind; [apply offline_get | intros active_id].
  apply offline_bind; [apply offline_list | intros stores].
  apply offline_bind;
    [apply offline_for_each; intros vs; apply offline_store_panel | intros _].
  destruct (upload_clicked i); [apply offline_upload | apply offline_ret].
Qed.

(** X8.  Without an API key nothing on the page reaches the service: whatever
    the user pressed or typed, a run of the script, and the reruns that
    follow it, send no request at all. *)
Theorem no_key_no_traffic (runs fuel : nat) (i : Inputs) (w : World) :
  OPENAI_API_KEY w = "" ->
  calls_of (log (snd (page remote py_str fuel i w))) = calls_of (log w)
  /\ calls_of (log (snd (session remote py_str runs fuel i w))) = calls_of (log w).
Proof.
  intros Hk. pose proof (no_key_no_client w Hk) as Hc. split.
  - apply (offline_page fuel i w Hc).
  - clear Hk. revert i w Hc. induction runs as [|runs IH]; intros i w Hc;
      cbn [session]; destruct (offline_page fuel i w Hc) as [Hc1 Hl1];
      destruct (page remote py_str fuel i w) as [[[]|e|] w1]; simpl in *; auto;
      destruct (exn_cls e); simpl; auto.
    unfold bind. specialize (IH (after_rerun i) w1 Hc1).
    destruct (session remote py_str runs fuel (after_rerun i) w1) as [[n|e'|] w2];
      simpl in *; congruence.
Qed.

(** *** Requests and session state *)

(** Closes a frame goal about one request. *)
Ltac req :=
  match goal with
  | |- within ?P (request ?r ?c) =>
      apply (within_request r P c); first [exact I | reflexivity]
  | |- keeps_active (request ?r ?c) => exact (keeps_active_request r c)
  end.

Lemma frame_wait_until (fuel : nat) (file_id : string) (timeout_sec poll_interval : Z) :
  within upload_request
    (wait_until_file_indexed remote fuel file_id timeout_sec poll_interval)
  /\ keeps_active
       (wait_until_file_indexed remote fuel file_id timeout_sec poll_interval).
Proof.
  split; intros w; unfold wait_until_file_indexed.
  - apply (extends_weaken poll_request); [intros [] H; simpl in *; auto|].
    apply within_wait_loop.
  - apply keeps_active_wait_loop.
Qed.

Lemma frame_upload_files (fuel : nat) (files : list UploadedFile) :
  forall results,
    within upload_request (upload_files remote fuel files results)
    /\ keeps_active (upload_files remote fuel files results).
Proof.
  induction files as [|uf files IH]; intros results; cbn [upload_files].
  - split; [apply within_ret | apply keeps_active_ret].
  - split.
    + apply within_bind; [|intros r; apply IH].
      apply within_try; [|intros e; apply within_bind;
                                      [apply within_show | intros _; apply within_ret]].
      apply within_bind; [req | intros created].
      apply within_bind; [apply within_get_active | intros active].
      apply within_bind; [req | intros _].
      apply within_bind; [apply frame_wait_until | intros status; apply within_ret].
    + apply keeps_active_bind; [|intros r; apply IH].
      apply keeps_active_try;
        [|intros e; apply keeps_active_bind;
                      [apply keeps_active_show | intros _; apply keeps_active_ret]].
      apply keeps_active_bind; [req | intros created].
      apply keeps_active_bind; [apply keeps_active_get | intros active].
      apply keeps_active_bind; [req | intros _].
      apply keeps_active_bind; [apply frame_wait_until | intros status; apply keeps_active_ret].
Qed.

Lemma frame_upload (fuel : nat) (files : list UploadedFile) :
  within upload_request (upload remote fuel files)
  /\ keeps_active (upload remote fuel files).
Proof.
  split; intros w; unfold upload.
  - destruct files as [|uf files]; [apply within_show|].
    destruct (negb _); [apply within_show|].
    destruct (negb _); [apply within_show|].
    revert w. apply within_bind; [apply frame_upload_files | intros results].
    apply within_bind; [apply within_show | intros _].
    apply within_for_each. intros [[name fid] status]. apply within_show.
  - destruct files as [|uf files]; [apply keeps_active_show|].
    destruct (negb _); [apply keeps_active_show|].
    destruct (negb _); [apply keeps_active_show|].
    revert w. apply keeps_active_bind; [apply frame_upload_files | intros results].
    apply keeps_active_bind; [apply keeps_active_show | intros _].
    apply keeps_active_for_each. intros [[name fid] status]. apply keeps_active_show.
Qed.

(** X9.  An upload never deletes anything and never touches the session
    state: whatever happens, the only requests it sends are file
    creations, attachments and listings of files, and the key, the model
    and the active store are afterwards what they were.  In particular a
    file that was created but could not be attached is left behind. *)
Theorem upload_never_deletes (fuel : nat) (files : list UploadedFile) (w : World) :
  extends upload_request w (snd (upload remote fuel files w))
  /\ ACTIVE_VECTOR_STORE_ID (snd (upload remote fuel files w)) = ACTIVE_VECTOR_STORE_ID w.
Proof. split; apply frame_upload. Qed.

Lemma frame_file_row (vs : string) (clicked : option string -> bool) (ref : FileRef) :
  within (browse_request vs) (file_row remote vs clicked ref)
  /\ keeps_active (file_row remote vs clicked ref)
  /\ ((forall fid, clicked fid = false) ->
      within (read_request vs) (file_row remote vs clicked ref)).
Proof.
  unfold file_row. split; [|split].
  - apply within_bind; [|intros filename].
    + destruct (truthy_opt _); [|apply within_ret].
      apply within_try; [|intros e; apply within_ret].
      apply within_bind; [req | intros fobj].
      apply within_ret.
    + apply within_bind; [apply within_show | intros _].
      apply within_bind; [apply within_widget | intros _].
      destruct (clicked _); [|apply within_ret].
      apply within_try; [|intros e; apply within_show].
      apply within_bind;
        [req | intros _].
      apply within_bind; [apply within_show | intros _; apply within_raise].
  - apply keeps_active_bind; [|intros filename].
    + destruct (truthy_opt _); [|apply keeps_active_ret].
      apply keeps_active_try; [|intros e; apply keeps_active_ret].
      apply keeps_active_bind; [req | intros fobj].
      apply keeps_active_ret.
    + apply keeps_active_bind; [apply keeps_active_show | intros _].
      apply keeps_active_bind; [apply keeps_active_widget | intros _].
      destruct (clicked _); [|apply keeps_active_ret].
      apply keeps_active_try; [|intros e; apply keeps_active_show].
      apply keeps_active_bind; [req | intros _].
      apply keeps_active_bind;
        [apply keeps_active_show | intros _; apply keeps_active_raise].
  - intros Hno. apply within_bind; [|intros filename].
    + destruct (truthy_opt _); [|apply within_ret].
      apply within_try; [|intros e; apply within_ret].
      apply within_bind; [req | intros fobj].
      apply within_ret.
    + apply within_bind; [apply within_show | intros _].
      apply within_bind; [apply within_widget | intros _].
      rewrite Hno. apply within_ret.
Qed.

Lemma frame_show_files (vs : string) (clicked : option string -> bool) :
  within (browse_request vs) (show_files remote vs clicked)
  /\ keeps_active (show_files remote vs clicked)
  /\ ((forall fid, clicked fid = false) ->
      within (read_request vs) (show_files remote vs clicked)).
Proof.
  unfold show_files. split; [|split].
  - apply within_try.
    + intros w. destruct (negb _); [apply within_show|]. revert w.
      apply within_bind;
        [req | intros refs].
      destruct refs; [apply within_show|].
      apply within_for_each. intros ref. apply frame_file_row.
    + intros e. destruct (PyStr.contains _ _); [|apply within_show].
      apply within_bind; [apply within_show | intros _; apply within_raise].
  - apply keeps_active_try.
    + intros w. destruct (negb _); [apply keeps_active_show|]. revert w.
      apply keeps_active_bind; [req | intros refs].
      destruct refs; [apply keeps_active_show|].
      apply keeps_active_for_each. intros ref. apply frame_file_row.
    + intros e. destruct (PyStr.contains _ _); [|apply keeps_active_show].
      apply keeps_active_bind;
        [apply keeps_active_show | intros _; apply keeps_active_raise].
  - intros Hno. apply within_try.
    + intros w. destruct (negb _); [apply within_show|]. revert w.
      apply within_bind;
        [req | intros refs].
      destruct refs; [apply within_show|].
      apply within_for_each. intros ref. apply frame_file_row. exact Hno.
    + intros e. destruct (PyStr.contains _ _); [|apply within_show].
      apply within_bind; [apply within_show | intros _; apply within_raise].
Qed.

(** X10.  Showing the files of a store only reads: it lists that store's files
    and looks files up.  A row's "Delete" adds nothing but a detachment
    from that store: no file object and no store is ever deleted here, and
    the session state stays as it was. *)
Theorem show_files_only_browses (vs : string) (clicked : option string -> bool)
    (w : World) :
  extends (browse_request vs) w (snd (show_files remote vs clicked w))
  /\ ACTIVE_VECTOR_STORE_ID (snd (show_files remote vs clicked w))
     = ACTIVE_VECTOR_STORE_ID w
  /\ ((forall fid, clicked fid = false) ->
      extends (read_request vs) w (snd (show_files remote vs clicked w))).
Proof.
  destruct (frame_show_files vs clicked) as (H1 & H2 & H3).
  split; [apply H1 | split; [apply H2 | intros Hno; apply (H3 Hno)]].
Qed.

Lemma frame_search (user_text : string) :
  within completion_request (search remote py_str user_text)
  /\ keeps_active (search remote py_str user_text).
Proof.
  split; intros w; unfold search; generalize (MODEL_NAME w) as model; intros model;
    revert w.
  - apply within_bind; [apply within_get_active | intros active].
    apply within_bind; [req | intros response].
    destruct (PyStr.truthy _); [|apply within_show].
    apply within_bind; [apply within_show | intros _].
    apply within_bind; [apply within_show | intros _].
    destruct (citations _); [apply within_ret|].
    apply within_bind; [apply within_show | intros _].
    apply within_for_each. intros cit. apply within_show.
  - apply keeps_active_bind; [apply keeps_active_get | intros active].
    apply keeps_active_bind; [req | intros response].
    destruct (PyStr.truthy _); [|apply keeps_active_show].
    apply keeps_active_bind; [apply keeps_active_show | intros _].
    apply keeps_active_bind; [apply keeps_active_show | intros _].
    destruct (citations _); [apply keeps_active_ret|].
    apply keeps_active_bind; [apply keeps_active_show | intros _].
    apply keeps_active_for_each. intros cit. apply keeps_active_show.
Qed.

Lemma frame_find_program (user_text : string) :
  within completion_request (find_program remote py_str user_text)
  /\ keeps_active (find_program remote py_str user_text).
Proof.
  split; intros w; unfold find_program.
  - destruct (negb _); [apply within_show|].
    destruct (negb _); [apply within_show|].
    destruct (negb _); [apply within_show|].
    revert w. apply within_try; [apply frame_search | intros e; apply within_show].
  - destruct (negb _); [apply keeps_active_show|].
    destruct (negb _); [apply keeps_active_show|].
    destruct (negb _); [apply keeps_active_show|].
    revert w. apply keeps_active_try; [apply frame_search | intros e; apply keeps_active_show].
Qed.

Lemma frame_settings_status :
  within any_request settings_status /\ keeps_active settings_status.
Proof.
  split; intros w; unfold settings_status; destruct (PyStr.truthy _);
    first [apply within_show | apply keeps_active_show].
Qed.

Lemma within_create (name : string) :
  within any_request (create_vector_store remote name).
Proof.
  unfold create_vector_store. apply within_try; [|intros e; apply within_show].
  intros w. destruct (negb _); [apply within_show|]. revert w.
  apply within_bind; [req | intros created].
  apply within_bind; [apply within_set_active | intros _; apply within_show].
Qed.

Lemma frame_list :
  within any_request (list_vector_stores remote)
  /\ keeps_active (list_vector_stores remote).
Proof.
  unfold list_vector_stores. split.
  - apply within_try.
    + intros w. destruct (_ || _); revert w;
        [|exact (within_request remote any_request vector_stores_list I)].
      apply within_bind; [apply within_show | intros _; apply within_ret].
    + intros e. apply within_bind; [|intros _; apply within_ret].
      destruct (PyStr.contains _ _); [|apply within_show].
      apply within_bind; [apply within_show | intros _; apply within_raise].
  - apply keeps_active_try.
    + intros w. destruct (_ || _); revert w;
        [|exact (keeps_active_request remote vector_stores_list)].
      apply keeps_active_bind; [apply keeps_active_show | intros _; apply keeps_active_ret].
    + intros e. apply keeps_active_bind; [|intros _; apply keeps_active_ret].
      destruct (PyStr.contains _ _); [|apply keeps_active_show].
      apply keeps_active_bind;
        [apply keeps_active_show | intros _; apply keeps_active_raise].
Qed.

Lemma within_delete_refs (vs : string) (refs : list FileRef) :
  forall n, within any_request (delete_refs remote vs refs n).
Proof.
  induction refs as [|ref refs IH]; intros n; cbn [delete_refs]; [apply within_ret|].
  destruct (or_opt _ _) as [fid|]; [destruct (PyStr.truthy fid)|]; try apply IH.
  apply within_bind; [apply within_try; [req | intros e; apply within_ret] | intros _].
  apply within_bind; [|intros k; apply IH].
  apply within_try.
  - apply within_bind; [req | intros _; apply within_ret].
  - intros e. apply within_bind; [apply within_show | intros _; apply within_ret].
Qed.

Lemma within_delete_store (vs : string) : within any_request (delete_store remote vs).
Proof.
  unfold delete_store. apply within_try; [|intros e; apply within_show].
  intros w. destruct (negb _); [apply within_show|]. revert w.
  apply within_bind; [|intros n].
  - unfold detach_and_delete_files, enumerate_files.
    apply within_bind; [|intros refs; apply within_delete_refs].
    apply within_try; [req | intros e; apply within_ret].
  - unfold delete_collection.
    apply within_bind; [req | intros _].
    apply within_bind; [apply within_get_active | intros active].
    apply within_bind; [destruct (option_eq_str _ _);
                        [apply within_set_active | apply within_ret] | intros _].
    apply within_bind; [apply within_show | intros _; apply within_raise].
Qed.

Lemma any_request_top (P : Call -> Prop) : forall c, P c -> any_request c.
Proof. intros c _. exact I. Qed.

Lemma within_store_panel (i : Inputs) (active_id : option string) (vs : VectorStore) :
  within any_request (store_panel remote i active_id vs).
Proof.
  unfold store_panel.
  apply within_bind; [|intros _].
  - destruct (option_eq_str _ _); [apply within_show|].
    apply within_bind; [apply within_widget | intros _].
    destruct (set_active_clicked _ _); [|apply within_ret].
    apply within_bind; [apply within_set_active | intros _; apply within_show].
  - apply within_bind; [apply within_widget | intros _].
    apply within_bind; [|intros _].
    + destruct (delete_store_clicked _ _); [apply within_delete_store | apply within_ret].
    + apply within_bind; [apply within_widget | intros _].
      destruct (show_files_checked _ _); [|apply within_ret].
      apply (within_weaken (browse_request (default "" (vs_id vs))));
        [apply any_request_top | apply frame_show_files].
Qed.

Lemma keeps_active_store_panel (i : Inputs) (active_id : option string)
    (vs : VectorStore) :
  leaves_active i -> keeps_active (store_panel remote i active_id vs).
Proof.
  intros (_ & Hset & Hdel). unfold store_panel. rewrite Hset, Hdel.
  apply keeps_active_bind; [|intros _].
  - destruct (option_eq_str _ _); [apply keeps_active_show|].
    apply keeps_active_bind; [apply keeps_active_widget | intros _; apply keeps_active_ret].
  - apply keeps_active_bind; [apply keeps_active_widget | intros _].
    apply keeps_active_bind; [apply keeps_active_ret | intros _].
    apply keeps_active_bind; [apply keeps_active_widget | intros _].
    destruct (show_files_checked _ _); [apply frame_show_files | apply keeps_active_ret].
Qed.

(** X11.  No run of the script changes the API key or the model, turns the
    clock back or removes anything from what was shown and sent; and a
    run in which none of "Create New Vector Store", "Set Active" and
    "Delete Store" was pressed leaves the active store as it was: a query,
    a refresh, showing files and uploading never change it. *)
Theorem page_keeps_settings (fuel : nat) (i : Inputs) (w : World) :
  extends any_request w (snd (page remote py_str fuel i w))
  /\ (leaves_active i ->
      ACTIVE_VECTOR_STORE_ID (snd (page remote py_str fuel i w))
      = ACTIVE_VECTOR_STORE_ID w).
Proof.
  split.
  - revert w. unfold page.
    apply within_bind; [apply within_new_run | intros _].
    apply within_bind; [apply within_show | intros _].
    apply within_bind;
      [destruct (find_clicked i); [|apply within_ret];
       apply (within_weaken completion_request);
         [apply any_request_top | apply frame_find_program]
      |intros _].
    apply within_bind; [apply within_show | intros _].
    apply within_bind; [apply frame_settings_status | intros _].
    apply within_bind; [apply within_show | intros _].
    apply within_bind;
      [destruct (create_clicked i); [apply within_create | apply within_ret] | intros _].
    apply within_bind;
      [destruct (refresh_clicked i); [apply within_raise | apply within_ret] | intros _].
    apply within_bind; [apply within_get_active | intros active_id].
    apply within_bind; [apply frame_list | intros stores].
    apply within_bind;
      [apply within_for_each; intros vs; apply within_store_panel | intros _].
    destruct (upload_clicked i); [|apply within_ret].
    apply (within_weaken upload_request); [apply any_request_top | apply frame_upload].
  - intros Hl. revert w. unfold page. destruct Hl as (Hcr & Hset & Hdel). rewrite Hcr.
    apply keeps_active_bind; [apply keeps_active_new_run | intros _].
    apply keeps_active_bind; [apply keeps_active_show | intros _].
    apply keeps_active_bind;
      [destruct (find_clicked i); [apply frame_find_program | apply keeps_active_ret]
      |intros _].
    apply keeps_active_bind; [apply keeps_active_show | intros _].
    apply keeps_active_bind; [apply frame_settings_status | intros _].
    apply keeps_active_bind; [apply keeps_active_show | intros _].
    apply keeps_active_bind; [apply keeps_active_ret | intros _].
    apply keeps_active_bind;
      [destruct (refresh_clicked i); [apply keeps_active_raise | apply keeps_active_ret]
      |intros _].
    apply keeps_active_bind; [apply keeps_active_get | intros active_id].
    apply keeps_active_bind; [apply frame_list | intros stores].
    apply keeps_active_bind;
      [apply keeps_active_for_each; intros vs; apply keeps_active_store_panel;
       repeat split; auto
      |intros _].
    destruct (upload_clicked i); [apply frame_upload | apply keeps_active_ret].
Qed.

End Contained.

(** ** Creating and deleting stores *)

Section Stores.

Variable remote : Remote.

(** X12.  Creating a store sends one request.  When it succeeds the new store
    becomes the active one and its id is shown; when it fails the active
    store stays what it was and the failure is shown with the service's
    message.  Either way the action ends normally. *)
Theorem create_vector_store_outcome (name : string) (w : World) :
  client w = true ->
  (forall created, reply remote (vector_stores_create name) w = Ok created ->
     fst (create_vector_store remote name w) = Val tt
     /\ ACTIVE_VECTOR_STORE_ID (snd (create_vector_store remote name w))
        = Some (id created)
     /\ log (snd (create_vector_store remote name w))
        = (log w ++ [Called (vector_stores_create name);
                     Shown success (creation_message (id created))])%list)
  /\ (forall msg, reply remote (vector_stores_create name) w = Fail msg ->
        fst (create_vector_store remote name w) = Val tt
        /\ ACTIVE_VECTOR_STORE_ID (snd (create_vector_store remote name w))
           = ACTIVE_VECTOR_STORE_ID w
        /\ log (snd (create_vector_store remote name w))
           = (log w ++ [Called (vector_stores_create name);
                        Shown error (creation_failure msg)])%list).
Proof.
  intros Hc. pose proof (client_key w Hc) as Hk. split.
  - intros created Hr. unfold create_vector_store, try_except. rewrite Hk. cbn [negb].
    rewrite (bind_val _ _ _ _ _ (request_ok remote _ _ _ Hc Hr)).
    unfold bind, set_active, show, creation_message. simpl.
    rewrite <- app_assoc. auto.
  - intros msg Hr. unfold create_vector_store, try_except. rewrite Hk. cbn [negb].
    rewrite (bind_raised _ _ _ _ _ (request_fail remote _ _ _ Hc Hr)).
    unfold show, creation_failure. simpl. rewrite <- app_assoc. auto.
Qed.

Lemma warnings_of_app (l1 l2 : list Event) :
  warnings_of (l1 ++ l2) = (warnings_of l1 ++ warnings_of l2)%list.
Proof.
  induction l1 as [|e l1 IH]; [reflexivity|].
  destruct e as [c|d|[] text]; simpl; rewrite IH; reflexivity.
Qed.

Lemma delete_file_tallied (fid : string) (n : nat) (w : World) :
  client w = true ->
  exists n' w',
    try_except
      (request remote (files_delete fid) ;; ret (S n))
      (fun e => show warning ("Failed to delete file " ++ fid ++ ": " ++ exn_msg e) ;;
                ret n) w
    = (Val n', w')
    /\ client w' = true
    /\ (n' + length (warnings_of (log w')) = S n + length (warnings_of (log w)))%nat
    /\ (n <= n')%nat.
Proof.
  intros Hc. unfold try_except, bind.
  destruct (request_cases remote (files_delete fid) w Hc) as [(a & _ & ->)|(msg & _ & ->)].
  - exists (S n), (called remote (files_delete fid) w). simpl.
    rewrite warnings_of_app. simpl. rewrite app_nil_r. auto.
  - simpl. eexists n, _. split; [reflexivity|]. simpl.
    rewrite !warnings_of_app. simpl. rewrite app_nil_r, length_app. simpl.
    repeat split; auto; lia.
Qed.

(** The counter of the delete loop counts the file deletions that
    succeeded; every other one left a warning. *)
Lemma delete_refs_counted (vs : string) (refs : list FileRef) :
  forall (n : nat) (w : World),
    client w = true ->
    exists n' w',
      delete_refs remote vs refs n w = (Val n', w')
      /\ (n' + length (warnings_of (log w'))
          = n + length (warnings_of (log w)) + length (attached_ids refs))%nat
      /\ (n <= n')%nat.
Proof.
  induction refs as [|ref refs IH]; intros n w Hc.
  - exists n, w. simpl. repeat split; lia.
  - cbn [delete_refs attached_ids]. fold (ref_fid ref).
    destruct (ref_fid ref) as [fid|] eqn:Hfid; cbn [truthy_opt default];
      [destruct (PyStr.truthy fid)|]; try (apply IH; exact Hc).
    rewrite (bind_val _ _ _ _ _ (detach_best_effort remote vs fid w Hc)).
    destruct (delete_file_tallied fid n
                (called remote (vector_stores_files_delete vs (Some fid)) w) Hc)
      as (n1 & w1 & H1 & Hc1 & Hcount1 & Hle1).
    rewrite (bind_val _ _ _ _ _ H1).
    destruct (IH n1 w1 Hc1) as (n' & w' & H' & Hcount' & Hle').
    exists n', w'. rewrite H'. repeat split; [|lia].
    rewrite Hcount'. simpl in Hcount1. rewrite warnings_of_app in Hcount1.
    simpl in Hcount1. rewrite app_nil_r in Hcount1. cbn [length]. lia.
Qed.

(** X13.  The number of files in the success message of "Delete Store" is the
    number of file deletions that succeeded: together with the warnings
    shown for the ones that failed it adds up to the files that had an id. *)
Theorem deleted_files_counted (vs : string) (w : World) :
  client w = true ->
  exists n w1,
    detach_and_delete_files remote vs w = (Val n, w1)
    /\ (n + length (warnings_of (log w1))
        = length (warnings_of (log w)) + length (attached_ids (enumerated remote vs w)))%nat
    /\ (forall u, reply remote (vector_stores_delete vs) w1 = Ok u ->
          In (Shown success (deletion_message vs n))
             (log (snd (delete_store remote vs w)))).
Proof.
  intros Hc. unfold detach_and_delete_files.
  rewrite (bind_val _ _ _ _ _ (enumerate_files_returns remote vs w Hc)).
  destruct (delete_refs_counted vs (enumerated remote vs w) 0
              (called remote (vector_stores_files_list (Some vs)) w) Hc)
    as (n & w1 & H & Hcount & _).
  exists n, w1. split; [exact H|]. split.
  - rewrite Hcount. simpl. rewrite warnings_of_app. simpl. rewrite app_nil_r. lia.
  - intros u Hr.
    assert (Hd : detach_and_delete_files remote vs w = (Val n, w1)).
    { unfold detach_and_delete_files.
      rewrite (bind_val _ _ _ _ _ (enumerate_files_returns remote vs w Hc)). exact H. }
    destruct (detach_and_delete_files_attempts remote vs w Hc)
      as (n0 & w0 & Hd0 & _ & _ & Hc1 & _).
    rewrite Hd in Hd0. injection Hd0 as <- <-.
    destruct (delete_store_outcome remote vs w w1 n Hc Hc1 Hd) as [Hok _].
    rewrite (Hok u Hr). unfold store_deleted.
    destruct (option_eq_str _ vs); simpl; apply in_or_app; right; left; reflexivity.
Qed.

(** X14.  A store deletion that fails changes nothing in the session: the active
    store stays what it was, also when it is the store that could not be
    deleted, while its files may already be gone.  The action then ends
    normally; it ends in [st.rerun()] only after a successful deletion. *)
Theorem failed_deletion_keeps_active (vs : string) (w : World) (msg : string) :
  client w = true ->
  reply remote (vector_stores_delete vs) (snd (detach_and_delete_files remote vs w))
  = Fail msg ->
  fst (delete_store remote vs w) = Val tt
  /\ ACTIVE_VECTOR_STORE_ID (snd (delete_store remote vs w)) = ACTIVE_VECTOR_STORE_ID w
  /\ calls_of (log (snd (delete_store remote vs w)))
     = (calls_of (log w)
        ++ vector_stores_files_list (Some vs)
           :: file_attempts vs (attached_ids (enumerated remote vs w))
        ++ [vector_stores_delete vs])%list.
Proof.
  intros Hc Hr.
  destruct (detach_and_delete_files_attempts remote vs w Hc)
    as (n & w1 & Hd & Hcalls & _ & Hc1 & Ha).
  rewrite Hd in Hr. simpl in Hr.
  destruct (delete_store_outcome remote vs w w1 n Hc Hc1 Hd) as [_ Hfail].
  rewrite (Hfail msg Hr). simpl. repeat split; [exact Ha|].
  rewrite calls_of_shown, calls_of_app, Hcalls. simpl.
  rewrite <- app_assoc. reflexivity.
Qed.

End Stores.

(** ** Uploading *)

Lemma creations_of_app (l1 l2 : list Call) :
  creations_of (l1 ++ l2) = (creations_of l1 ++ creations_of l2)%list.
Proof.
  induction l1 as [|c l1 IH]; [reflexivity|].
  destruct c; simpl; rewrite IH; reflexivity.
Qed.

Lemma writes_of_app (l1 l2 : list Event) :
  writes_of (l1 ++ l2) = (writes_of l1 ++ writes_of l2)%list.
Proof.
  induction l1 as [|e l1 IH]; [reflexivity|].
  destruct e as [c|d|[] text]; simpl; rewrite IH; reflexivity.
Qed.

(** The events of a poll hold no file creation, no error and no line. *)
Lemma poll_events_plain (c : Call) (d : Z) (evs : list Event) :
  poll_request c ->
  Forall (fun e => e = Called c \/ e = Slept d) evs ->
  creations_of (calls_of evs) = [] /\ errors_of evs = [] /\ writes_of evs = [].
Proof.
  intros Hc H. induction H as [|e evs [->| ->] _ IH]; simpl; auto.
  destruct c; simpl in *; try contradiction. exact IH.
Qed.

(** Normalises the tallies of a log that was extended. *)
Ltac tally :=
  simpl;
  rewrite ?calls_of_app, ?creations_of_app, ?errors_of_app, ?writes_of_app;
  simpl; rewrite ?app_nil_r, ?length_app; simpl.

Section Uploading.

Variable remote : Remote.

(** Lines 293-309 for one file, with enough fuel for the poll: the file
    creation is requested, and the file ends up either among the results
    or in an error message. *)
Lemma upload_one (fuel : nat) (uf : UploadedFile) (results : list UploadResult)
    (w : World) :
  client w = true -> (90 <= fuel)%nat ->
  exists results' w',
    try_except
      (created <- request remote (creation_of uf) ;;
       active <- get_active_vector_store_id ;;
       request remote (vector_stores_files_create active (id created)) ;;
       status <- wait_until_file_indexed remote fuel (id created)
                   upload_timeout_sec default_poll_interval ;;
       ret (results ++ [(uf_name uf, id created, status)])%list)
      (fun e => show error (upload_failure (uf_name uf) (exn_msg e)) ;; ret results) w
    = (Val results', w')
    /\ client w' = true
    /\ creations_of (calls_of (log w'))
       = (creations_of (calls_of (log w)) ++ [creation_of uf])%list
    /\ (length results' + length (errors_of (log w'))
        = S (length results + length (errors_of (log w))))%nat
    /\ writes_of (log w') = writes_of (log w).
Proof.
  intros Hc Hf.
  destruct (request_cases remote (creation_of uf) w Hc)
    as [(created & _ & Hreq)|(msg & _ & Hreq)].
  2:{ eexists results, _. split.
      - unfold try_except. rewrite (bind_raised _ _ _ _ _ Hreq). reflexivity.
      - tally. repeat split; auto; lia. }
  set (w1 := called remote (creation_of uf) w) in *.
  assert (Hc1 : client w1 = true) by exact Hc.
  set (attach := vector_stores_files_create (ACTIVE_VECTOR_STORE_ID w1) (id created)).
  destruct (request_cases remote attach w1 Hc1) as [(u & _ & Hatt)|(msg & _ & Hatt)].
  2:{ eexists results, _. split.
      - unfold try_except. rewrite (bind_val _ _ _ _ _ Hreq).
        unfold bind at 1, get_active_vector_store_id. fold attach.
        rewrite (bind_raised _ _ _ _ _ Hatt). reflexivity.
      - unfold w1. tally. repeat split; auto; lia. }
  set (w2 := called remote attach w1) in *.
  assert (Hc2 : client w2 = true) by exact Hc.
  destruct (wait_loop_bounded remote (id created) (clock w2) upload_timeout_sec
              default_poll_interval ltac:(reflexivity) 90 fuel w2 Hf)
    as (status & evs & w3 & Hwait & Hl3 & Hev & _).
  { unfold upload_timeout_sec, default_poll_interval. lia. }
  destruct (poll_events_plain (poll_call w2) default_poll_interval evs I Hev)
    as (Hcr3 & He3 & Hw3).
  pose proof (within_wait_loop remote fuel (id created) (clock w2) upload_timeout_sec
                default_poll_interval w2) as Hext.
  rewrite Hwait in Hext. destruct Hext as (Hk3 & _).
  exists (results ++ [(uf_name uf, id created, status)])%list, w3. split.
  - unfold try_except. rewrite (bind_val _ _ _ _ _ Hreq).
    unfold bind at 1, get_active_vector_store_id. fold attach.
    rewrite (bind_val _ _ _ _ _ Hatt).
    assert (Hwu : wait_until_file_indexed remote fuel (id created) upload_timeout_sec
                    default_poll_interval w2 = (Val status, w3)) by exact Hwait.
    rewrite (bind_val _ _ _ _ _ Hwu). reflexivity.
  - split; [unfold client; simpl in Hk3; rewrite Hk3; exact Hc2|].
    rewrite Hl3. unfold w2, w1. tally. rewrite Hcr3, He3, Hw3. tally.
    repeat split; auto; lia.
Qed.

Lemma upload_files_tally (fuel : nat) (files : list UploadedFile) :
  (90 <= fuel)%nat ->
  forall (results : list UploadResult) (w : World),
    client w = true ->
    exists results' w',
      upload_files remote fuel files results w = (Val results', w')
      /\ creations_of (calls_of (log w'))
         = (creations_of (calls_of (log w)) ++ map creation_of files)%list
      /\ (length results' + length (errors_of (log w'))
          = length results + length (errors_of (log w)) + length files)%nat
      /\ writes_of (log w') = writes_of (log w).
Proof.
  intros Hf. induction files as [|uf files IH]; intros results w Hc.
  - exists results, w. simpl. rewrite app_nil_r. repeat split; lia.
  - cbn [upload_files]. fold (creation_of uf).
    destruct (upload_one fuel uf results w Hc Hf)
      as (r1 & w1 & H1 & Hc1 & Hcr1 & Ht1 & Hw1).
    unfold upload_failure in H1. rewrite (bind_val _ _ _ _ _ H1).
    destruct (IH r1 w1 Hc1) as (r' & w' & H' & Hcr' & Ht' & Hw').
    exists r', w'. rewrite H'. repeat split.
    + rewrite Hcr', Hcr1. simpl. rewrite <- app_assoc. reflexivity.
    + rewrite Ht'. simpl. lia.
    + congruence.
Qed.

Lemma results_shown (results : list UploadResult) (w : World) :
  exists w',
    for_each results show_result w = (Val tt, w')
    /\ calls_of (log w') = calls_of (log w)
    /\ errors_of (log w') = errors_of (log w)
    /\ length (writes_of (log w')) = (length (writes_of (log w)) + length results)%nat.
Proof.
  revert w. induction results as [|[[name fid] status] results IH]; intros w.
  - exists w. simpl. repeat split; lia.
  - cbn [for_each]. unfold bind. cbn [show_result show].
    match goal with
    | |- context [for_each results show_result ?w0] =>
        destruct (IH w0) as (w' & H & Hc & He & Hw)
    end.
    exists w'. rewrite H. simpl in *.
    rewrite calls_of_app in Hc. rewrite errors_of_app in He. rewrite writes_of_app in Hw.
    simpl in *. rewrite app_nil_r in Hc, He. rewrite length_app in Hw. simpl in Hw.
    repeat split; auto. lia.
Qed.

(** X15.  An upload that passes its checks works through every chosen file,
    whatever happens to the ones before: it requests the creation of each
    file once, in the order chosen, and every file ends up either as a
    result line with its status or as a "Failed to upload" error.  The
    action itself ends normally. *)
Theorem upload_accounts_for_every_file (fuel : nat) (files : list UploadedFile)
    (w : World) :
  client w = true ->
  truthy_opt (ACTIVE_VECTOR_STORE_ID w) = true ->
  (90 <= fuel)%nat ->
  fst (upload remote fuel files w) = Val tt
  /\ creations_of (calls_of (log (snd (upload remote fuel files w))))
     = (creations_of (calls_of (log w)) ++ map creation_of files)%list
  /\ (length (writes_of (log (snd (upload remote fuel files w))))
      + length (errors_of (log (snd (upload remote fuel files w))))
      = length (writes_of (log w)) + length (errors_of (log w)) + length files)%nat.
Proof.
  intros Hc Ha Hf. unfold upload.
  destruct files as [|uf files].
  - simpl. rewrite calls_of_shown, app_nil_r, writes_of_app, errors_of_app. simpl.
    rewrite !app_nil_r. repeat split; lia.
  - rewrite Ha, Hc. cbn [negb].
    destruct (upload_files_tally fuel (uf :: files) Hf [] w Hc)
      as (results & w1 & H1 & Hcr1 & Ht1 & Hw1).
    rewrite (bind_val _ _ _ _ _ H1).
    destruct (results_shown results
                (with_log w1 (log w1 ++ [Shown success "Upload finished:"])))
      as (w2 & H2 & Hc2 & He2 & Hw2).
    assert (Hfin : (show success "Upload finished:" ;; for_each results show_result) w1
                   = (Val tt, w2)).
    { unfold bind. cbn [show]. exact H2. }
    rewrite Hfin. cbn [fst snd]. simpl in Hc2, He2, Hw2.
    rewrite calls_of_shown in Hc2. rewrite errors_of_app in He2.
    rewrite writes_of_app in Hw2. simpl in He2, Hw2. rewrite app_nil_r in He2, Hw2.
    repeat split.
    + rewrite Hc2. exact Hcr1.
    + rewrite Hw2, He2, Hw1. simpl in Ht1. simpl. lia.
Qed.

End Uploading.

(** ** Reruns *)

Section Reruns.

Variable remote : Remote.
Variable py_str : PyVal -> string.

Lemma quiet_run_refreshes (fuel : nat) (i : Inputs) (w : World) (msg : string) :
  stores_unlistable remote msg ->
  PyStr.contains not_found_marker msg = true ->
  quiet i -> client w = true ->
  page remote py_str fuel i w
  = (Raised (PyExc RerunException "rerun"), refreshing remote (settings_shown w)).
Proof.
  intros Hu Hm Hq Hc. rewrite (page_quiet remote py_str fuel i w Hq).
  apply bind_raised. apply (list_vector_stores_not_found remote _ msg).
  - rewrite client_settings_shown. exact Hc.
  - apply Hu.
  - exact Hm.
Qed.

(** X16.  The refresh after a not-found listing has no bound of its own: as
    long as the service keeps answering the listing of the stores with
    that error, every run lists the stores once, shows no error and ends
    in another rerun, so the session does not settle within any number of
    reruns. *)
Theorem refresh_repeats_while_not_found (runs fuel : nat) (i : Inputs) (w : World)
    (msg : string) :
  stores_unlistable remote msg ->
  PyStr.contains not_found_marker msg = true ->
  quiet i -> client w = true ->
  fst (session remote py_str runs fuel i w) = OutOfFuel
  /\ calls_of (log (snd (session remote py_str runs fuel i w)))
     = (calls_of (log w) ++ repeat vector_stores_list (S runs))%list
  /\ errors_of (log (snd (session remote py_str runs fuel i w))) = errors_of (log w).
Proof.
  intros Hu Hm. revert i w. induction runs as [|runs IH]; intros i w Hq Hc;
    cbn [session]; rewrite (quiet_run_refreshes fuel i w msg Hu Hm Hq Hc);
    cbn [exn_cls]; destruct (settings_shown_log w) as [Hsc Hse].
  - simpl. rewrite calls_of_app, errors_of_app, calls_of_app, errors_of_app.
    simpl. rewrite !app_nil_r, Hsc, Hse. auto.
  - assert (Hc1 : client (refreshing remote (settings_shown w)) = true).
    { unfold refreshing, client. simpl. fold (client (settings_shown w)).
      rewrite client_settings_shown. exact Hc. }
    destruct (IH (after_rerun i) (refreshing remote (settings_shown w))
                (quiet_after_rerun i Hq) Hc1) as (Hr & Hcalls & Herr).
    unfold bind.
    destruct (session remote py_str runs fuel (after_rerun i)
                (refreshing remote (settings_shown w))) as [[n|e|] w'];
      simpl in Hr; try discriminate.
    simpl in *. split; [reflexivity|]. split.
    + rewrite Hcalls. unfold refreshing. simpl.
      rewrite calls_of_app, calls_of_app. simpl. rewrite app_nil_r, Hsc.
      rewrite <- app_assoc. reflexivity.
    + rewrite Herr. unfold refreshing. simpl.
      rewrite errors_of_app, errors_of_app. simpl. rewrite !app_nil_r. exact Hse.
Qed.

End Reruns.

(** ** More on the extraction *)

Lemma skipped_items (items : list PyVal) (st : Locals) :
  for_each items visit_item st = for_each (filter is_message items) visit_item st.
Proof.
  revert st. induction items as [|item items IH]; intros st; [reflexivity|].
  cbn [filter for_each]. unfold is_message at 1.
  destruct (Py.eq_str (Py.getattr item "type" PNone) "message") eqn:E.
  - cbn [for_each]. unfold bind. destruct (visit_item item st) as [[[]|e|] st1]; auto.
  - unfold bind. unfold visit_item at 1. rewrite E. cbn [ret]. apply IH.
Qed.

Lemma traverse_output (attrs : list (string * PyVal)) (items : list PyVal)
    (st : Locals) :
  Py.assoc "output" attrs = Some (PList items) ->
  traverse (PObj attrs) st = for_each items visit_item st.
Proof.
  intros Ha. unfold traverse, bind at 1. cbn [Py.attr]. rewrite Ha. cbn [ret].
  rewrite (bind_val _ _ _ _ _ (iter_list_or_empty items st)). reflexivity.
Qed.

(** X17.  Output items that are not of type [message] have no effect on the
    traversal, whatever their shape: a completion gives the same text and
    citations, or fails at the same point, as the one made of its message
    items alone. *)
Theorem traverse_skips_other_items (attrs : list (string * PyVal))
    (items : list PyVal) (st : Locals) :
  Py.assoc "output" attrs = Some (PList items) ->
  traverse (PObj attrs) st
  = traverse (PObj [("output", PList (filter is_message items))]) st.
Proof.
  intros Ha. rewrite (traverse_output attrs items st Ha).
  rewrite (traverse_output [("output", PList (filter is_message items))]
             (filter is_message items) st eq_refl).
  apply skipped_items.
Qed.

(** ** No exception escapes *)

Lemma contained_orderly {A} (m : M World A) : contained m -> orderly m.
Proof.
  intros H w. specialize (H w). destruct (fst (m w)); auto.
Qed.


Lemma orderly_raise {A} (c : exn_class) (msg : string) :
  c <> RerunException -> orderly (@raise World A c msg).
Proof. intros Hc w. simpl. left. destruct c; try reflexivity. congruence. Qed.






Lemma orderly_sleep (remote : Remote) (d : Z) : orderly (sleep remote d).
Proof. intros w. unfold sleep. destruct (d <? 0); simpl; auto. Qed.













Section NoCrash.

Variable remote : Remote.
Variable py_str : PyVal -> string.













(** *** The widget keys are apart *)




(** No key built in the loop over the stores is one of the script's
    constant keys. *)
Lemma loop_keys_apart (k : string) :
  (exists sid, In k (panel_keys sid)) \/ row_key k -> ~ In k constant_keys.
Proof.
  unfold panel_keys, set_active_key, delete_store_key, show_files_key, row_key,
    delete_file_key, constant_keys.
  intros [(sid & [<-|[<-|[<-|[]]]])|(vs & fid & ->)] [H|[H|[H|[H|[]]]]];
    simpl in H; discriminate H.
Qed.


(** *** What the run knows of its widgets *)






















(** *** Runs that end in order *)












End NoCrash.

(** ** Showing the files of a store *)

Section Files.

Variable remote : Remote.

Lemma widget_new (key : string) (w : World) :
  ~ In key (widget_keys w) ->
  widget key w = (Val tt, with_keys w (key :: widget_keys w)).
Proof.
  intros Hn. unfold widget.
  destruct (existsb (String.eqb key) (widget_keys w)) eqn:E; [|reflexivity].
  apply existsb_exists in E. destruct E as (k & Hin & He).
  apply String.eqb_eq in He. subst k. contradiction.
Qed.

Lemma shown_name (fobj : FileObject) :
  default "(unknown)" (or_opt (or_opt (fo_filename fobj) (fo_name fobj)) (Some "(unknown)"))
  = if truthy_opt (fo_filename fobj) then default "" (fo_filename fobj)
    else if truthy_opt (fo_name fobj) then default "" (fo_name fobj)
    else "(unknown)".
Proof.
  unfold or_opt.
  destruct (truthy_opt (fo_filename fobj)) eqn:E1.
  - rewrite E1. destruct (fo_filename fobj); [reflexivity | discriminate E1].
  - destruct (truthy_opt (fo_name fobj)) eqn:E2.
    + destruct (fo_name fobj); [reflexivity | discriminate E2].
    + reflexivity.
Qed.

(** Lines 226-232: the name of the file of a row. *)
Lemma row_name (ref : FileRef) (w : World) (lookup : string -> Reply FileObject) :
  client w = true ->
  (forall t past fid, serve remote t past (files_retrieve fid) = lookup fid) ->
  exists filename w1,
    (if truthy_opt (or_opt (ref_file_id ref) (ref_id ref)) then
       try_except
         (fobj <- request remote
                    (files_retrieve (default "" (or_opt (ref_file_id ref) (ref_id ref)))) ;;
          ret (or_opt (fo_filename fobj) (fo_name fobj)))
         (fun _ => ret None)
     else ret None) w = (Val filename, w1)
    /\ default "(unknown)" (or_opt filename (Some "(unknown)")) = row_text lookup ref
    /\ client w1 = true
    /\ writes_of (log w1) = writes_of (log w)
    /\ errors_of (log w1) = errors_of (log w)
    /\ widget_keys w1 = widget_keys w.
Proof.
  intros Hc Hl. unfold row_text, ref_fid.
  destruct (or_opt (ref_file_id ref) (ref_id ref)) as [fid|] eqn:Ef; cbn [truthy_opt default].
  - destruct (PyStr.truthy fid) eqn:Et.
    + unfold try_except, bind.
      destruct (request_cases remote (files_retrieve fid) w Hc)
        as [(a & Hr & ->)|(msg & Hr & ->)];
        unfold reply in Hr; rewrite Hl in Hr; rewrite Hr; simpl.
      * eexists _, _. split; [reflexivity|]. split; [apply shown_name|].
        simpl. rewrite writes_of_app, errors_of_app. simpl. rewrite !app_nil_r. auto.
      * eexists _, _. split; [reflexivity|]. split; [reflexivity|].
        simpl. rewrite writes_of_app, errors_of_app. simpl. rewrite !app_nil_r. auto.
    + exists None, w. auto 7.
  - exists None, w. auto 7.
Qed.

(** A row whose "Delete" is not pressed and whose key is new. *)
Lemma file_row_listed (vs : string) (clicked : option string -> bool)
    (ref : FileRef) (w : World) (lookup : string -> Reply FileObject) :
  client w = true -> (forall fid, clicked fid = false) ->
  (forall t past fid, serve remote t past (files_retrieve fid) = lookup fid) ->
  ~ In (row_key_of vs ref) (widget_keys w) ->
  exists w',
    file_row remote vs clicked ref w = (Val tt, w')
    /\ client w' = true
    /\ writes_of (log w') = (writes_of (log w) ++ [row_text lookup ref])%list
    /\ errors_of (log w') = errors_of (log w)
    /\ widget_keys w' = row_key_of vs ref :: widget_keys w.
Proof.
  intros Hc Hk Hl Hn. unfold file_row. rewrite Hk.
  destruct (row_name ref w lookup Hc Hl) as (filename & w1 & H1 & Ht & Hc1 & Hw1 & He1 & Hk1).
  rewrite (bind_val _ _ _ _ _ H1). unfold bind at 1. cbn [show].
  unfold bind.
  rewrite (widget_new (delete_file_key vs (or_opt (ref_file_id ref) (ref_id ref))));
    [|simpl; rewrite Hk1; exact Hn].
  simpl. eexists. split; [reflexivity|]. simpl.
  rewrite writes_of_app, errors_of_app. simpl. rewrite app_nil_r, Ht, Hw1, He1, Hk1.
  repeat split; auto.
Qed.

Lemma rows_listed (vs : string) (clicked : option string -> bool)
    (lookup : string -> Reply FileObject) (refs : list FileRef) :
  (forall fid, clicked fid = false) ->
  (forall t past fid, serve remote t past (files_retrieve fid) = lookup fid) ->
  NoDup (map (row_key_of vs) refs) ->
  forall w, client w = true ->
    (forall ref, In ref refs -> ~ In (row_key_of vs ref) (widget_keys w)) ->
    exists w',
      for_each refs (file_row remote vs clicked) w = (Val tt, w')
      /\ writes_of (log w') = (writes_of (log w) ++ map (row_text lookup) refs)%list
      /\ errors_of (log w') = errors_of (log w).
Proof.
  intros Hk Hl. induction refs as [|ref refs IH]; intros Hnd w Hc Hfresh.
  - exists w. simpl. rewrite app_nil_r. auto.
  - cbn [for_each]. simpl in Hnd. inversion Hnd as [|x l Hx Hrest]; subst.
    destruct (file_row_listed vs clicked ref w lookup Hc Hk Hl
                (Hfresh ref (or_introl eq_refl)))
      as (w1 & H1 & Hc1 & Hw1 & He1 & Hk1).
    rewrite (bind_val _ _ _ _ _ H1).
    destruct (IH Hrest w1 Hc1) as (w2 & H2 & Hw2 & He2).
    { intros r Hr. rewrite Hk1. intros [H|H].
      - apply Hx. rewrite H. apply in_map. exact Hr.
      - apply (Hfresh r (or_intror Hr) H). }
    exists w2. split; [exact H2|]. split; [|congruence].
    rewrite Hw2, Hw1. simpl. rewrite <- app_assoc. reflexivity.
Qed.

(** X19.  The file list shows one line for every file the store holds, in
    the order of the listing: the [filename] of the file, else its
    [name], else "(unknown)", which is also the line of a file whose
    lookup fails or whose reference has no id; a store without files
    gets the one line "No files.".  No error is shown and the action ends
    normally.  This is so when no "Delete" of a row is pressed, the rows
    have keys that differ from one another and from the widgets created
    before, and the lookup of a file does not depend on the time. *)
Theorem show_files_lists_every_file (vs : string) (clicked : option string -> bool)
    (w : World) (refs : list FileRef) (lookup : string -> Reply FileObject) :
  client w = true ->
  reply remote (vector_stores_files_list (Some vs)) w = Ok refs ->
  (forall fid, clicked fid = false) ->
  (forall t past fid, serve remote t past (files_retrieve fid) = lookup fid) ->
  NoDup (map (row_key_of vs) refs) ->
  (forall ref, In ref refs -> ~ In (row_key_of vs ref) (widget_keys w)) ->
  fst (show_files remote vs clicked w) = Val tt
  /\ writes_of (log (snd (show_files remote vs clicked w)))
     = (writes_of (log w) ++ file_lines lookup refs)%list
  /\ errors_of (log (snd (show_files remote vs clicked w))) = errors_of (log w).
Proof.
  intros Hc Hr Hk Hl Hnd Hfresh.
  assert (Hin : exists w',
             (refs <- request remote (vector_stores_files_list (Some vs)) ;;
              match refs with
              | [] => show write "No files."
              | _ :: _ => for_each refs (file_row remote vs clicked)
              end) w = (Val tt, w')
             /\ writes_of (log w') = (writes_of (log w) ++ file_lines lookup refs)%list
             /\ errors_of (log w') = errors_of (log w)).
  { rewrite (bind_val _ _ _ _ _
               (request_ok remote (vector_stores_files_list (Some vs)) w refs Hc Hr)).
    destruct refs as [|ref refs].
    - eexists. split; [reflexivity|]. simpl.
      rewrite !writes_of_app, !errors_of_app. simpl.
      rewrite ?app_nil_r. split; reflexivity.
    - destruct (rows_listed vs clicked lookup (ref :: refs) Hk Hl Hnd
                  (called remote (vector_stores_files_list (Some vs)) w) Hc Hfresh)
        as (w' & H & Hw & He).
      exists w'. split; [exact H|]. simpl in Hw, He.
      rewrite writes_of_app in Hw. rewrite errors_of_app in He. simpl in Hw, He.
      rewrite app_nil_r in Hw, He. split; [exact Hw | exact He]. }
  destruct Hin as (w' & H & Hw & He).
  unfold show_files.
  rewrite (try_val _ _ _ w' tt); [auto|]. rewrite Hc. exact H.
Qed.

(** X20.  A listing of the files that fails because the store is no longer
    found shows the notice that the store was deleted and ends the run in
    [st.rerun()], without an error; any other failure of the listing is
    shown as an error with the service's message, and the run goes on. *)
Theorem show_files_listing_failure (vs : string) (clicked : option string -> bool)
    (w : World) (msg : string) :
  client w = true ->
  reply remote (vector_stores_files_list (Some vs)) w = Fail msg ->
  (PyStr.contains not_found_marker msg = true ->
   show_files remote vs clicked w
   = (Raised rerun_request,
      with_log (called remote (vector_stores_files_list (Some vs)) w)
        (log w ++ [Called (vector_stores_files_list (Some vs));
                   Shown info "Store was deleted. Refreshing..."])))
  /\ (PyStr.contains not_found_marker msg = false ->
      show_files remote vs clicked w
      = (Val tt,
         with_log (called remote (vector_stores_files_list (Some vs)) w)
           (log w ++ [Called (vector_stores_files_list (Some vs));
                      Shown error ("Failed to list files for store: " ++ msg)]))).
Proof.
  intros Hc Hr.
  assert (Hin : (fun w0 =>
                   if negb (client w0) then
                     show info "Set your OpenAI API key in Settings to load files." w0
                   else
                     (refs <- request remote (vector_stores_files_list (Some vs)) ;;
                      match refs with
                      | [] => show write "No files."
                      | _ :: _ => for_each refs (file_row remote vs clicked)
                      end) w0) w
                = (Raised (PyExc APIError msg),
                   called remote (vector_stores_files_list (Some vs)) w)).
  { cbv beta. rewrite Hc. cbn [negb].
    apply bind_raised. apply (request_fail remote (vector_stores_files_list (Some vs)) w msg Hc Hr). }
  split; intros Hm; unfold show_files;
    rewrite (try_caught _ _ _ _ _ Hin eq_refl); cbn [exn_msg]; rewrite Hm;
    unfold bind, show, st_rerun, raise, rerun_request, called; simpl;
    rewrite <- app_assoc; reflexivity.
Qed.

End Files.

(** ** Where an upload goes *)

Lemma steady_frame (a : option string) (P : Call -> Prop) {A} (m : M World A) :
  within P m -> keeps_active m -> steady a P m.
Proof. intros Hw Hk w Ha. split; [apply Hw | rewrite Hk; exact Ha]. Qed.

Lemma steady_bind (a : option string) (P : Call -> Prop) {A B}
    (m : M World A) (k : A -> M World B) :
  steady a P m -> (forall x, steady a P (k x)) -> steady a P (bind m k).
Proof.
  intros Hm Hk w Ha. destruct (Hm w Ha) as [He Ha1]. unfold bind.
  destruct (m w) as [[x|e|] w1]; simpl in *; auto.
  destruct (Hk x w1 Ha1) as [He2 Ha2]. split; [|exact Ha2].
  apply (extends_trans P w w1); assumption.
Qed.

Lemma steady_try (a : option string) (P : Call -> Prop) {A}
    (m : M World A) (h : exn -> M World A) :
  steady a P m -> (forall e, steady a P (h e)) -> steady a P (try_except m h).
Proof.
  intros Hm Hh w Ha. destruct (Hm w Ha) as [He Ha1]. unfold try_except.
  destruct (m w) as [[x|e|] w1]; simpl in *; auto.
  destruct (is_Exception e); simpl; auto.
  destruct (Hh e w1 Ha1) as [He2 Ha2]. split; [|exact Ha2].
  apply (extends_trans P w w1); assumption.
Qed.

(** Reading the active store gives [a]. *)
Lemma steady_get (a : option string) (P : Call -> Prop) {B}
    (k : option string -> M World B) :
  steady a P (k a) -> steady a P (bind get_active_vector_store_id k).
Proof.
  intros Hk w Ha. unfold bind, get_active_vector_store_id. simpl.
  rewrite Ha. apply Hk. exact Ha.
Qed.

Section Target.

Variable remote : Remote.

Lemma steady_request (a : option string) (P : Call -> Prop) (c : Call) :
  P c -> steady a P (request remote c).
Proof.
  intros Hc. apply steady_frame;
    [exact (within_request remote P c Hc) | exact (keeps_active_request remote c)].
Qed.

Lemma steady_pause (a : option string) (P : Call -> Prop) (d : Z) :
  steady a P (sleep remote d ;; ret (@None string)).
Proof.
  apply steady_frame.
  - apply within_bind; [apply within_sleep | intros _; apply within_ret].
  - apply keeps_active_bind; [apply keeps_active_sleep | intros _; apply keeps_active_ret].
Qed.

Lemma steady_attempt (a : option string) (file_id : string) (poll_interval : Z) :
  steady a (upload_to a) (attempt remote file_id poll_interval).
Proof.
  unfold attempt. apply steady_try; [|intros e; apply steady_pause].
  apply steady_get. apply steady_bind;
    [exact (steady_request a (upload_to a) (vector_stores_files_list a) eq_refl)
    |intros data].
  destruct (scan file_id data); [|apply steady_pause].
  apply steady_frame; [apply within_ret | apply keeps_active_ret].
Qed.

Lemma steady_wait_loop (a : option string) (file_id : string)
    (start timeout_sec poll_interval : Z) :
  forall fuel,
    steady a (upload_to a) (wait_loop remote fuel file_id start timeout_sec poll_interval).
Proof.
  induction fuel as [|fuel IH]; intros w Ha; cbn [wait_loop];
    destruct (clock w - start <? 1000 * timeout_sec);
    try (split; [apply extends_refl | exact Ha]).
  revert w Ha. apply steady_bind; [apply steady_attempt | intros r].
  destruct r; [|exact IH].
  apply steady_frame; [apply within_ret | apply keeps_active_ret].
Qed.

Lemma steady_upload_files (a : option string) (fuel : nat) (files : list UploadedFile) :
  forall results, steady a (upload_to a) (upload_files remote fuel files results).
Proof.
  induction files as [|uf files IH]; intros results; cbn [upload_files].
  - apply steady_frame; [apply within_ret | apply keeps_active_ret].
  - apply steady_bind; [|intros r; apply IH].
    apply steady_try.
    + apply steady_bind;
        [exact (steady_request a (upload_to a)
                  (files_create (uf_name uf) (uf_value uf) "assistants") eq_refl)
        |intros created].
      apply steady_get. apply steady_bind;
        [exact (steady_request a (upload_to a)
                  (vector_stores_files_create a (id created)) eq_refl)
        |intros _].
      apply steady_bind.
      * intros w Ha. unfold wait_until_file_indexed. apply steady_wait_loop. exact Ha.
      * intros status. apply steady_frame; [apply within_ret | apply keeps_active_ret].
    + intros e. apply steady_frame.
      * apply within_bind; [apply within_show | intros _; apply within_ret].
      * apply keeps_active_bind; [apply keeps_active_show | intros _; apply keeps_active_ret].
Qed.

(** X21.  Everything an upload sends goes to the store that was active when
    "Upload" was pressed: each file is created for assistants, attached to
    that store, and polled in the listing of that store, and of no other. *)
Theorem upload_targets_active_store (fuel : nat) (files : list UploadedFile)
    (w : World) :
  extends (upload_to (ACTIVE_VECTOR_STORE_ID w)) w (snd (upload remote fuel files w)).
Proof.
  unfold upload. destruct files as [|uf files]; [apply within_show|].
  destruct (negb _); [apply within_show|].
  destruct (negb _); [apply within_show|].
  assert (H : steady (ACTIVE_VECTOR_STORE_ID w) (upload_to (ACTIVE_VECTOR_STORE_ID w))
                (results <- upload_files remote fuel (uf :: files) [] ;;
                 show success "Upload finished:" ;;
                 for_each results show_result)).
  { apply steady_bind; [apply steady_upload_files | intros results].
    apply steady_frame.
    - apply within_bind; [apply within_show | intros _].
      apply within_for_each. intros [[name fid] status]. apply within_show.
    - apply keeps_active_bind; [apply keeps_active_show | intros _].
      apply keeps_active_for_each. intros [[name fid] status]. apply keeps_active_show. }
  apply (H w eq_refl).
Qed.

End Target.

(** ** The further properties at work *)

Import Cases.

Lemma wait_until_file_indexed_results_witness :
  wait_until_file_indexed indexed 1 "f1" 60 1000 signed_in
  = (Val "completed", snd (wait_until_file_indexed indexed 1 "f1" 60 1000 signed_in))
  /\ ("completed" = "completed" \/ "completed" = "failed" \/ "completed" = "error"
      \/ "completed" = "timeout")
  /\ ("completed" <> "timeout" ->
      exists w0 data,
        clock w0 - clock signed_in < 1000 * 60
        /\ reply indexed (poll_call w0) w0 = Ok data
        /\ scan "f1" data = Some "completed"
        /\ snd (wait_until_file_indexed indexed 1 "f1" 60 1000 signed_in)
           = called indexed (poll_call w0) w0).
Proof.
  split; [reflexivity|].
  apply (wait_until_file_indexed_results indexed 1 "f1" 60 1000 signed_in
           (snd (wait_until_file_indexed indexed 1 "f1" 60 1000 signed_in)) "completed").
  reflexivity.
Defined.

Lemma timeout_only_after_budget_witness :
  wait_until_file_indexed indexing 2 "f1" 2 1000 signed_in
  = (Val "timeout", snd (wait_until_file_indexed indexing 2 "f1" 2 1000 signed_in))
  /\ 1000 * 2
     <= clock (snd (wait_until_file_indexed indexing 2 "f1" 2 1000 signed_in))
        - clock signed_in
  /\ extends poll_request signed_in
       (snd (wait_until_file_indexed indexing 2 "f1" 2 1000 signed_in))
  /\ ACTIVE_VECTOR_STORE_ID (snd (wait_until_file_indexed indexing 2 "f1" 2 1000 signed_in))
     = ACTIVE_VECTOR_STORE_ID signed_in.
Proof.
  split; [reflexivity|].
  apply (timeout_only_after_budget indexing 2 "f1" 2 1000 signed_in). reflexivity.
Defined.

Lemma never_terminal_times_out_witness :
  never_terminal indexing "f1"
  /\ 0 < 1000
  /\ (max_turns 90 1000 <= 90)%nat
  /\ fst (wait_until_file_indexed indexing 90 "f1" 90 1000 signed_in) = Val "timeout".
Proof.
  split; [intros t past a; reflexivity|]. split; [reflexivity|].
  split; [vm_compute; lia|].
  apply (never_terminal_times_out indexing 90 "f1" 90 1000 signed_in);
    [intros t past a; reflexivity | reflexivity | vm_compute; lia].
Defined.

Lemma find_program_shows_result_witness :
  PyStr.strip "example.com" <> ""
  /\ client signed_in = true
  /\ truthy_opt (ACTIVE_VECTOR_STORE_ID signed_in) = true
  /\ reply answering (query_call "example.com" signed_in) signed_in
     = Ok (Completion.to_py cited)
  /\ find_program answering str "example.com" signed_in
     = (Val tt,
        with_log (called answering (query_call "example.com" signed_in) signed_in)
          (log signed_in ++ Called (query_call "example.com" signed_in)
             :: result_panel str (Completion.spec_text cited)
                  (Completion.spec_citations cited))).
Proof.
  split; [simpl; discriminate|]. split; [reflexivity|]. split; [reflexivity|].
  split; [reflexivity|].
  apply (find_program_shows_result answering str "example.com" signed_in cited);
    [simpl; discriminate | reflexivity | reflexivity | reflexivity].
Defined.

Lemma find_program_reports_failure_witness :
  PyStr.strip "example.com" <> ""
  /\ client signed_in = true
  /\ truthy_opt (ACTIVE_VECTOR_STORE_ID signed_in) = true
  /\ reply unreachable (query_call "example.com" signed_in) signed_in
     = Fail "Connection error."
  /\ find_program unreachable str "example.com" signed_in
     = (Val tt,
        with_log (called unreachable (query_call "example.com" signed_in) signed_in)
          (log signed_in ++ [Called (query_call "example.com" signed_in);
                             Shown error ("An error occurred: " ++ "Connection error.")])).
Proof.
  split; [simpl; discriminate|]. split; [reflexivity|]. split; [reflexivity|].
  split; [reflexivity|].
  apply (find_program_reports_failure unreachable str "example.com" signed_in
           "Connection error.");
    [simpl; discriminate | reflexivity | reflexivity | reflexivity].
Defined.

Lemma no_key_no_traffic_witness :
  OPENAI_API_KEY signed_out = ""
  /\ calls_of (log (snd (page indexed str 90 all_pressed signed_out)))
     = calls_of (log signed_out)
  /\ calls_of (log (snd (session indexed str 3 90 all_pressed signed_out)))
     = calls_of (log signed_out).
Proof.
  split; [reflexivity|].
  apply (no_key_no_traffic indexed str 3 90 all_pressed signed_out). reflexivity.
Defined.

Lemma create_vector_store_outcome_witness :
  client signed_in = true
  /\ (fst (create_vector_store empty_service "knowledge_base" signed_in) = Val tt
      /\ ACTIVE_VECTOR_STORE_ID
           (snd (create_vector_store empty_service "knowledge_base" signed_in))
         = Some "vs_new"
      /\ log (snd (create_vector_store empty_service "knowledge_base" signed_in))
         = (log signed_in ++ [Called (vector_stores_create "knowledge_base");
                              Shown success (creation_message "vs_new")])%list)
  /\ (fst (create_vector_store unreachable "knowledge_base" signed_in) = Val tt
      /\ ACTIVE_VECTOR_STORE_ID
           (snd (create_vector_store unreachable "knowledge_base" signed_in))
         = ACTIVE_VECTOR_STORE_ID signed_in
      /\ log (snd (create_vector_store unreachable "knowledge_base" signed_in))
         = (log signed_in ++ [Called (vector_stores_create "knowledge_base");
                              Shown error (creation_failure "Connection error.")])%list).
Proof.
  split; [reflexivity|]. split.
  - apply (proj1 (create_vector_store_outcome empty_service "knowledge_base" signed_in
                    eq_refl) {| id := "vs_new" |}).
    reflexivity.
  - apply (proj2 (create_vector_store_outcome unreachable "knowledge_base" signed_in
                    eq_refl) "Connection error.").
    reflexivity.
Defined.

Lemma deleted_files_counted_witness :
  client signed_in = true
  /\ exists n w1,
      detach_and_delete_files two_files "vs_1" signed_in = (Val n, w1)
      /\ (n + length (warnings_of (log w1))
          = length (warnings_of (log signed_in))
            + length (attached_ids (enumerated two_files "vs_1" signed_in)))%nat
      /\ (forall u, reply two_files (vector_stores_delete "vs_1") w1 = Ok u ->
            In (Shown success (deletion_message "vs_1" n))
               (log (snd (delete_store two_files "vs_1" signed_in)))).
Proof.
  split; [reflexivity|].
  apply (deleted_files_counted two_files "vs_1" signed_in). reflexivity.
Defined.

Lemma failed_deletion_keeps_active_witness :
  client signed_in = true
  /\ reply unreachable (vector_stores_delete "vs_1")
       (snd (detach_and_delete_files unreachable "vs_1" signed_in))
     = Fail "Connection error."
  /\ fst (delete_store unreachable "vs_1" signed_in) = Val tt
  /\ ACTIVE_VECTOR_STORE_ID (snd (delete_store unreachable "vs_1" signed_in))
     = ACTIVE_VECTOR_STORE_ID signed_in
  /\ calls_of (log (snd (delete_store unreachable "vs_1" signed_in)))
     = (calls_of (log signed_in)
        ++ vector_stores_files_list (Some "vs_1")
           :: file_attempts "vs_1" (attached_ids (enumerated unreachable "vs_1" signed_in))
        ++ [vector_stores_delete "vs_1"])%list.
Proof.
  split; [reflexivity|]. split; [reflexivity|].
  apply (failed_deletion_keeps_active unreachable "vs_1" signed_in "Connection error.");
    reflexivity.
Defined.

Lemma upload_accounts_for_every_file_witness :
  client signed_in = true
  /\ truthy_opt (ACTIVE_VECTOR_STORE_ID signed_in) = true
  /\ (90 <= 90)%nat
  /\ fst (upload unreachable 90 [a_txt; a_txt] signed_in) = Val tt
  /\ creations_of (calls_of (log (snd (upload unreachable 90 [a_txt; a_txt] signed_in))))
     = (creations_of (calls_of (log signed_in)) ++ map creation_of [a_txt; a_txt])%list
  /\ (length (writes_of (log (snd (upload unreachable 90 [a_txt; a_txt] signed_in))))
      + length (errors_of (log (snd (upload unreachable 90 [a_txt; a_txt] signed_in))))
      = length (writes_of (log signed_in)) + length (errors_of (log signed_in))
        + length [a_txt; a_txt])%nat.
Proof.
  split; [reflexivity|]. split; [reflexivity|]. split; [lia|].
  apply (upload_accounts_for_every_file unreachable 90 [a_txt; a_txt] signed_in);
    [reflexivity | reflexivity | lia].
Defined.

Lemma refresh_repeats_while_not_found_witness :
  stores_unlistable vanished "Error code: 404 - Vector store not found"
  /\ PyStr.contains not_found_marker "Error code: 404 - Vector store not found" = true
  /\ quiet no_inputs
  /\ client signed_in = true
  /\ fst (session vanished str 2 90 no_inputs signed_in) = OutOfFuel
  /\ calls_of (log (snd (session vanished str 2 90 no_inputs signed_in)))
     = (calls_of (log signed_in) ++ repeat vector_stores_list 3)%list
  /\ errors_of (log (snd (session vanished str 2 90 no_inputs signed_in)))
     = errors_of (log signed_in).
Proof.
  split; [intros t past; reflexivity|]. split; [reflexivity|].
  split; [repeat split; reflexivity|]. split; [reflexivity|].
  apply (refresh_repeats_while_not_found vanished str 2 90 no_inputs signed_in
           "Error code: 404 - Vector store not found");
    [intros t past; reflexivity | reflexivity | repeat split; reflexivity | reflexivity].
Defined.

Lemma traverse_skips_other_items_witness :
  Py.assoc "output" [("id", PStr "resp_1"); ("output", PList with_tool_call)]
  = Some (PList with_tool_call)
  /\ traverse (PObj [("id", PStr "resp_1"); ("output", PList with_tool_call)]) locals0
     = traverse (PObj [("output", PList (filter is_message with_tool_call))]) locals0.
Proof.
  split; [reflexivity|].
  apply (traverse_skips_other_items
           [("id", PStr "resp_1"); ("output", PList with_tool_call)] with_tool_call locals0).
  reflexivity.
Defined.


(** A service that lists a store id twice ends the run in Streamlit's
    exception: the second panel asks for the key of the first. *)
Example repeated_store_id_ends_run :
  fst (page twins str 0 no_inputs signed_in)
  = Raised (PyExc StreamlitDuplicateElementKey
              (duplicate_key_message "btn_delete_store_vs_1")).
Proof. reflexivity. Qed.

(** A file list that holds a file id twice shows the first row and then
    the exception of the second as a failure of the listing. *)
Example repeated_file_id_shows_error :
  fst (show_files doubled "vs_1" (fun _ => false) signed_in) = Val tt
  /\ writes_of (log (snd (show_files doubled "vs_1" (fun _ => false) signed_in)))
     = ["a.pdf"; "a.pdf"]
  /\ errors_of (log (snd (show_files doubled "vs_1" (fun _ => false) signed_in)))
     = ["Failed to list files for store: "
        ++ duplicate_key_message "btn_del_vs_1_f1"].
Proof. repeat split; reflexivity. Qed.

Lemma show_files_lists_every_file_witness :
  client signed_in = true
  /\ reply nameless (vector_stores_files_list (Some "vs_1")) signed_in
     = Ok [ref "f1" "completed"; ref "f2" "completed"]
  /\ (forall fid : option string, (fun _ : option string => false) fid = false)
  /\ (forall t past fid, serve nameless t past (files_retrieve fid) = no_file fid)
  /\ NoDup (map (row_key_of "vs_1") [ref "f1" "completed"; ref "f2" "completed"])
  /\ fst (show_files nameless "vs_1" (fun _ => false) signed_in) = Val tt
  /\ writes_of (log (snd (show_files nameless "vs_1" (fun _ => false) signed_in)))
     = (writes_of (log signed_in)
        ++ file_lines no_file [ref "f1" "completed"; ref "f2" "completed"])%list
  /\ errors_of (log (snd (show_files nameless "vs_1" (fun _ => false) signed_in)))
     = errors_of (log signed_in).
Proof.
  assert (Hnd : NoDup (map (row_key_of "vs_1")
                         [ref "f1" "completed"; ref "f2" "completed"])).
  { constructor; [simpl; intros [H|[]]; discriminate H|].
    constructor; [intros [] | constructor]. }
  split; [reflexivity|]. split; [reflexivity|]. split; [intros fid; reflexivity|].
  split; [intros t past fid; reflexivity|]. split; [exact Hnd|].
  apply (show_files_lists_every_file nameless "vs_1" (fun _ => false) signed_in
           [ref "f1" "completed"; ref "f2" "completed"] no_file);
    [reflexivity | reflexivity | intros fid; reflexivity
    | intros t past fid; reflexivity | exact Hnd | intros r _ []].
Defined.

Lemma show_files_listing_failure_witness :
  client signed_in = true
  /\ reply store_gone (vector_stores_files_list (Some "vs_1")) signed_in
     = Fail "Error code: 404 - Vector store not found"
  /\ show_files store_gone "vs_1" (fun _ => false) signed_in
     = (Raised rerun_request,
        with_log (called store_gone (vector_stores_files_list (Some "vs_1")) signed_in)
          (log signed_in ++ [Called (vector_stores_files_list (Some "vs_1"));
                             Shown info "Store was deleted. Refreshing..."])).
Proof.
  split; [reflexivity|]. split; [reflexivity|].
  apply (proj1 (show_files_listing_failure store_gone "vs_1" (fun _ => false) signed_in
                  "Error code: 404 - Vector store not found" eq_refl eq_refl)).
  reflexivity.
Defined.
